(** * OCFL inventory validation (ocfl-py): a shallow embedding

    The development follows [ocfl/inventory_validator.py] and
    [ocfl/validation_logger.py].  A parsed inventory is a JSON value as
    [json.load] returns it; the validator walks it, mutating its own
    snapshot fields and the logger it was given.  Python exceptions are
    explicit: every validator method returns an outcome together with the
    state reached, so the effects made before a raise stay visible.

    Text is modelled by [string]; a character is one of the 256 code points
    of [ascii] (the Latin-1 range of Python's [str]).  JSON numbers are the
    integers and the floats, NaN and the infinities included; a finite float
    is given with the text that [repr] prints for it.  Patterns are compiled
    from their text by a reader of the fragment of [re] the code needs; a
    pattern outside it, which only a [contentDirectory] spliced into a
    pattern can produce, is an error of its own ([ReError]).

    Two parts of the repository are not among the sources and are taken as
    given: the catalogue of validation codes, a field of the logger, and
    [w3c_datetime.str_to_datetime], a parameter of the methods that call
    it. *)

From Stdlib Require Import ZArith Bool Ascii String List Lia DecimalString.
From Stdlib Require Import Sorting.Sorted Sorting.Permutation.
From stdpp Require Import base option list gmap strings sorting.

Local Open Scope Z_scope.
Set Warnings "-register-all".

(* ------------------------------------------------------------------ *)
(** * Python values and built-in operations *)
(* ------------------------------------------------------------------ *)

Module Py.

(** A float: not a number, an infinity, or the number [m * 2 ^ e], which
    every finite float is.  A finite float comes with the text that [repr]
    prints for it, which is read here and never computed. *)
Inductive float : Type :=
| FNaN
| FInf (negative : bool)
| FFinite (m e : Z) (repr : string).

(** What [json.load] yields.  A dictionary keeps its insertion order, which
    Python's iteration follows; [json.load] never yields a repeated key. *)
Inductive json : Type :=
| JNull
| JBool (b : bool)
| JInt (z : Z)
| JFloat (f : float)
| JStr (s : string)
| JList (l : list json)
| JDict (d : list (string * json)).

(** The exceptions the modelled code can meet.  [ReError] stands for a
    pattern that [re] refuses to compile or that lies outside the fragment
    of the pattern language modelled in [Re]. *)
Inductive exn : Type :=
| TypeError
| KeyError
| IndexError
| AttributeError
| UnboundLocalError
| ValueError (msg : string)
| ReError
| Exception (msg : string).

Inductive outcome (A : Type) : Type :=
| Ok (a : A)
| Raise (e : exn).
Arguments Ok {A} a.
Arguments Raise {A} e.

Definition LF : ascii := ascii_of_nat 10.
Definition quote1 : ascii := ascii_of_nat 39.
Definition quote2 : ascii := ascii_of_nat 34.
Definition backslash : ascii := ascii_of_nat 92.

Definition str1 (c : ascii) : string := String c EmptyString.

Fixpoint dict_get {V : Type} (k : string) (d : list (string * V)) : option V :=
  match d with
  | [] => None
  | (k', v) :: d' => if String.eqb k k' then Some v else dict_get k d'
  end.

Definition dict_has {V : Type} (k : string) (d : list (string * V)) : bool :=
  match dict_get k d with Some _ => true | None => false end.

Definition dict_keys {V : Type} (d : list (string * V)) : list string := map fst d.

(** [d[k] = v]: an existing key keeps its place, a new key goes last. *)
Fixpoint dict_set {K V : Type} (eqb : K -> K -> bool) (k : K) (v : V)
    (d : list (K * V)) : list (K * V) :=
  match d with
  | [] => [(k, v)]
  | (k', v') :: d' =>
      if eqb k k' then (k', v) :: d' else (k', v') :: dict_set eqb k v d'
  end.

(** [m1 * 2 ^ e1 == m2 * 2 ^ e2]. *)
Definition dyadic_eqb (m1 e1 m2 e2 : Z) : bool :=
  let e := Z.min e1 e2 in
  Z.eqb (m1 * 2 ^ (e1 - e)) (m2 * 2 ^ (e2 - e)).

Definition is_nan (f : float) : bool :=
  match f with FNaN => true | _ => false end.

(** [==] on two floats, and on a float and an integer, which Python
    compares by their exact values. *)
Definition float_eqb (f g : float) : bool :=
  match f, g with
  | FInf a, FInf b => Bool.eqb a b
  | FFinite m1 e1 _, FFinite m2 e2 _ => dyadic_eqb m1 e1 m2 e2
  | _, _ => false
  end.

Definition float_eqb_int (f : float) (z : Z) : bool :=
  match f with
  | FFinite m e _ => dyadic_eqb m e z 0
  | _ => false
  end.

(** [a is b or a == b], the comparison that lists, dictionaries, sets and
    [in] make of their elements: [True == 1 == 1.0], lists compare element
    by element, dictionaries regardless of order.  It differs from [==] on
    NaN only: [json.load] yields one and the same object for every NaN, and
    an object is found equal to itself before [==] is asked. *)
Fixpoint py_same (a b : json) {struct a} : bool :=
  match a, b with
  | JNull, JNull => true
  | JBool x, JBool y => Bool.eqb x y
  | JBool x, JInt y => Z.eqb (Z.b2z x) y
  | JBool x, JFloat g => float_eqb_int g (Z.b2z x)
  | JInt x, JBool y => Z.eqb x (Z.b2z y)
  | JInt x, JInt y => Z.eqb x y
  | JInt x, JFloat g => float_eqb_int g x
  | JFloat f, JBool y => float_eqb_int f (Z.b2z y)
  | JFloat f, JInt y => float_eqb_int f y
  | JFloat f, JFloat g => is_nan f && is_nan g || float_eqb f g
  | JStr x, JStr y => String.eqb x y
  | JList xs, JList ys =>
      (fix go (xs ys : list json) {struct xs} : bool :=
         match xs, ys with
         | [], [] => true
         | x :: xs', y :: ys' => py_same x y && go xs' ys'
         | _, _ => false
         end) xs ys
  | JDict xs, JDict ys =>
      Nat.eqb (length xs) (length ys) &&
      (fix go (xs : list (string * json)) : bool :=
         match xs with
         | [] => true
         | (k, v) :: xs' =>
             match dict_get k ys with
             | Some w => py_same v w
             | None => false
             end && go xs'
         end) xs
  | _, _ => false
  end.

(** Python's [==] on JSON values: NaN is not equal to itself. *)
Definition py_eq (a b : json) : bool :=
  match a, b with
  | JFloat FNaN, JFloat FNaN => false
  | _, _ => py_same a b
  end.

Definition is_str (j : json) : bool := match j with JStr _ => true | _ => false end.
Definition is_dict (j : json) : bool := match j with JDict _ => true | _ => false end.

(** [needle in hay] on two strings. *)
Fixpoint is_substring (needle hay : string) : bool :=
  String.prefix needle hay ||
  match hay with
  | EmptyString => false
  | String _ hay' => is_substring needle hay'
  end.

Definition hashable (j : json) : bool :=
  match j with JList _ | JDict _ => false | _ => true end.

Fixpoint chars (s : string) : list string :=
  match s with
  | EmptyString => []
  | String c s' => str1 c :: chars s'
  end.

(** [x in c]. *)
Definition py_contains (x c : json) : outcome bool :=
  match c with
  | JDict d =>
      if hashable x then
        Ok (match x with JStr k => dict_has k d | _ => false end)
      else Raise TypeError
  | JList l => Ok (existsb (py_same x) l)
  | JStr s => match x with JStr k => Ok (is_substring k s) | _ => Raise TypeError end
  | _ => Raise TypeError
  end.

(** A list or string index: [True] is 1, a negative index counts from the end. *)
Definition as_index (k : json) : option Z :=
  match k with
  | JInt z => Some z
  | JBool b => Some (Z.b2z b)
  | _ => None
  end.

Definition at_index {A : Type} (l : list A) (z : Z) : outcome A :=
  let i := if z <? 0 then Z.of_nat (length l) + z else z in
  if i <? 0 then Raise IndexError
  else match nth_error l (Z.to_nat i) with
       | Some v => Ok v
       | None => Raise IndexError
       end.

(** [c[k]]. *)
Definition py_index (c k : json) : outcome json :=
  match c with
  | JDict d =>
      if hashable k then
        match k with
        | JStr key => match dict_get key d with Some v => Ok v | None => Raise KeyError end
        | _ => Raise KeyError
        end
      else Raise TypeError
  | JList l =>
      match as_index k with Some z => at_index l z | None => Raise TypeError end
  | JStr s =>
      match as_index k with Some z => at_index (map JStr (chars s)) z | None => Raise TypeError end
  | _ => Raise TypeError
  end.

(** [key in c] and [c[key]] for a string [key]. *)
Definition py_in (key : string) (c : json) : outcome bool := py_contains (JStr key) c.
Definition py_getitem (c : json) (key : string) : outcome json := py_index c (JStr key).

(** [c.get(key)] on a dictionary; other values have no such method. *)
Definition py_get (c : json) (key : string) : outcome json :=
  match c with
  | JDict d => Ok (match dict_get key d with Some v => v | None => JNull end)
  | _ => Raise AttributeError
  end.

(** The values [for x in c] runs through. *)
Definition py_iter (c : json) : outcome (list json) :=
  match c with
  | JDict d => Ok (map JStr (dict_keys d))
  | JList l => Ok l
  | JStr s => Ok (map JStr (chars s))
  | _ => Raise TypeError
  end.

(** ** Rendering: [str], [repr] and decimal numbers *)

Definition dec (n : N) : string := NilEmpty.string_of_uint (N.to_uint n).

Definition dec_Z (z : Z) : string :=
  match z with
  | Z0 => "0"
  | Zpos p => dec (Npos p)
  | Zneg p => "-" +:+ dec (Npos p)
  end.

Fixpoint zeros (n : nat) : string :=
  match n with O => "" | S n' => "0" +:+ zeros n' end.

(** ['%0<w>d' % n] for a natural [n]; width 0 is ['%d']. *)
Definition dec_padded (w : nat) (n : N) : string :=
  let d := dec n in zeros (w - String.length d) +:+ d.

Definition hex_digit (n : nat) : ascii :=
  match String.get n "0123456789abcdef" with Some c => c | None => "0"%char end.

Definition hex_escape (c : ascii) : string :=
  let n := nat_of_ascii c in
  String backslash (String "x" (String (hex_digit (n / 16)) (str1 (hex_digit (n mod 16))))).

Fixpoint has_char (c : ascii) (s : string) : bool :=
  match s with
  | EmptyString => false
  | String c' s' => Ascii.eqb c c' || has_char c s'
  end.

(** [str.isprintable] on one Latin-1 character. *)
Definition printable (c : ascii) : bool :=
  let n := nat_of_ascii c in
  ((32 <=? n) && (n <? 127) || (161 <=? n) && negb (n =? 173))%nat.

Definition repr_char (q : ascii) (c : ascii) : string :=
  if Ascii.eqb c q || Ascii.eqb c backslash then String backslash (str1 c)
  else if Ascii.eqb c (ascii_of_nat 9) then String backslash "t"
  else if Ascii.eqb c LF then String backslash "n"
  else if Ascii.eqb c (ascii_of_nat 13) then String backslash "r"
  else if printable c then str1 c
  else hex_escape c.

Fixpoint repr_chars (q : ascii) (s : string) : string :=
  match s with
  | EmptyString => ""
  | String c s' => repr_char q c +:+ repr_chars q s'
  end.

Definition repr_str (s : string) : string :=
  let q := if has_char quote1 s && negb (has_char quote2 s) then quote2 else quote1 in
  str1 q +:+ repr_chars q s +:+ str1 q.

Fixpoint join (sep : string) (l : list string) : string :=
  match l with
  | [] => ""
  | [x] => x
  | x :: l' => x +:+ sep +:+ join sep l'
  end.

Fixpoint py_repr (j : json) : string :=
  match j with
  | JNull => "None"
  | JBool true => "True"
  | JBool false => "False"
  | JInt z => dec_Z z
  | JFloat FNaN => "nan"
  | JFloat (FInf false) => "inf"
  | JFloat (FInf true) => "-inf"
  | JFloat (FFinite _ _ repr) => repr
  | JStr s => repr_str s
  | JList l => "[" +:+ join ", " (map py_repr l) +:+ "]"
  | JDict d =>
      "{" +:+ join ", " (map (fun kv => repr_str (fst kv) +:+ ": " +:+ py_repr (snd kv)) d) +:+ "}"
  end.

Definition py_str (j : json) : string :=
  match j with JStr s => s | _ => py_repr j end.

(** [str(args)] for keyword arguments. *)
Definition repr_kwargs (args : list (string * json)) : string := py_repr (JDict args).

End Py.

(* ------------------------------------------------------------------ *)
(** * Regular expressions: the fragment of [re] the code uses *)
(* ------------------------------------------------------------------ *)

Module Re.
Import Py.

Inductive regex : Type :=
| REmpty
| RChar (c : ascii)
| RAny                                   (* .  : anything but a line feed *)
| RDigit                                 (* \d *)
| RWord                                  (* \w *)
| RClass (ranges : list (ascii * ascii)) (* [a-bc-d...] *)
| RBol                                   (* ^ *)
| REol                                   (* $ *)
| RCat (r1 r2 : regex)
| RAlt (r1 r2 : regex)
| RStar (r : regex)
| RPlus (r : regex)
| ROpt (r : regex)
| RRepeat (n : nat) (r : regex).         (* r{n} *)

Definition code (c : ascii) : nat := nat_of_ascii c.

Definition between (lo hi n : nat) : bool := ((lo <=? n) && (n <=? hi))%nat.

Definition is_digit (c : ascii) : bool := between 48 57 (code c).

Definition is_ascii_alnum (c : ascii) : bool :=
  between 48 57 (code c) || between 65 90 (code c) || between 97 122 (code c).

(** [\w] on a [str] pattern: [str.isalnum] or the underscore. *)
Definition is_word (c : ascii) : bool :=
  let n := code c in
  is_ascii_alnum c || (n =? 95)%nat ||
  (n =? 170)%nat || (n =? 178)%nat || (n =? 179)%nat || (n =? 181)%nat ||
  (n =? 185)%nat || (n =? 186)%nat || between 188 190 n ||
  between 192 214 n || between 216 246 n || between 248 255 n.

Definition in_ranges (ranges : list (ascii * ascii)) (c : ascii) : bool :=
  existsb (fun r => between (code (fst r)) (code (snd r)) (code c)) ranges.

(** ** Matching

    [accept r k pos s] tries [r] at offset [pos] of the subject, [s] being
    what is left of it, and hands every way of matching to [k].  Only
    whether a match exists is observed, so the order of the tries does not
    matter. *)
Definition at_end (s : string) : bool :=
  match s with
  | EmptyString => true
  | String c EmptyString => Ascii.eqb c LF
  | _ => false
  end.

Definition one (p : ascii -> bool) (k : nat -> string -> bool) (pos : nat) (s : string) : bool :=
  match s with
  | String c s' => p c && k (S pos) s'
  | EmptyString => false
  end.

Fixpoint accept (r : regex) (k : nat -> string -> bool) (pos : nat) (s : string) : bool :=
  match r with
  | REmpty => k pos s
  | RChar c => one (Ascii.eqb c) k pos s
  | RAny => one (fun c => negb (Ascii.eqb c LF)) k pos s
  | RDigit => one is_digit k pos s
  | RWord => one is_word k pos s
  | RClass ranges => one (in_ranges ranges) k pos s
  | RBol => Nat.eqb pos 0 && k pos s
  | REol => at_end s && k pos s
  | RCat r1 r2 => accept r1 (accept r2 k) pos s
  | RAlt r1 r2 => accept r1 k pos s || accept r2 k pos s
  | RStar r1 =>
      (fix star (fuel : nat) (pos : nat) (s : string) : bool :=
         k pos s ||
         match fuel with
         | O => false
         | S fuel' => accept r1 (fun pos' s' => Nat.ltb pos pos' && star fuel' pos' s') pos s
         end) (String.length s) pos s
  | RPlus r1 =>
      accept r1
        ((fix star (fuel : nat) (pos : nat) (s : string) : bool :=
            k pos s ||
            match fuel with
            | O => false
            | S fuel' => accept r1 (fun pos' s' => Nat.ltb pos pos' && star fuel' pos' s') pos s
            end) (String.length s)) pos s
  | ROpt r1 => accept r1 k pos s || k pos s
  | RRepeat n r1 =>
      (fix rep (n : nat) (k : nat -> string -> bool) : nat -> string -> bool :=
         match n with
         | O => k
         | S n' => accept r1 (rep n' k)
         end) n k pos s
  end.

(** ** Compiling a pattern

    A recursive-descent reader of the pattern text.  [None] is a pattern that
    is malformed or uses syntax outside the fragment above (look-around,
    lazy and ranged quantifiers, negated classes, letter escapes other than
    [\d] and [\w], ...). *)
Definition is_quant (c : ascii) : bool :=
  Ascii.eqb c "*" || Ascii.eqb c "+" || Ascii.eqb c "?" || Ascii.eqb c "{".

Definition starts_quant (s : string) : bool :=
  match s with String c _ => is_quant c | EmptyString => false end.

(** ASCII punctuation: a backslash before it makes it a literal. *)
Definition is_punct (c : ascii) : bool :=
  between 33 126 (code c) && negb (is_ascii_alnum c).

Fixpoint read_nat (acc : nat) (s : string) : nat * string :=
  match s with
  | String c s' =>
      if is_digit c then read_nat (10 * acc + (code c - 48))%nat s' else (acc, s)
  | EmptyString => (acc, s)
  end.

(** The items of a class, after the opening bracket. *)
Fixpoint read_class (first : bool) (acc : list (ascii * ascii)) (s : string)
    : option (list (ascii * ascii) * string) :=
  match s with
  | EmptyString => None
  | String c s' =>
      if Ascii.eqb c "]" then (if first then None else Some (rev acc, s'))
      else if Ascii.eqb c backslash || Ascii.eqb c "[" || (first && Ascii.eqb c "^") then None
      else
        match s' with
        | String "-" (String d s'') =>
            if Ascii.eqb d "]" then read_class false ((c, c) :: acc) s'
            else if Ascii.eqb d backslash || Ascii.eqb d "[" then None
            else if (code c <=? code d)%nat then
              read_class false ((c, d) :: acc) s''
            else None
        | _ => read_class false ((c, c) :: acc) s'
        end
  end.

Definition repeatable (r : regex) : bool :=
  match r with RBol | REol => false | _ => true end.

(** An optional quantifier behind the atom [r]. *)
Definition read_quant (r : regex) (s : string) : option (regex * string) :=
  match s with
  | String c s' =>
      if is_quant c then
        if negb (repeatable r) then None
        else
          let done (q : regex) (rest : string) :=
            if starts_quant rest then None else Some (q, rest) in
          if Ascii.eqb c "*" then done (RStar r) s'
          else if Ascii.eqb c "+" then done (RPlus r) s'
          else if Ascii.eqb c "?" then done (ROpt r) s'
          else
            match s' with
            | String d _ =>
                if is_digit d then
                  match read_nat 0 s' with
                  | (n, String "}" rest) => done (RRepeat n r) rest
                  | _ => None
                  end
                else None
            | EmptyString => None
            end
      else Some (r, s)
  | EmptyString => Some (r, s)
  end.

Fixpoint read_alt (fuel : nat) (s : string) {struct fuel} : option (regex * string) :=
  match fuel with
  | O => None
  | S fuel' =>
      match read_seq fuel' s with
      | Some (r1, String "|" rest) =>
          match read_alt fuel' rest with
          | Some (r2, rest') => Some (RAlt r1 r2, rest')
          | None => None
          end
      | other => other
      end
  end
with read_seq (fuel : nat) (s : string) {struct fuel} : option (regex * string) :=
  match fuel with
  | O => None
  | S fuel' =>
      match s with
      | EmptyString => Some (REmpty, s)
      | String c _ =>
          if Ascii.eqb c "|" || Ascii.eqb c ")" then Some (REmpty, s)
          else
            match read_atom fuel' s with
            | Some (a, rest) =>
                match read_quant a rest with
                | Some (q, rest') =>
                    match read_seq fuel' rest' with
                    | Some (r, rest'') => Some (RCat q r, rest'')
                    | None => None
                    end
                | None => None
                end
            | None => None
            end
      end
  end
with read_atom (fuel : nat) (s : string) {struct fuel} : option (regex * string) :=
  match fuel with
  | O => None
  | S fuel' =>
      match s with
      | EmptyString => None
      | String c s' =>
          if Ascii.eqb c "(" then
            match s' with
            | String "?" _ => None
            | _ =>
                match read_alt fuel' s' with
                | Some (r, String ")" rest) => Some (r, rest)
                | _ => None
                end
            end
          else if Ascii.eqb c "[" then
            match read_class true [] s' with
            | Some (ranges, rest) => Some (RClass ranges, rest)
            | None => None
            end
          else if Ascii.eqb c "." then Some (RAny, s')
          else if Ascii.eqb c "^" then Some (RBol, s')
          else if Ascii.eqb c "$" then Some (REol, s')
          else if Ascii.eqb c backslash then
            match s' with
            | String d rest =>
                if Ascii.eqb d "d" then Some (RDigit, rest)
                else if Ascii.eqb d "w" then Some (RWord, rest)
                else if is_punct d then Some (RChar d, rest)
                else None
            | EmptyString => None
            end
          else if is_quant c then None
          else Some (RChar c, s')
      end
  end.

Definition compile (pattern : string) : option regex :=
  match read_alt (4 * String.length pattern + 4) pattern with
  | Some (r, EmptyString) => Some r
  | _ => None
  end.

Definition accept_all : nat -> string -> bool := fun _ _ => true.

(** Whether [re.match(pattern, s)] finds a match. *)
Definition re_match (pattern s : string) : outcome bool :=
  match compile pattern with
  | Some r => Ok (accept r accept_all 0 s)
  | None => Raise ReError
  end.

Fixpoint search_from (r : regex) (pos : nat) (s : string) : bool :=
  accept r accept_all pos s ||
  match s with
  | EmptyString => false
  | String _ s' => search_from r (S pos) s'
  end.

(** Whether [re.search(pattern, s)] finds a match. *)
Definition re_search (pattern s : string) : outcome bool :=
  match compile pattern with
  | Some r => Ok (search_from r 0 s)
  | None => Raise ReError
  end.

End Re.

(* ------------------------------------------------------------------ *)
(** * The validation logger ([validation_logger.py]) *)
(* ------------------------------------------------------------------ *)

Module ValidationLogger.
Import Py.

(** Modelled from the spec: the catalogue [data/validation-errors.json] is
    not among the sources.  It maps a code to an optional [description]
    (language to template) and an optional [params] list (the ordered
    parameter names).  A template is text with positional [%s] holes. *)
Inductive seg : Type :=
| TLit (text : string)
| THole.

Definition template : Type := list seg.

Record code_entry : Type := {
  description : option (list (string * template));
  params : option (list string)
}.

Definition catalog : Type := list (string * code_entry).

Definition kwargs : Type := list (string * json).

Fixpoint double_percent (s : string) : string :=
  match s with
  | EmptyString => ""
  | String c s' =>
      if Ascii.eqb c "%" then String c (String c (double_percent s'))
      else String c (double_percent s')
  end.

(** The template as the text it is written in. *)
Fixpoint raw (t : template) : string :=
  match t with
  | [] => ""
  | TLit x :: t' => double_percent x +:+ raw t'
  | THole :: t' => "%s" +:+ raw t'
  end.

(** [t % tuple(ps)]; [None] is the [TypeError] of a tuple that does not fit
    the holes. *)
Fixpoint format (t : template) (ps : list string) : option string :=
  match t, ps with
  | [], [] => Some ""
  | [], _ :: _ => None
  | TLit x :: t', _ => option_map (String.append x) (format t' ps)
  | THole :: t', p :: ps' => option_map (String.append p) (format t' ps')
  | THole :: _, [] => None
  end.

Record logger : Type := {
  warnings : bool;
  lang : string;
  validation_codes : catalog;
  codes : gmap string string;
  messages : list string;
  num_errors : nat;
  num_warnings : nat
}.

(** [ValidationLogger(warnings, lang)], the catalogue being the one loaded. *)
Definition init (vc : catalog) (w : bool) (l : string) : logger :=
  {| warnings := w; lang := l; validation_codes := vc; codes := ∅;
     messages := []; num_errors := 0; num_warnings := 0 |}.

Definition spec : string := "https://ocfl.io/draft/spec/".

Inductive severity : Type := SevError | SevWarning.

Definition severity_name (sev : severity) : string :=
  match sev with SevError => "error" | SevWarning => "warning" end.

(** [sorted(l)[0]] for a non-empty list of strings. *)
Fixpoint least (x : string) (l : list string) : string :=
  match l with
  | [] => x
  | y :: l' => if String.leb x y then least x l' else least y l'
  end.

Definition int_of_digits (s : string) : nat := fst (Re.read_nat 0 s).

Definition unknown (sev : severity) (code : string) (args : kwargs) : string :=
  "Unknown " +:+ severity_name sev +:+
  default "" (format [TLit ": "; THole; TLit " - params ("; THole; TLit ")"]
                     [code; repr_kwargs args]).

(** The message [error_or_warning] builds for a code. *)
Definition render (L : logger) (code : string) (sev : severity) (args : kwargs) : string :=
  let message :=
    match dict_get code (validation_codes L) with
    | Some {| description := Some desc; params := ps |} =>
        let lang_desc :=
          match dict_get (lang L) desc with
          | Some t => t
          | None =>
              match dict_get "en" desc with
              | Some t => t
              | None =>
                  match dict_keys desc with
                  | k :: ks => default [] (dict_get (least k ks) desc)
                  | [] =>
                      [TLit ("Unknown " +:+ severity_name sev +:+ ": "); THole;
                       TLit " - no description, params ("; THole; TLit ")"]
                  end
              end
          end in
        let text :=
          match ps with
          | Some names =>
              let values :=
                map (fun param =>
                       match dict_get param args with
                       | Some v => py_str v
                       | None => "???"
                       end) names in
              match format lang_desc values with
              | Some text => text
              | None => raw lang_desc +:+ repr_kwargs args
              end
          | None => raw lang_desc
          end in
        "[" +:+ code +:+ "] " +:+ text
    | _ => unknown sev code args
    end in
  match Re.re_match "([EW](\d\d\d))" code with
  | Ok true =>
      if (int_of_digits (String.substring 1 3 code) <? 200)%nat
      then message +:+ " (see " +:+ spec +:+ "#" +:+ String.substring 0 4 code +:+ ")"
      else message
  | _ => message
  end.

Definition error_or_warning (code : string) (sev : severity) (args : kwargs)
    (L : logger) : logger :=
  let message := render L code sev args in
  {| warnings := warnings L; lang := lang L; validation_codes := validation_codes L;
     codes := <[code := message]> (codes L);
     messages :=
       if match sev with SevError => true | SevWarning => warnings L end
       then messages L ++ [message] else messages L;
     num_errors := num_errors L;
     num_warnings := num_warnings L |}.

Definition error (code : string) (args : kwargs) (L : logger) : logger :=
  let L' := error_or_warning code SevError args L in
  {| warnings := warnings L'; lang := lang L'; validation_codes := validation_codes L';
     codes := codes L'; messages := messages L';
     num_errors := S (num_errors L'); num_warnings := num_warnings L' |}.

Definition warn (code : string) (args : kwargs) (L : logger) : logger :=
  let L' := error_or_warning code SevWarning args L in
  {| warnings := warnings L'; lang := lang L'; validation_codes := validation_codes L';
     codes := codes L'; messages := messages L';
     num_errors := num_errors L'; num_warnings := S (num_warnings L') |}.

(** Python orders strings by code point. *)
Definition str_le (a b : string) : Prop := String.leb a b = true.

#[export] Instance str_le_dec : RelDecision str_le.
Proof. intros a b. unfold str_le. destruct (String.leb a b); [left | right]; congruence. Defined.

Definition sorted (l : list string) : list string := merge_sort str_le l.

(** [__str__]: every message of the log, sorted, each ended by a line feed. *)
Definition to_str (L : logger) : string :=
  fold_left (fun s message => s +:+ message +:+ str1 LF) (sorted (messages L)) "".

End ValidationLogger.

(* ------------------------------------------------------------------ *)
(** * The inventory validator ([inventory_validator.py]) *)
(* ------------------------------------------------------------------ *)

Module InventoryValidator.
Import Py.
Module Log := ValidationLogger.

(** The fields of an [InventoryValidator].  [log] is the logger the
    validator was given: every call on it is threaded through this field.
    [None] is [JNull]. *)
Record validator : Type := {
  log : Log.logger;
  where_ : string;
  inventory : json;
  digest_algorithm : json;
  content_directory : string;
  head : json;
  all_versions : list string;
  manifest_files : option (list (json * string));
  lax_digests : bool
}.

(** [InventoryValidator(log, where, lax_digests)]. *)
Definition init (L : Log.logger) (where_ : string) (lax : bool) : validator :=
  {| log := L; where_ := where_; inventory := JNull;
     digest_algorithm := JStr "sha512"; content_directory := "content";
     head := JNull; all_versions := []; manifest_files := None;
     lax_digests := lax |}.

Definition set_log (L : Log.logger) (v : validator) : validator :=
  {| log := L; where_ := where_ v; inventory := inventory v;
     digest_algorithm := digest_algorithm v; content_directory := content_directory v;
     head := head v; all_versions := all_versions v;
     manifest_files := manifest_files v; lax_digests := lax_digests v |}.

Definition set_inventory (x : json) (v : validator) : validator :=
  {| log := log v; where_ := where_ v; inventory := x;
     digest_algorithm := digest_algorithm v; content_directory := content_directory v;
     head := head v; all_versions := all_versions v;
     manifest_files := manifest_files v; lax_digests := lax_digests v |}.

Definition set_digest_algorithm (x : json) (v : validator) : validator :=
  {| log := log v; where_ := where_ v; inventory := inventory v;
     digest_algorithm := x; content_directory := content_directory v;
     head := head v; all_versions := all_versions v;
     manifest_files := manifest_files v; lax_digests := lax_digests v |}.

Definition set_content_directory (x : string) (v : validator) : validator :=
  {| log := log v; where_ := where_ v; inventory := inventory v;
     digest_algorithm := digest_algorithm v; content_directory := x;
     head := head v; all_versions := all_versions v;
     manifest_files := manifest_files v; lax_digests := lax_digests v |}.

Definition set_head (x : json) (v : validator) : validator :=
  {| log := log v; where_ := where_ v; inventory := inventory v;
     digest_algorithm := digest_algorithm v; content_directory := content_directory v;
     head := x; all_versions := all_versions v;
     manifest_files := manifest_files v; lax_digests := lax_digests v |}.

Definition set_all_versions (x : list string) (v : validator) : validator :=
  {| log := log v; where_ := where_ v; inventory := inventory v;
     digest_algorithm := digest_algorithm v; content_directory := content_directory v;
     head := head v; all_versions := x;
     manifest_files := manifest_files v; lax_digests := lax_digests v |}.

Definition set_manifest_files (x : option (list (json * string))) (v : validator) : validator :=
  {| log := log v; where_ := where_ v; inventory := inventory v;
     digest_algorithm := digest_algorithm v; content_directory := content_directory v;
     head := head v; all_versions := all_versions v;
     manifest_files := x; lax_digests := lax_digests v |}.

(** ** Methods as state transformers that may raise *)

Definition M (A : Type) : Type := validator -> outcome A * validator.

Definition ret {A : Type} (a : A) : M A := fun v => (Ok a, v).

Definition bind {A B : Type} (m : M A) (k : A -> M B) : M B :=
  fun v =>
    match m v with
    | (Ok a, v') => k a v'
    | (Raise e, v') => (Raise e, v')
    end.

Definition raise {A : Type} (e : exn) : M A := fun v => (Raise e, v).

Definition lift {A : Type} (o : outcome A) : M A := fun v => (o, v).

Definition gets {A : Type} (f : validator -> A) : M A := fun v => (Ok (f v), v).

Definition modify (f : validator -> validator) : M unit := fun v => (Ok tt, f v).

Declare Scope py_scope.
Delimit Scope py_scope with py.
Notation "x <- m ;; k" := (bind m (fun x => k))
  (at level 100, m at next level, k at level 200, right associativity) : py_scope.
Notation "m ;; k" := (bind m (fun _ => k))
  (at level 100, k at level 200, right associativity) : py_scope.
Local Open Scope py_scope.

Definition when (b : bool) (m : M unit) : M unit := if b then m else ret tt.

Fixpoint for_each {A : Type} (l : list A) (body : A -> M unit) : M unit :=
  match l with
  | [] => ret tt
  | x :: l' => body x ;; for_each l' body
  end.

(** A loop that updates a local variable. *)
Fixpoint fold_each {A B : Type} (l : list A) (acc : B) (body : A -> B -> M B) : M B :=
  match l with
  | [] => ret acc
  | x :: l' => acc' <- body x acc ;; fold_each l' acc' body
  end.

(** [try: m  except ValueError as e: handler(str(e))]. *)
Definition except_ValueError {A : Type} (m : M A) (handler : string -> M A) : M A :=
  fun v =>
    match m v with
    | (Raise (ValueError msg), v') => handler msg v'
    | other => other
    end.

(** [self.error(code, **args)] and [self.warn(code, **args)]. *)
Definition error (code : string) (args : Log.kwargs) : M unit :=
  modify (fun v => set_log (Log.error code (("where", JStr (where_ v)) :: args) (log v)) v).

Definition warn (code : string) (args : Log.kwargs) : M unit :=
  modify (fun v => set_log (Log.warn code (("where", JStr (where_ v)) :: args) (log v)) v).

(** [re.match(pattern, x)] and [re.search(pattern, x)] on any value [x]:
    the pattern is compiled first, then a subject that is not a string is a
    [TypeError]. *)
Definition re_match (pattern : string) (x : json) : M bool :=
  match Re.compile pattern with
  | None => raise ReError
  | Some r =>
      match x with
      | JStr s => ret (Re.accept r Re.accept_all 0 s)
      | _ => raise TypeError
      end
  end.

Definition re_search (pattern : string) (s : string) : M bool := lift (Re.re_search pattern s).

(** ** [digest_regex] and [is_valid_content_path] *)

Definition digest_regex : M string :=
  da <- gets digest_algorithm ;;
  if py_eq da (JStr "sha512") then ret "^[0-9a-z]{128}$"
  else if py_eq da (JStr "sha256") then ret "^[0-9a-z]{64}$"
  else
    lax <- gets lax_digests ;;
    if lax then ret ".*$"
    else raise (Exception ("Bad digest algorithm " +:+ py_str da)).

Definition is_valid_content_path (path : json) : M bool :=
  cd <- gets content_directory ;;
  re_match ("^v\d+/" +:+ cd +:+ "/") path.

(** ** [validate_manifest] *)

Definition validate_manifest (manifest : json) : M (list (json * string)) :=
  match manifest with
  | JDict d =>
      fold_each (dict_keys d) [] (fun digest manifest_files =>
        pattern <- digest_regex ;;
        m <- re_match pattern (JStr digest) ;;
        if negb m then error "E304" [("digest", JStr digest)] ;; ret manifest_files
        else
          entry <- lift (py_getitem manifest digest) ;;
          match entry with
          | JList files =>
              fold_each files manifest_files (fun file manifest_files =>
                if hashable file then
                  let manifest_files := dict_set py_same file digest manifest_files in
                  ok <- is_valid_content_path file ;;
                  when (negb ok) (error "E913" [("path", file)]) ;;
                  ret manifest_files
                else raise TypeError)
          | _ => error "E308" [("digest", JStr digest)] ;; ret manifest_files
          end)
  | _ => error "E307" [] ;; ret []
  end.

(** ** [validate_version_sequence] *)

(** [fmt % n] for a format with one directive, ['%d'] or ['%0<w>d']: the
    two shapes of [fmt] the method builds. *)
Fixpoint format_int (fmt : string) (n : N) : string :=
  match fmt with
  | EmptyString => ""
  | String "%" (String "d" rest) => dec n +:+ rest
  | String "%" (String "0" rest) =>
      match Re.read_nat 0 rest with
      | (w, String "d" rest') => dec_padded w n +:+ rest'
      | _ => ""
      end
  | String c rest => String c (format_int rest n)
  end.

(** The probe [for n in range(2, 11)] for the padding width: the width found
    with its key, or nothing. *)
Fixpoint find_padding (widths : list nat) (versions : list (string * json))
    : option (nat * string * string) :=
  match widths with
  | [] => None
  | n :: widths' =>
      let fmt := "v%0" +:+ dec (N.of_nat n) +:+ "d" in
      let vkey := format_int fmt 1 in
      if dict_has vkey versions then Some (n, fmt, vkey)
      else find_padding widths' versions
  end.

(** The walk [for n in range(2, max_version_num + 1)], [count] values of [n]
    being left, followed by the check after the loop. *)
Fixpoint walk_sequence (fmt : string) (versions : list (string * json))
    (max_version_num : N) (count : nat) (n : N) (all_versions : list string)
    : M (list string) :=
  match count with
  | O =>
      when (N.ltb max_version_num (N.of_nat (length versions))) (error "E312" []) ;;
      ret all_versions
  | S count' =>
      let v := format_int fmt n in
      if dict_has v versions then
        walk_sequence fmt versions max_version_num count' (n + 1)%N (all_versions ++ [v])
      else
        when (negb (N.eqb (N.of_nat (length versions)) (n - 1)%N)) (error "E312" []) ;;
        ret all_versions
  end.

(** [zero_padded] is [Some n] for the width found; [None] stands for both
    [None] and [False] of the source, which are tested for truth only. *)
Definition validate_version_sequence (versions : json) : M (list string) :=
  match versions with
  | JDict d =>
      let walk fmt zero_padded max_version_num all_versions :=
        when (match zero_padded with Some _ => true | None => false end)
             (warn "W203" []) ;;
        walk_sequence fmt d max_version_num (N.to_nat (max_version_num - 1)) 2 all_versions in
      if dict_has "v1" d then walk "v%d" None 999999%N ["v1"]
      else
        match find_padding (seq 2 9) d with
        | Some (n, fmt, vkey) => walk fmt (Some n) (10 ^ (N.of_nat n - 1) - 1)%N [vkey]
        | None => error "E311" [] ;; ret []
        end
  | _ => error "E310" [] ;; ret []
  end.

(** ** [validate_state_block] *)

Definition validate_state_block (state : json) : M (list string) :=
  match state with
  | JDict d =>
      _ <- digest_regex ;;
      fold_each (dict_keys d) [] (fun digest digests =>
        pattern <- digest_regex ;;
        m <- re_match pattern (JStr digest) ;;
        if negb m then error "E305" [("digest", JStr digest)] ;; ret digests
        else
          files <- lift (py_getitem state digest) ;;
          _ <- lift (py_iter files) ;;
          ret (digests ++ [digest]))
  | _ => error "E912" [] ;; ret []
  end.

(** ** [validate_versions] *)

Section Versions.

(** [w3c_datetime.str_to_datetime] is not among the sources: it either
    returns (the value is not used) or raises, a [ValueError] being caught
    by the caller. *)
Variable str_to_datetime : string -> outcome unit.

(** The body of the loop [for v in all_versions]. *)
Definition validate_version (versions : json) (v : string) (digests_used : list string)
    : M (list string) :=
  let at_v := [("version", JStr v)] in
  version <- lift (py_getitem versions v) ;;
  has_created <- lift (py_in "created" version) ;;
  created <- (if has_created then lift (py_getitem version "created") else ret JNull) ;;
  match has_created, created with
  | true, JStr created =>
      except_ValueError
        (_ <- lift (str_to_datetime created) ;;
         zone <- re_search "(Z|[+-]\d\d:\d\d)$" created ;;
         when (negb zone) (warn "W208" at_v) ;;
         time <- re_search "T\d\d:\d\d:\d\d" created ;;
         when (negb time) (warn "W209" at_v))
        (fun e => error "E402" (at_v ++ [("description", JStr e)]))
  | _, _ => error "E401" at_v
  end ;;
  has_state <- lift (py_in "state" version) ;;
  digests_used <-
    (if has_state then
       state <- lift (py_getitem version "state") ;;
       digests <- validate_state_block state ;;
       ret (digests_used ++ digests)
     else error "E410" at_v ;; ret digests_used) ;;
  has_message <- lift (py_in "message" version) ;;
  (if negb has_message then warn "W201" at_v
   else
     message <- lift (py_getitem version "message") ;;
     when (negb (is_str message)) (error "E403" at_v)) ;;
  has_user <- lift (py_in "user" version) ;;
  (if negb has_user then warn "W202" at_v
   else
     user <- lift (py_getitem version "user") ;;
     if negb (is_dict user) then error "E404" at_v
     else
       has_name <- lift (py_in "name" user) ;;
       name <- (if has_name then lift (py_getitem user "name") else ret JNull) ;;
       when (negb has_name || negb (is_str name)) (error "E405" at_v) ;;
       has_address <- lift (py_in "address" user) ;;
       if negb has_address then warn "W210" at_v
       else
         address <- lift (py_getitem user "address") ;;
         when (negb (is_str address)) (error "E406" at_v)) ;;
  ret digests_used.

Definition validate_versions (versions : json) (all_versions : list string)
    : M (list string) :=
  fold_each all_versions [] (validate_version versions).

(** ** [check_digests_present_and_used] *)

Definition mem (x : string) (l : list string) : bool := existsb (String.eqb x) l.

Definition same_set (a b : list string) : bool :=
  forallb (fun x => mem x b) a && forallb (fun x => mem x a) b.

Definition check_digests_present_and_used (manifest : json) (digests_used : list string)
    : M unit :=
  match manifest with
  | JDict d =>
      when (negb (same_set (dict_keys d) digests_used))
        (let not_in_state :=
           List.filter (fun digest => negb (mem digest digests_used)) (dict_keys d) in
         let not_in_manifest :=
           List.filter (fun digest => negb (dict_has digest d)) digests_used in
         when (0 <? length not_in_manifest)%nat
           (error "E913" [("description",
              JStr ("in state but not in manifest: " +:+ join ", " not_in_manifest))]) ;;
         when (0 <? length not_in_state)%nat
           (error "E302" [("description",
              JStr ("in manifest but not in state: " +:+ join ", " not_in_state))]))
  | _ => raise AttributeError
  end.

(** ** [validate]

    The method is a sequence of independent blocks, one per field of the
    inventory; each is given a name here and [validate] runs them in the
    order of the source. *)

Definition check_id (inventory : json) : M unit :=
  has_id <- lift (py_in "id" inventory) ;;
  if has_id then
    iid <- lift (py_getitem inventory "id") ;;
    if negb (is_str iid) || py_eq iid (JStr "") then error "E101" []
    else
      m <- re_match "(\w+):.+" iid ;;
      when (negb m) (warn "W207" [("id", iid)])
  else error "E100" [].

Definition check_type (inventory : json) : M unit :=
  has_type <- lift (py_in "type" inventory) ;;
  if negb has_type then error "E102" []
  else
    type <- lift (py_getitem inventory "type") ;;
    when (negb (py_eq type (JStr "https://ocfl.io/1.0/spec/#inventory"))) (error "E103" []).

Definition check_digest_algorithm (inventory : json) : M unit :=
  has_digest_algorithm <- lift (py_in "digestAlgorithm" inventory) ;;
  if negb has_digest_algorithm then error "E104" []
  else
    da <- lift (py_getitem inventory "digestAlgorithm") ;;
    if py_eq da (JStr "sha512") then ret tt
    else
      lax <- gets lax_digests ;;
      if lax then modify (set_digest_algorithm da)
      else if py_eq da (JStr "sha256") then
        warn "W206" [] ;;
        modify (set_digest_algorithm da)
      else error "E105" [("digest_algorithm", da)].

(** [type(cd) != str or '/' in cd or cd in ['.', '..']]. *)
Definition unsafe_content_directory (cd : json) : bool :=
  match cd with
  | JStr s => is_substring "/" s || mem s ["."; ".."]
  | _ => true
  end.

Definition check_content_directory (inventory : json) : M unit :=
  has_content_directory <- lift (py_in "contentDirectory" inventory) ;;
  when has_content_directory
    (cd <- lift (py_getitem inventory "contentDirectory") ;;
     match cd with
     | JStr s =>
         if unsafe_content_directory cd then error "E051" []
         else modify (set_content_directory s)
     | _ => error "E051" []
     end).

Definition check_manifest (inventory : json) : M unit :=
  has_manifest <- lift (py_in "manifest" inventory) ;;
  if negb has_manifest then error "E107" []
  else
    manifest <- lift (py_getitem inventory "manifest") ;;
    manifest_files <- validate_manifest manifest ;;
    modify (set_manifest_files (Some manifest_files)).

(** The result is the local [digests_used], bound only when the inventory
    has a [versions] entry. *)
Definition check_versions (inventory : json) : M (option (list string)) :=
  has_versions <- lift (py_in "versions" inventory) ;;
  if negb has_versions then error "E108" [] ;; ret None
  else
    versions <- lift (py_getitem inventory "versions") ;;
    all_versions <- validate_version_sequence versions ;;
    modify (set_all_versions all_versions) ;;
    digests_used <- validate_versions versions all_versions ;;
    ret (Some digests_used).

Definition check_head (inventory : json) : M unit :=
  has_head <- lift (py_in "head" inventory) ;;
  if has_head then
    all_versions <- gets all_versions ;;
    last_version <- lift (at_index all_versions (-1)) ;;
    modify (set_head (JStr last_version)) ;;
    got <- lift (py_getitem inventory "head") ;;
    when (negb (py_eq got (JStr last_version)))
      (error "E914" [("got", got); ("expected", JStr last_version)])
  else error "E106" [].

Definition check_consistency (inventory : json) (digests_used : option (list string))
    : M unit :=
  has_manifest <- lift (py_in "manifest" inventory) ;;
  has_versions <- (if has_manifest then lift (py_in "versions" inventory) else ret false) ;;
  when (has_manifest && has_versions)
    (manifest <- lift (py_getitem inventory "manifest") ;;
     match digests_used with
     | Some digests_used => check_digests_present_and_used manifest digests_used
     | None => raise UnboundLocalError
     end).

Definition validate (inventory : json) : M unit :=
  modify (set_inventory inventory) ;;
  check_id inventory ;;
  check_type inventory ;;
  check_digest_algorithm inventory ;;
  check_content_directory inventory ;;
  check_manifest inventory ;;
  digests_used <- check_versions inventory ;;
  check_head inventory ;;
  check_consistency inventory digests_used.

End Versions.

(** ** [get_file_map] and [validate_as_prior_version] *)

Definition get_file_map (inventory : json) (version_dir : string)
    : outcome (list (json * json)) :=
  match py_getitem inventory "versions" with
  | Raise e => Raise e
  | Ok versions =>
  match py_getitem versions version_dir with
  | Raise e => Raise e
  | Ok version =>
  match py_getitem version "state" with
  | Raise e => Raise e
  | Ok state =>
  match py_getitem inventory "manifest" with
  | Raise e => Raise e
  | Ok manifest =>
  match py_iter state with
  | Raise e => Raise e
  | Ok digests =>
      (fix digests_loop (digests : list json) (file_map : list (json * json))
           : outcome (list (json * json)) :=
         match digests with
         | [] => Ok file_map
         | digest :: digests' =>
             match py_contains digest manifest with
             | Raise e => Raise e
             | Ok false => digests_loop digests' file_map
             | Ok true =>
                 match py_index state digest with
                 | Raise e => Raise e
                 | Ok files =>
                 match py_iter files with
                 | Raise e => Raise e
                 | Ok files =>
                     match
                       (fix files_loop (files : list json) (file_map : list (json * json))
                            : outcome (list (json * json)) :=
                          match files with
                          | [] => Ok file_map
                          | file :: files' =>
                              if hashable file then
                                match py_index manifest digest with
                                | Raise e => Raise e
                                | Ok paths => files_loop files' (dict_set py_same file paths file_map)
                                end
                              else
                                match py_index manifest digest with
                                | Raise e => Raise e
                                | Ok _ => Raise TypeError
                                end
                          end) files file_map
                     with
                     | Raise e => Raise e
                     | Ok file_map' => digests_loop digests' file_map'
                     end
                 end
                 end
             end
         end) digests []
  end end end end end.

Definition has_key {V : Type} (k : json) (d : list (json * V)) : bool :=
  existsb (fun kv => py_same k (fst kv)) d.

Definition keys_subset {V W : Type} (a : list (json * V)) (b : list (json * W)) : bool :=
  forallb (fun kv => has_key (fst kv) b) a.

Fixpoint lookup_key {V : Type} (k : json) (d : list (json * V)) : option V :=
  match d with
  | [] => None
  | (k', v) :: d' => if py_same k k' then Some v else lookup_key k d'
  end.

Definition subset (a b : list string) : bool := forallb (fun x => mem x b) a.

(** The loop [for x in l] that leaves [x] bound to the last value when the
    loop is over, and unbound when [l] is empty. *)
Fixpoint for_each_bound {A : Type} (l : list A) (bound : option A) (body : A -> M unit)
    : M (option A) :=
  match l with
  | [] => ret bound
  | x :: l' => body x ;; for_each_bound l' (Some x) body
  end.

Definition validate_as_prior_version (prior : validator) : M unit :=
  let prior_head := [("prior_head", head prior)] in
  self_versions <- gets all_versions ;;
  if negb (subset (all_versions prior) self_versions) then error "E407" prior_head
  else
    prior_files <- (match manifest_files prior with
                    | Some files => ret files
                    | None => raise AttributeError
                    end) ;;
    self_manifest_files <- gets manifest_files ;;
    self_files <- (match self_manifest_files with
                   | Some files => ret files
                   | None => raise AttributeError
                   end) ;;
    if negb (keys_subset prior_files self_files) then error "E408" prior_head
    else
      self_inventory <- gets inventory ;;
      version_dir <-
        for_each_bound (all_versions prior) None (fun version_dir =>
          let here := ("version_dir", JStr version_dir) :: prior_head in
          prior_map <- lift (get_file_map (inventory prior) version_dir) ;;
          self_map <- lift (get_file_map self_inventory version_dir) ;;
          if negb (keys_subset prior_map self_map && keys_subset self_map prior_map)
          then error "E409" here
          else
            for_each prior_map (fun entry =>
              match lookup_key (fst entry) self_map with
              | Some paths =>
                  when (negb (py_eq (snd entry) paths))
                    (error "E410" (here ++ [("file", fst entry)]))
              | None => raise KeyError
              end)) ;;
      prior_versions <- lift (py_getitem (inventory prior) "versions") ;;
      match version_dir with
      | None => raise UnboundLocalError
      | Some version_dir =>
          prior_version <- lift (py_getitem prior_versions version_dir) ;;
          self_versions <- lift (py_getitem self_inventory "versions") ;;
          self_version <- lift (py_getitem self_versions version_dir) ;;
          for_each ["created"; "message"; "user"] (fun key =>
            a <- lift (py_get prior_version key) ;;
            b <- lift (py_get self_version key) ;;
            when (negb (py_eq a b))
              (warn "W212" [("version_dir", JStr version_dir); ("prior_head", head prior);
                            ("key", JStr key)]))
      end.

End InventoryValidator.

Import Py InventoryValidator.
Local Open Scope py_scope.

(* ------------------------------------------------------------------ *)
(** * Sample inventories *)
(* ------------------------------------------------------------------ *)

Module Samples.

Fixpoint repeat_char (n : nat) (c : ascii) : string :=
  match n with
  | O => ""
  | S n' => String c (repeat_char n' c)
  end.

(** A parser of timestamps that accepts everything. *)
Definition any_datetime : string -> outcome unit := fun _ => Ok tt.

(** A logger with an empty catalogue that keeps warnings in its report. *)
Definition fresh_log : Log.logger := Log.init [] true "en".

Definition fresh (where_ : string) (lax : bool) : validator := init fresh_log where_ lax.

Definition digest_a : string := repeat_char 128 "a".
Definition digest_b : string := repeat_char 128 "b".

Definition version (message : string) (state : list (string * json)) : json :=
  JDict [("created", JStr "2018-01-01T00:00:00Z");
         ("message", JStr message);
         ("user", JDict [("name", JStr "A"); ("address", JStr "mailto:a@example.org")]);
         ("state", JDict state)].

(** The fields of a two-version object but [head]: the algorithm, the two
    digests and the messages of the two versions are parameters. *)
Definition fields (algorithm da db message1 message2 : string) : list (string * json) :=
  [("id", JStr "info:x");
   ("type", JStr "https://ocfl.io/1.0/spec/#inventory");
   ("digestAlgorithm", JStr algorithm);
   ("manifest", JDict [(da, JList [JStr "v1/content/a.txt"]);
                       (db, JList [JStr "v2/content/b.txt"])]);
   ("versions", JDict [("v1", version message1 [(da, JList [JStr "a.txt"])]);
                       ("v2", version message2 [(da, JList [JStr "a.txt"]);
                                               (db, JList [JStr "b.txt"])])])].

Definition body (message1 message2 : string) : list (string * json) :=
  fields "sha512" digest_a digest_b message1 message2.

Definition two_versions (message1 message2 : string) : json :=
  JDict (body message1 message2 ++ [("head", JStr "v2")]).


(** The same object with sha256 digests. *)
Definition two_versions_sha256 : list (string * json) :=
  fields "sha256" (repeat_char 64 "a") (repeat_char 64 "b") "first" "second"
    ++ [("head", JStr "v2")].

(** [self.validate_as_prior_version(prior)] after both inventories were
    validated with one logger. *)
Definition lineage (prior_inventory self_inventory : json) : outcome unit * validator :=
  let prior := snd (validate any_datetime prior_inventory (fresh "prior" false)) in
  let self := snd (validate any_datetime self_inventory (init (log prior) "self" false)) in
  validate_as_prior_version prior self.

End Samples.

(* ------------------------------------------------------------------ *)
(** * Specification vocabulary *)
(* ------------------------------------------------------------------ *)

(** An exception other than the plain [Exception] that [digest_regex] raises. *)
Definition benign (e : exn) : Prop := forall msg, e <> Exception msg.

(** [keeps I G m]: from a state in [I] the method [m] ends in [I], and what
    it raises, if anything, is in [G]. *)
Definition keeps {A : Type} (I : validator -> Prop) (G : exn -> Prop) (m : M A) : Prop :=
  forall v, I v ->
    I (snd (m v)) /\ match fst (m v) with Raise e => G e | Ok _ => True end.

(** [I] survives every [error] and [warn] whose code is in [S]. *)
Definition respects (I : validator -> Prop) (S : string -> Prop) : Prop :=
  forall v code args, S code -> I v ->
    I (set_log (Log.error code args (log v)) v) /\
    I (set_log (Log.warn code args (log v)) v).

(** A value that may raise, but nothing outside [G]. *)
Definition raises_in {A : Type} (G : exn -> Prop) (o : outcome A) : Prop :=
  match o with Raise e => G e | Ok _ => True end.

(** The codes logged by the methods that [validate] calls, its own blocks
    apart. *)
Definition inner_codes : list string :=
  ["E304"; "E308"; "E913"; "E307"; "E310"; "E311"; "W203"; "E312";
   "E401"; "E402"; "W208"; "W209"; "E410"; "W201"; "E403"; "W202";
   "E404"; "E405"; "W210"; "E406"; "E305"; "E912"; "E302"].

Definition inner (code : string) : Prop := mem code inner_codes = true.

Definition any_exn (e : exn) : Prop := True.

(** [I] does not look at the fields below. *)
Definition neutral (I : validator -> Prop) : Prop :=
  (forall v x, I v -> I (set_inventory x v)) /\
  (forall v x, I v -> I (set_manifest_files x v)) /\
  (forall v x, I v -> I (set_all_versions x v)) /\
  (forall v x, I v -> I (set_head x v)).

(** ** Frames: what a method leaves alone *)

(** The logger's entry for [c] is the one of [v0]. *)
Definition same_code (c : string) (v0 v : validator) : Prop :=
  Log.codes (log v) !! c = Log.codes (log v0) !! c.

(** The logger only grows from [v0]: codes stay, counters do not decrease. *)
Definition log_grows (v0 v : validator) : Prop :=
  (forall c, is_Some (Log.codes (log v0) !! c) -> is_Some (Log.codes (log v) !! c)) /\
  (Log.num_errors (log v0) <= Log.num_errors (log v))%nat /\
  (Log.num_warnings (log v0) <= Log.num_warnings (log v))%nat.


(** The digest algorithm is one [digest_regex] has a pattern for. *)
Definition good (v : validator) : Prop :=
  digest_algorithm v = JStr "sha512" \/ digest_algorithm v = JStr "sha256" \/
  lax_digests v = true.

Definition everything (code : string) : Prop := True.

(** What [validate] still runs once the [contentDirectory] block is over. *)
Definition from_manifest (str_to_datetime : string -> outcome unit) (inv : json) : M unit :=
  check_manifest inv ;;
  digests_used <- check_versions str_to_datetime inv ;;
  check_head inv ;;
  check_consistency inv digests_used.


Fixpoint one_line (s : string) : bool :=
  match s with
  | EmptyString => true
  | String c s' => if Ascii.eqb c LF then String.eqb s' "" else one_line s'
  end.

(** The characters of the class [0-9a-z]. *)
Definition lower_alnum (c : ascii) : bool :=
  Re.in_ranges [("0"%char, "9"%char); ("a"%char, "z"%char)] c.

(** [n] characters of [0-9a-z], then nothing or one line feed. *)
Definition digest_shape (n : nat) (s : string) : Prop :=
  exists body,
    (s = body \/ s = body +:+ str1 LF) /\ String.length body = n /\
    forall c, has_char c body = true -> lower_alnum c = true.

(** What is left of [s] after [n] characters of the class. *)
Fixpoint take_class (n : nat) (s : string) : option string :=
  match n with
  | O => Some s
  | S n' =>
      match s with
      | String c s' => if lower_alnum c then take_class n' s' else None
      | EmptyString => None
      end
  end.

Definition digest_ok (n : nat) (s : string) : bool :=
  match take_class n s with
  | Some rest => Re.at_end rest
  | None => false
  end.

(** ** Calls on the logger *)

(** A call of [error] or [warn] on the logger. *)
Record call : Type := Call {
  call_severity : Log.severity;
  call_code : string;
  call_args : Log.kwargs
}.

Definition apply_call (L : Log.logger) (c : call) : Log.logger :=
  match call_severity c with
  | Log.SevError => Log.error (call_code c) (call_args c) L
  | Log.SevWarning => Log.warn (call_code c) (call_args c) L
  end.

Definition run_calls (cs : list call) (L : Log.logger) : Log.logger :=
  fold_left apply_call cs L.

Definition is_error (c : call) : bool :=
  match call_severity c with Log.SevError => true | Log.SevWarning => false end.

(** The calls that reach the report: the errors, and the warnings when the
    logger was made with [warnings] set. *)
Definition reported (w : bool) (c : call) : bool := is_error c || w.

Definition message_of (L : Log.logger) (c : call) : string :=
  Log.render L (call_code c) (call_severity c) (call_args c).

Definition same_config (L L' : Log.logger) : Prop :=
  Log.warnings L' = Log.warnings L /\ Log.lang L' = Log.lang L /\
  Log.validation_codes L' = Log.validation_codes L.

(** The text of a list of lines, each ended by a line feed. *)
Fixpoint unlines (lines : list string) : string :=
  match lines with
  | [] => ""
  | line :: rest => line +:+ str1 LF +:+ unlines rest
  end.

(** ** The manifest against the states *)

(** The digests used by a state and absent from the manifest, and the
    digests of the manifest that no state uses, as the method lists them. *)
Definition not_in_manifest (d : list (string * json)) (digests_used : list string)
    : list string :=
  List.filter (fun digest => negb (dict_has digest d)) digests_used.

Definition not_in_state (d : list (string * json)) (digests_used : list string)
    : list string :=
  List.filter (fun digest => negb (mem digest digests_used)) (dict_keys d).

(** One error with a description that lists [l], when [l] is not empty. *)
Definition report (code text : string) (l : list string) (v : validator) : validator :=
  match l with
  | [] => v
  | _ :: _ =>
      set_log (Log.error code
                 [("where", JStr (where_ v)); ("description", JStr (text +:+ join ", " l))]
                 (log v)) v
  end.

(** ** The digests a validator accepts *)

(** The test [re.match(self.digest_regex(), digest)], read as a property of
    the string: the strict shapes for sha512 and sha256, a single line for
    any other algorithm. *)
Definition accepts (v : validator) (digest : string) : bool :=
  if py_eq (digest_algorithm v) (JStr "sha512") then digest_ok 128 digest
  else if py_eq (digest_algorithm v) (JStr "sha256") then digest_ok 64 digest
  else one_line digest.

(** The keys of a block that fail the test, in the order of the block. *)
Definition rejected (v : validator) (d : list (string * json)) : list string :=
  List.filter (fun digest => negb (accepts v digest)) (dict_keys d).

(** ** Version names *)

(** The numbers [n], [n + 1], ..., [j] of them. *)
Fixpoint count_from (n : N) (j : nat) : list N :=
  match j with
  | O => []
  | S j' => n :: count_from (n + 1)%N j'
  end.

(** The format of the names and the largest number it is walked to: plain
    ([None]) or zero-padded to a width. *)
Definition version_format (zero_padded : option nat) : string :=
  match zero_padded with
  | Some w => "v%0" +:+ dec (N.of_nat w) +:+ "d"
  | None => "v%d"
  end.

Definition version_ceiling (zero_padded : option nat) : N :=
  match zero_padded with
  | Some w => (10 ^ (N.of_nat w - 1) - 1)%N
  | None => 999999%N
  end.

Definition version_name (zero_padded : option nat) (n : N) : string :=
  format_int (version_format zero_padded) n.

Definition version_names (zero_padded : option nat) (k : nat) : list string :=
  map (version_name zero_padded) (count_from 1 k).

(** The format is the first one, plain before padded and narrow before
    wide, whose version 1 is a key of [d]. *)
Definition first_format (d : list (string * json)) (zero_padded : option nat) : Prop :=
  dict_has (version_name zero_padded 1) d = true /\
  match zero_padded with
  | None => True
  | Some w =>
      (2 <= w <= 10)%nat /\ dict_has (version_name None 1) d = false /\
      forall w', (2 <= w' < w)%nat -> dict_has (version_name (Some w') 1) d = false
  end.

(** Versions 1 to [k] are keys of [d], and [k] cannot be made larger: it is
    the ceiling of the format, or version [k + 1] is no key. *)
Definition longest_run (d : list (string * json)) (zero_padded : option nat) (k : nat)
    : Prop :=
  (1 <= k)%nat /\ (N.of_nat k <= version_ceiling zero_padded)%N /\
  Forall (fun name => dict_has name d = true) (version_names zero_padded k) /\
  ((N.of_nat k < version_ceiling zero_padded)%N ->
   dict_has (version_name zero_padded (N.of_nat k + 1)) d = false).

(** The test for E312: below the ceiling the dictionary must have exactly
    [k] keys, at the ceiling no more than [k]. *)
Definition out_of_sequence (d : list (string * json)) (zero_padded : option nat) (k : nat)
    : bool :=
  if (N.of_nat k =? version_ceiling zero_padded)%N
  then (version_ceiling zero_padded <? N.of_nat (length d))%N
  else negb (N.of_nat (length d) =? N.of_nat k)%N.

(** The state after one [self.error(code)] or [self.warn(code)]. *)
Definition with_error (code : string) (v : validator) : validator :=
  set_log (Log.error code [("where", JStr (where_ v))] (log v)) v.

Definition with_warning (code : string) (v : validator) : validator :=
  set_log (Log.warn code [("where", JStr (where_ v))] (log v)) v.

(** ** Documents as [json.load] gives them *)

Fixpoint distinct (l : list string) : bool :=
  match l with
  | [] => true
  | x :: l' => negb (mem x l') && distinct l'
  end.

(** No dictionary of the document holds a key twice, and none of its
    numbers is NaN: what [json.load] yields from a text of strict JSON,
    which has no NaN. *)
Fixpoint well_formed (j : json) : bool :=
  match j with
  | JFloat f => negb (is_nan f)
  | JList l => forallb well_formed l
  | JDict d => distinct (dict_keys d) && forallb (fun kv => well_formed (snd kv)) d
  | _ => true
  end.

(** A map built with [dict_set]: a key equals itself and is equal to no key
    that stands before it. *)
Fixpoint distinct_keys {V : Type} (m : list (json * V)) : Prop :=
  match m with
  | [] => True
  | (k, _) :: m' =>
      py_same k k = true /\ Forall (fun e => py_same (fst e) k = false) m' /\ distinct_keys m'
  end.

(** A map of [get_file_map]: distinct keys, values equal to themselves. *)
Definition tidy (m : list (json * json)) : Prop :=
  distinct_keys m /\ Forall (fun e => py_eq (snd e) (snd e) = true) m.

(** The method leaves the state [v] as it is, whatever it returns or raises. *)
Definition quiet {A : Type} (m : M A) (v : validator) : Prop := snd (m v) = v.

(** ** Shapes of identifiers and content paths *)

Fixpoint all_chars (p : ascii -> bool) (s : string) : bool :=
  match s with
  | EmptyString => true
  | String c s' => p c && all_chars p s'
  end.

(** A scheme of word characters, a colon, and then one character at least,
    the first of which is no line feed. *)
Definition id_shape (s : string) : Prop :=
  exists scheme c rest,
    s = scheme +:+ String ":" (String c rest) /\ scheme <> "" /\
    all_chars Re.is_word scheme = true /\ c <> LF.

(** The characters that mean something else than themselves in a pattern. *)
Definition specials : list ascii :=
  ["("%char; ")"%char; "["%char; "."%char; "^"%char; "$"%char; "|"%char;
   "*"%char; "+"%char; "?"%char; "{"%char; backslash].

Definition literal (c : ascii) : bool := negb (existsb (Ascii.eqb c) specials).

(** The letter v, one digit or more, and the content directory between two
    slashes. *)
Definition content_path (cd path : string) : Prop :=
  exists digits rest,
    path = "v" +:+ digits +:+ "/" +:+ cd +:+ "/" +:+ rest /\ digits <> "" /\
    all_chars Re.is_digit digits = true.

(** Any number of characters of [p], then [k]. *)
Fixpoint skip_then (p : ascii -> bool) (k : nat -> string -> bool) (pos : nat) (s : string)
    : bool :=
  k pos s ||
  match s with
  | String c s' => p c && skip_then p k (S pos) s'
  | EmptyString => false
  end.

(** The pattern of a text of literal characters, followed by [r]. *)
Fixpoint literal_regex (lit : string) (r : Re.regex) : Re.regex :=
  match lit with
  | EmptyString => r
  | String c lit' => Re.RCat (Re.RChar c) (literal_regex lit' r)
  end.

(** ** Exceptions of guarded subscripts *)

(** What is left when every subscript by key is guarded by a membership
    test and every local is bound before it is read. *)
Definition guarded (e : exn) : Prop :=
  match e with
  | KeyError | UnboundLocalError | ValueError _ => False
  | _ => True
  end.

Definition anywhere (v : validator) : Prop := True.

(** ** Timestamps *)

(** What is left of [s] after one character for each test of [ps]. *)
Fixpoint starts_with (ps : list (ascii -> bool)) (s : string) : option string :=
  match ps with
  | [] => Some s
  | p :: ps' =>
      match s with
      | String c s' => if p c then starts_with ps' s' else None
      | EmptyString => None
      end
  end.

Definition is_sign (c : ascii) : bool :=
  Re.in_ranges [("+"%char, "+"%char); ("-"%char, "-"%char)] c.

(** T, two digits, a colon, two digits, a colon, two digits. *)
Definition time_shape : list (ascii -> bool) :=
  [Ascii.eqb "T"; Re.is_digit; Re.is_digit; Ascii.eqb ":"; Re.is_digit; Re.is_digit;
   Ascii.eqb ":"; Re.is_digit; Re.is_digit].

(** A sign, two digits, a colon, two digits. *)
Definition offset_shape : list (ascii -> bool) :=
  [is_sign; Re.is_digit; Re.is_digit; Ascii.eqb ":"; Re.is_digit; Re.is_digit].

(** The characters of [ps], and then the end of the text or its final line
    feed. *)
Definition ends_with (ps : list (ascii -> bool)) (s : string) : bool :=
  match starts_with ps s with
  | Some rest => Re.at_end rest
  | None => false
  end.

(** The test of a pattern for one character. *)
Definition char_test (r : Re.regex) : option (ascii -> bool) :=
  match r with
  | Re.RChar c => Some (Ascii.eqb c)
  | Re.RAny => Some (fun c => negb (Ascii.eqb c LF))
  | Re.RDigit => Some Re.is_digit
  | Re.RWord => Some Re.is_word
  | Re.RClass ranges => Some (Re.in_ranges ranges)
  | _ => None
  end.

(** The patterns of [rs] one after the other, and then [r]. *)
Fixpoint chain (rs : list Re.regex) (r : Re.regex) : Re.regex :=
  match rs with
  | [] => r
  | x :: rs' => Re.RCat x (chain rs' r)
  end.

(** The text holds a time of day somewhere. *)
Definition has_time (s : string) : Prop :=
  exists prefix rest, s = prefix +:+ rest /\ is_Some (starts_with time_shape rest).

(** The text ends with the letter Z or with an offset. *)
Definition has_zone (s : string) : Prop :=
  exists prefix rest,
    s = prefix +:+ rest /\
    (ends_with [Ascii.eqb "Z"] rest = true \/ ends_with offset_shape rest = true).

(** ** Inventories that pass *)

(** Every digest of the block is accepted and maps to something that can be
    iterated. *)
Definition clean_state (v : validator) (st : list (string * json)) : Prop :=
  forall digest, In digest (dict_keys st) ->
    accepts v digest = true /\
    exists files items, dict_get digest st = Some files /\ py_iter files = Ok items.

(** A version with a timestamp the parser takes, that names a zone and a
    time of day, a clean state, a message, and a user with a name and an
    address. *)
Definition clean_version (str_to_datetime : string -> outcome unit) (v : validator)
    (fields : list (string * json)) : Prop :=
  (exists created,
     dict_get "created" fields = Some (JStr created) /\
     str_to_datetime created = Ok tt /\ has_zone created /\ has_time created) /\
  (exists st, dict_get "state" fields = Some (JDict st) /\ clean_state v st) /\
  (exists message, dict_get "message" fields = Some (JStr message)) /\
  (exists user name address,
     dict_get "user" fields = Some (JDict user) /\
     dict_get "name" user = Some (JStr name) /\
     dict_get "address" user = Some (JStr address)).

(** Every digest of the manifest is accepted and maps to a list of content
    paths under the directory [cd]. *)
Definition clean_manifest (v : validator) (cd : string) (m : list (string * json)) : Prop :=
  forall digest, In digest (dict_keys m) ->
    accepts v digest = true /\
    exists paths,
      dict_get digest m = Some (JList paths) /\
      Forall (fun p => exists s, p = JStr s /\ content_path cd s) paths.

(** The state block of a version, and the digests of the states of a list of
    versions in their order. *)
Definition state_of (vs : list (string * json)) (name : string) : list (string * json) :=
  match dict_get name vs with
  | Some (JDict fields) =>
      match dict_get "state" fields with
      | Some (JDict st) => st
      | _ => []
      end
  | _ => []
  end.

Definition digests_of (vs : list (string * json)) (names : list string) : list string :=
  flat_map (fun name => dict_keys (state_of vs name)) names.

(** The content directory after the [contentDirectory] block. *)
Definition directory_of (v : validator) (d : list (string * json)) : string :=
  match dict_get "contentDirectory" d with
  | Some (JStr s) => s
  | _ => content_directory v
  end.

(** The conditions under which [validate] has nothing to say. *)
Definition valid_inventory (str_to_datetime : string -> outcome unit) (v : validator)
    (d : list (string * json)) (k : nat) : Prop :=
  good v /\
  (exists iid, dict_get "id" d = Some (JStr iid) /\ id_shape iid) /\
  dict_get "type" d = Some (JStr "https://ocfl.io/1.0/spec/#inventory") /\
  dict_get "digestAlgorithm" d = Some (JStr "sha512") /\
  (forall cd, dict_get "contentDirectory" d = Some cd -> unsafe_content_directory cd = false) /\
  all_chars literal (directory_of v d) = true /\
  exists m vs,
    dict_get "manifest" d = Some (JDict m) /\
    dict_get "versions" d = Some (JDict vs) /\
    clean_manifest v (directory_of v d) m /\
    longest_run vs None k /\ out_of_sequence vs None k = false /\
    (forall name, In name (version_names None k) ->
       exists fields,
         dict_get name vs = Some (JDict fields) /\ clean_version str_to_datetime v fields) /\
    dict_get "head" d = Some (JStr (version_name None (N.of_nat k))) /\
    (forall digest,
       In digest (dict_keys m) <-> In digest (digests_of vs (version_names None k))).

(** ** The files of a manifest *)


(** The two fields that [digest_regex] reads are those of [v]. *)
Definition same_digests (v v' : validator) : Prop :=
  digest_algorithm v' = digest_algorithm v /\ lax_digests v' = lax_digests v.


(** ** What a silent lineage check has compared *)

(** The number of calls the logger has counted. *)
Definition count (v : validator) : nat :=
  (Log.num_errors (log v) + Log.num_warnings (log v))%nat.

(** The state is untouched, or something more was logged. *)
Definition louder (v0 v1 : validator) : Prop := v1 = v0 \/ (count v0 < count v1)%nat.

Definition steps {A : Type} (m : M A) : Prop := forall v0, louder v0 (snd (m v0)).

(** The logger has counted no fewer calls afterwards. *)
Definition rising {A : Type} (m : M A) : Prop :=
  forall v0, (count v0 <= count (snd (m v0)))%nat.





(** ** The calls of [validate_manifest] for its keys *)

(** The error of [validate_manifest] for a key that fails the pattern, and
    the calls of a list that carry its code. *)
Definition digest_error (v : validator) (key : string) : call :=
  Call Log.SevError "E304" [("where", JStr (where_ v)); ("digest", JStr key)].

Definition digest_errors (cs : list call) : list call :=
  List.filter (fun c => String.eqb (call_code c) "E304") cs.

(** [l'] holds the elements of [l] that meet [P], in the order of [l]. *)
Inductive selects {A : Type} (P : A -> Prop) : list A -> list A -> Prop :=
| selects_nil : selects P [] []
| selects_keep x l l' : P x -> selects P l l' -> selects P (x :: l) (x :: l')
| selects_drop x l l' : ~ P x -> selects P l l' -> selects P (x :: l) l'.

(* ------------------------------------------------------------------ *)
(** * Reasoning rules for methods *)
(* ------------------------------------------------------------------ *)

Section Rules.
Context {I : validator -> Prop} {G : exn -> Prop}.

Lemma keeps_ret {A} (a : A) : keeps I G (ret a).
Proof. intros v Hv. by split. Qed.

Lemma keeps_raise {A} (e : exn) : G e -> keeps I G (@raise A e).
Proof. intros He v Hv. by split. Qed.

Lemma keeps_lift {A} (o : outcome A) : raises_in G o -> keeps I G (lift o).
Proof. intros Ho v Hv. split; [done | by destruct o]. Qed.

Lemma keeps_gets {A} (f : validator -> A) : keeps I G (gets f).
Proof. intros v Hv. by split. Qed.

Lemma keeps_modify (f : validator -> validator) :
  (forall v, I v -> I (f v)) -> keeps I G (modify f).
Proof. intros Hf v Hv. split; [by apply Hf | done]. Qed.

Lemma keeps_bind {A B} (m : M A) (k : A -> M B) :
  keeps I G m -> (forall a, keeps I G (k a)) -> keeps I G (bind m k).
Proof.
  intros Hm Hk v Hv. unfold bind.
  destruct (Hm v Hv) as [H1 H2]. destruct (m v) as [[a | e] v']; simpl in *.
  - by apply Hk.
  - by split.
Qed.

Lemma keeps_when (b : bool) (m : M unit) : keeps I G m -> keeps I G (when b m).
Proof. intros Hm. destruct b; [done | apply keeps_ret]. Qed.

Lemma keeps_for_each {A} (l : list A) (body : A -> M unit) :
  (forall x, keeps I G (body x)) -> keeps I G (for_each l body).
Proof.
  intros Hbody. induction l as [| x l IH]; simpl.
  - apply keeps_ret.
  - apply keeps_bind; [apply Hbody | intros _; exact IH].
Qed.

Lemma keeps_fold_each {A B} (l : list A) (acc : B) (body : A -> B -> M B) :
  (forall x acc, keeps I G (body x acc)) -> keeps I G (fold_each l acc body).
Proof.
  intros Hbody. revert acc. induction l as [| x l IH]; intros acc; simpl.
  - apply keeps_ret.
  - apply keeps_bind; [apply Hbody | intros acc'; apply IH].
Qed.

Lemma keeps_for_each_bound {A} (l : list A) (bound : option A) (body : A -> M unit) :
  (forall x, keeps I G (body x)) -> keeps I G (for_each_bound l bound body).
Proof.
  intros Hbody. revert bound. induction l as [| x l IH]; intros bound; simpl.
  - apply keeps_ret.
  - apply keeps_bind; [apply Hbody | intros _; apply IH].
Qed.

Lemma keeps_except {A} (m : M A) (handler : string -> M A) :
  keeps I (fun e => G e \/ exists msg, e = ValueError msg) m ->
  (forall msg, keeps I G (handler msg)) ->
  keeps I G (except_ValueError m handler).
Proof.
  intros Hm Hh v Hv. unfold except_ValueError.
  destruct (Hm v Hv) as [H1 H2]. destruct (m v) as [[a | e] v']; simpl in *; [done |].
  destruct e; try (split; [done | by destruct H2 as [? | [? ?]]]).
  by apply Hh.
Qed.

Lemma keeps_re_match (pattern : string) (x : json) :
  (forall e, benign e -> G e) -> keeps I G (re_match pattern x).
Proof.
  intros HG. unfold re_match. destruct (Re.compile pattern).
  - destruct x; first [apply keeps_ret | apply keeps_raise, HG; by intros ?].
  - apply keeps_raise, HG. by intros ?.
Qed.

Lemma keeps_re_search (pattern s : string) :
  (forall e, benign e -> G e) -> keeps I G (re_search pattern s).
Proof.
  intros HG. apply keeps_lift. unfold Re.re_search.
  destruct (Re.compile pattern); simpl; [done | apply HG; by intros ?].
Qed.

End Rules.

(** The built-in operations raise nothing but benign exceptions. *)
Lemma at_index_benign {A} (l : list A) z : raises_in benign (at_index l z).
Proof.
  unfold at_index. destruct (_ <? 0); [by intros ? |].
  destruct (nth_error _ _); [done | by intros ?].
Qed.

Lemma py_contains_benign x c : raises_in benign (py_contains x c).
Proof. destruct c, x; simpl; try done; by intros ?. Qed.

Lemma py_index_benign c k : raises_in benign (py_index c k).
Proof.
  destruct c; simpl; try (by intros ?).
  - destruct (as_index k); [apply at_index_benign | by intros ?].
  - destruct (as_index k); [apply at_index_benign | by intros ?].
  - destruct k; simpl; try (by intros ?). destruct (dict_get _ _); [done | by intros ?].
Qed.

Lemma py_in_benign key c : raises_in benign (py_in key c).
Proof. apply py_contains_benign. Qed.

Lemma py_getitem_benign c key : raises_in benign (py_getitem c key).
Proof. apply py_index_benign. Qed.

Lemma py_get_benign c key : raises_in benign (py_get c key).
Proof. destruct c; simpl; try done; by intros ?. Qed.

Lemma py_iter_benign c : raises_in benign (py_iter c).
Proof. destruct c; simpl; try done; by intros ?. Qed.

Lemma raises_in_weaken {A} (G G' : exn -> Prop) (o : outcome A) :
  (forall e, G e -> G' e) -> raises_in G o -> raises_in G' o.
Proof. intros H. destruct o; simpl; auto. Qed.

(** ** What one call does to the logger *)

Lemma codes_error code args L :
  Log.codes (Log.error code args L) = <[code := Log.render L code Log.SevError args]> (Log.codes L).
Proof. reflexivity. Qed.

Lemma codes_warn code args L :
  Log.codes (Log.warn code args L) = <[code := Log.render L code Log.SevWarning args]> (Log.codes L).
Proof. reflexivity. Qed.

Lemma num_errors_error code args L :
  Log.num_errors (Log.error code args L) = S (Log.num_errors L).
Proof. reflexivity. Qed.

Lemma num_errors_warn code args L :
  Log.num_errors (Log.warn code args L) = Log.num_errors L.
Proof. reflexivity. Qed.

Lemma num_warnings_error code args L :
  Log.num_warnings (Log.error code args L) = Log.num_warnings L.
Proof. reflexivity. Qed.

Lemma num_warnings_warn code args L :
  Log.num_warnings (Log.warn code args L) = S (Log.num_warnings L).
Proof. reflexivity. Qed.

Lemma messages_error code args L :
  Log.messages (Log.error code args L) =
  Log.messages L ++ [Log.render L code Log.SevError args].
Proof. reflexivity. Qed.

Lemma messages_warn code args L :
  Log.messages (Log.warn code args L) =
  if Log.warnings L then Log.messages L ++ [Log.render L code Log.SevWarning args]
  else Log.messages L.
Proof. reflexivity. Qed.

Lemma config_error code args L :
  Log.warnings (Log.error code args L) = Log.warnings L /\
  Log.lang (Log.error code args L) = Log.lang L /\
  Log.validation_codes (Log.error code args L) = Log.validation_codes L.
Proof. by repeat split. Qed.

Lemma config_warn code args L :
  Log.warnings (Log.warn code args L) = Log.warnings L /\
  Log.lang (Log.warn code args L) = Log.lang L /\
  Log.validation_codes (Log.warn code args L) = Log.validation_codes L.
Proof. by repeat split. Qed.

(** The message text never matters to the control flow: the logger's
    methods and the pattern compiler stay folded in proofs. *)
#[global] Opaque Log.error Log.warn Re.compile.


Lemma keeps_error (I : validator -> Prop) (G : exn -> Prop) (S : string -> Prop) code args :
  respects I S -> S code -> keeps I G (error code args).
Proof.
  intros HS Hc v Hv.
  destruct (HS v code (("where", JStr (where_ v)) :: args) Hc Hv) as [H1 _].
  cbv beta iota delta [error modify snd fst]. split; [exact H1 | exact Logic.I].
Qed.

Lemma keeps_warn (I : validator -> Prop) (G : exn -> Prop) (S : string -> Prop) code args :
  respects I S -> S code -> keeps I G (warn code args).
Proof.
  intros HS Hc v Hv.
  destruct (HS v code (("where", JStr (where_ v)) :: args) Hc Hv) as [_ H2].
  cbv beta iota delta [warn modify snd fst]. split; [exact H2 | exact Logic.I].
Qed.

Ltac keeps_step :=
  lazymatch goal with
  | |- keeps _ _ (bind _ _) => apply keeps_bind; [ | intros ? ]
  | |- keeps _ _ (ret _) => apply keeps_ret
  | |- keeps _ _ (gets _) => apply keeps_gets
  | |- keeps _ _ (when _ _) => apply keeps_when
  | |- keeps _ _ (raise _) => apply keeps_raise
  | |- keeps _ _ (lift _) => apply keeps_lift
  | |- keeps _ _ (fold_each _ _ _) => apply keeps_fold_each; intros ? ?
  | |- keeps _ _ (for_each _ _) => apply keeps_for_each; intros ?
  | |- keeps _ _ (for_each_bound _ _ _) => apply keeps_for_each_bound; intros ?
  | |- keeps _ _ (except_ValueError _ _) => apply keeps_except; [ | intros ? ]
  | |- keeps _ _ (re_match _ _) => apply keeps_re_match
  | |- keeps _ _ (re_search _ _) => apply keeps_re_search
  | |- keeps _ _ (match ?x with _ => _ end) => destruct x
  end.

Ltac split_bind :=
  lazymatch goal with
  | |- keeps _ _ (bind _ _) => apply keeps_bind; [ | intros ? ]
  end.

Ltac benign_tac :=
  first
    [ apply py_in_benign | apply py_getitem_benign | apply py_iter_benign
    | apply py_get_benign | apply at_index_benign | apply py_contains_benign
    | apply py_index_benign ].

Section Methods.
Context (I : validator -> Prop) (G : exn -> Prop).
Hypothesis HG : forall e, benign e -> G e.
Hypothesis HS : respects I inner.
Hypothesis Hregex : keeps I G digest_regex.

Ltac finish :=
  try solve
    [ assumption
    | eapply keeps_error; [exact HS | reflexivity]
    | eapply keeps_warn; [exact HS | reflexivity]
    | eapply raises_in_weaken; [exact HG | benign_tac]
    | apply HG; by intros ?
    | exact HG ].

Lemma keeps_is_valid_content_path path : keeps I G (is_valid_content_path path).
Proof. unfold is_valid_content_path. repeat keeps_step; finish. Qed.

Lemma keeps_validate_manifest manifest : keeps I G (validate_manifest manifest).
Proof.
  unfold validate_manifest.
  repeat keeps_step; finish; apply keeps_is_valid_content_path.
Qed.

Lemma keeps_walk_sequence fmt versions max_version_num count n all_versions :
  keeps I G (walk_sequence fmt versions max_version_num count n all_versions).
Proof.
  revert n all_versions. induction count as [| count IH]; intros n all_versions; simpl.
  - repeat keeps_step; finish.
  - destruct (dict_has _ _); [apply IH |]. repeat keeps_step; finish.
Qed.

Lemma keeps_validate_version_sequence versions :
  keeps I G (validate_version_sequence versions).
Proof.
  unfold validate_version_sequence. cbv zeta.
  destruct versions; try (repeat keeps_step; finish; fail).
  destruct (dict_has "v1" d).
  - generalize (N.to_nat (999999 - 1)). intros count.
    apply keeps_bind; [| intros _; apply keeps_walk_sequence].
    repeat keeps_step; finish.
  - destruct (find_padding (seq 2 9) d) as [[[n fmt] vkey] |].
    + generalize (N.to_nat (10 ^ (N.of_nat n - 1) - 1 - 1)). intros count.
      apply keeps_bind; [| intros _; apply keeps_walk_sequence].
      repeat keeps_step; finish.
    + repeat keeps_step; finish.
Qed.

Lemma keeps_validate_state_block state : keeps I G (validate_state_block state).
Proof. unfold validate_state_block. repeat keeps_step; finish. Qed.

Section Datetime.
Variable str_to_datetime : string -> outcome unit.
Hypothesis Hdt :
  forall s, raises_in (fun e => G e \/ exists msg, e = ValueError msg) (str_to_datetime s).

Lemma keeps_validate_version versions v digests_used :
  keeps I G (validate_version str_to_datetime versions v digests_used).
Proof.
  unfold validate_version. cbv zeta.
  repeat keeps_step; finish;
    try apply keeps_validate_state_block;
    try solve [ apply Hdt
              | intros e He; left; by apply HG
              | eapply keeps_warn; [exact HS | reflexivity] ].
Qed.

Lemma keeps_validate_versions versions all_versions :
  keeps I G (validate_versions str_to_datetime versions all_versions).
Proof.
  unfold validate_versions. apply keeps_fold_each. intros. apply keeps_validate_version.
Qed.

End Datetime.

Lemma keeps_check_digests_present_and_used manifest digests_used :
  keeps I G (check_digests_present_and_used manifest digests_used).
Proof. unfold check_digests_present_and_used. cbv zeta. repeat keeps_step; finish. Qed.

End Methods.

(* ------------------------------------------------------------------ *)
(** * The frame relations and the logger *)
(* ------------------------------------------------------------------ *)


Lemma respects_mono (I : validator -> Prop) (S S' : string -> Prop) :
  (forall code, S' code -> S code) -> respects I S -> respects I S'.
Proof. intros HSS HS v code args Hc Hv. apply HS; auto. Qed.

Lemma respects_and (I J : validator -> Prop) (S : string -> Prop) :
  respects I S -> respects J S -> respects (fun v => I v /\ J v) S.
Proof.
  intros HI HJ v code args Hc [Hi Hj].
  destruct (HI v code args Hc Hi), (HJ v code args Hc Hj). by repeat split.
Qed.

Lemma respects_same_code c v0 : respects (same_code c v0) (fun code => code <> c).
Proof.
  intros v code args Hc Hv. unfold same_code in *. simpl.
  rewrite codes_error, codes_warn, !lookup_insert_ne by done. by split.
Qed.

Lemma respects_log_grows v0 : respects (log_grows v0) everything.
Proof.
  intros v code args _ (Hcodes & He & Hw). unfold log_grows. simpl.
  rewrite codes_error, codes_warn, num_errors_error, num_errors_warn,
    num_warnings_error, num_warnings_warn.
  repeat split; try lia; intros c Hc; apply Hcodes in Hc;
    (destruct (decide (code = c)) as [-> | Hne];
     [rewrite lookup_insert_eq; eauto | by rewrite lookup_insert_ne]).
Qed.


Lemma respects_good : respects good everything.
Proof. intros v code args _ Hv. by split. Qed.

(* ------------------------------------------------------------------ *)
(** * The blocks of [validate] *)
(* ------------------------------------------------------------------ *)

Section Blocks.
Context (I : validator -> Prop) (G : exn -> Prop) (S : string -> Prop).
Hypothesis HG : forall e, benign e -> G e.
Hypothesis HS : respects I S.
Hypothesis Hinner : forall code, inner code -> S code.
Hypothesis Hregex : keeps I G digest_regex.
Variable str_to_datetime : string -> outcome unit.
Hypothesis Hdt :
  forall s, raises_in (fun e => G e \/ exists msg, e = ValueError msg) (str_to_datetime s).

Ltac block :=
  try solve
    [ assumption
    | eapply keeps_error; [exact HS | assumption]
    | eapply keeps_warn; [exact HS | assumption]
    | eapply raises_in_weaken; [exact HG | benign_tac]
    | apply HG; by intros ?
    | exact HG
    | apply keeps_modify; intros; auto ].

Lemma respects_inner : respects I inner.
Proof. exact (respects_mono I S inner Hinner HS). Qed.

Ltac given := first [exact HG | exact respects_inner | exact Hregex | exact Hdt].

Lemma keeps_check_id inv :
  S "E101" -> S "W207" -> S "E100" -> keeps I G (check_id inv).
Proof. intros. unfold check_id. repeat keeps_step; block. Qed.

Lemma keeps_check_type inv : S "E102" -> S "E103" -> keeps I G (check_type inv).
Proof. intros. unfold check_type. repeat keeps_step; block. Qed.

Lemma keeps_check_digest_algorithm inv :
  S "E104" -> S "W206" -> S "E105" ->
  (forall v x, I v -> I (set_digest_algorithm x v)) ->
  keeps I G (check_digest_algorithm inv).
Proof. intros. unfold check_digest_algorithm. repeat keeps_step; block. Qed.

Lemma keeps_check_content_directory inv :
  S "E051" -> (forall v x, I v -> I (set_content_directory x v)) ->
  keeps I G (check_content_directory inv).
Proof. intros. unfold check_content_directory. repeat keeps_step; block. Qed.

Lemma keeps_check_manifest inv :
  S "E107" -> (forall v x, I v -> I (set_manifest_files x v)) ->
  keeps I G (check_manifest inv).
Proof.
  intros. unfold check_manifest. repeat keeps_step; block.
  apply keeps_validate_manifest; given.
Qed.

Lemma keeps_check_versions inv :
  S "E108" -> (forall v x, I v -> I (set_all_versions x v)) ->
  keeps I G (check_versions str_to_datetime inv).
Proof.
  intros. unfold check_versions. repeat keeps_step; block.
  - apply keeps_validate_version_sequence; given.
  - apply keeps_validate_versions; given.
Qed.

Lemma keeps_check_head inv :
  S "E914" -> S "E106" -> (forall v x, I v -> I (set_head x v)) ->
  keeps I G (check_head inv).
Proof. intros. unfold check_head. repeat keeps_step; block. Qed.

Lemma keeps_check_consistency inv digests_used :
  keeps I G (check_consistency inv digests_used).
Proof.
  unfold check_consistency. repeat keeps_step; block.
  apply keeps_check_digests_present_and_used; given.
Qed.

End Blocks.

(* ------------------------------------------------------------------ *)
(** * [digest_regex] always has a pattern *)
(* ------------------------------------------------------------------ *)

Lemma py_eq_str a s : py_eq a (JStr s) = true <-> a = JStr s.
Proof.
  destruct a as [| | | f | | |]; try destruct f; simpl;
    try (split; [discriminate | congruence]).
  rewrite String.eqb_eq. split; congruence.
Qed.

Lemma digest_regex_state v : snd (digest_regex v) = v.
Proof.
  unfold digest_regex, bind, gets, ret, raise. simpl.
  repeat (destruct (py_eq _ _); simpl; [reflexivity |]).
  destruct (lax_digests v); reflexivity.
Qed.

(** Whatever holds of the state is kept by [digest_regex], which only reads. *)
Lemma keeps_digest_regex_any (I : validator -> Prop) :
  keeps I (fun _ => True) digest_regex.
Proof.
  intros v Hv. rewrite digest_regex_state. split; [done |]. by destruct (fst _).
Qed.

Lemma digest_regex_good v :
  good v -> exists pattern, digest_regex v = (Ok pattern, v).
Proof.
  intros Hv. unfold digest_regex, bind, gets, ret, raise. simpl.
  destruct (py_eq (digest_algorithm v) (JStr "sha512")) eqn:E1; [eauto |].
  destruct (py_eq (digest_algorithm v) (JStr "sha256")) eqn:E2; [eauto |].
  destruct Hv as [Hv | [Hv | Hv]].
  - apply py_eq_str in Hv. congruence.
  - apply py_eq_str in Hv. congruence.
  - rewrite Hv. eauto.
Qed.

Lemma keeps_digest_regex_good : keeps good benign digest_regex.
Proof.
  intros v Hv. destruct (digest_regex_good v Hv) as [pattern ->]. by split.
Qed.

Lemma keeps_check_digest_algorithm_good inv :
  keeps good benign (check_digest_algorithm inv).
Proof.
  intros v Hv. unfold check_digest_algorithm, bind, lift, gets, modify, ret.
  pose proof (py_in_benign "digestAlgorithm" inv) as Hin.
  destruct (py_in "digestAlgorithm" inv) as [[|] | e]; simpl; [| by split | by split].
  pose proof (py_getitem_benign inv "digestAlgorithm") as Hget.
  destruct (py_getitem inv "digestAlgorithm") as [da | e]; simpl; [| by split].
  destruct (py_eq da (JStr "sha512")) eqn:E1; simpl; [by split |].
  destruct (lax_digests v) eqn:Hlax; simpl.
  - split; [| done]. right; right. exact Hlax.
  - destruct (py_eq da (JStr "sha256")) eqn:E2; simpl.
    + split; [| done]. right; left. simpl. by apply py_eq_str.
    + by split.
Qed.

Lemma keeps_validate_good str_to_datetime inv :
  (forall s, raises_in benign (str_to_datetime s)) ->
  keeps good benign (validate str_to_datetime inv).
Proof.
  intros Hdt. unfold validate.
  assert (HG : forall e, benign e -> benign e) by auto.
  assert (Hdt' : forall s,
    raises_in (fun e => benign e \/ exists msg, e = ValueError msg) (str_to_datetime s)).
  { intros s. eapply raises_in_weaken; [| apply Hdt]. by left. }
  assert (Hall : forall code, inner code -> everything code) by done.
  repeat split_bind.
  - apply keeps_modify. auto.
  - eapply keeps_check_id; eauto using respects_good; done.
  - eapply keeps_check_type; eauto using respects_good; done.
  - apply keeps_check_digest_algorithm_good.
  - eapply keeps_check_content_directory; eauto using respects_good; done.
  - eapply keeps_check_manifest;
      eauto using respects_good, keeps_digest_regex_good; done.
  - eapply keeps_check_versions;
      eauto using respects_good, keeps_digest_regex_good; done.
  - eapply keeps_check_head; eauto using respects_good; done.
  - eapply keeps_check_consistency; eauto using respects_good.
Qed.

Lemma run_bind {A B} (m : M A) (k : A -> M B) v a :
  fst (m v) = Ok a -> bind m k v = k a (snd (m v)).
Proof. unfold bind. destruct (m v) as [[a' | e] v']; simpl; congruence. Qed.

Lemma keeps_run {A} (I : validator -> Prop) (G : exn -> Prop) (m : M A) v :
  keeps I G m -> I v -> I (snd (m v)).
Proof. intros Hm Hv. by apply Hm. Qed.

(** ** On a dictionary the first blocks return *)

Lemma compile_id_pattern : exists r, Re.compile "(\w+):.+" = Some r.
Proof. eexists. vm_compute. reflexivity. Qed.

Lemma check_id_returns d v : fst (check_id (JDict d) v) = Ok tt.
Proof.
  unfold check_id, bind, lift, py_in, py_getitem, py_contains, py_index, dict_has.
  simpl. destruct (dict_get "id" d) as [iid |]; simpl; [| reflexivity].
  destruct (negb (is_str iid) || py_eq iid (JStr "")) eqn:E; [reflexivity |].
  destruct iid; try discriminate E. unfold re_match.
  destruct compile_id_pattern as [r ->]. simpl.
  destruct (negb (Re.accept _ _ _ _)); reflexivity.
Qed.

Lemma check_type_returns d v : fst (check_type (JDict d) v) = Ok tt.
Proof.
  unfold check_type, bind, lift, py_in, py_getitem, py_contains, py_index, dict_has.
  simpl. destruct (dict_get "type" d) as [t |]; simpl; [| reflexivity].
  destruct (negb _); reflexivity.
Qed.

Lemma check_digest_algorithm_returns d v :
  fst (check_digest_algorithm (JDict d) v) = Ok tt.
Proof.
  unfold check_digest_algorithm, bind, lift, gets, py_in, py_getitem, py_contains,
    py_index, dict_has.
  simpl. destruct (dict_get "digestAlgorithm" d) as [da |]; simpl; [| reflexivity].
  destruct (py_eq da (JStr "sha512")); [reflexivity |].
  destruct (lax_digests v); [reflexivity |].
  destruct (py_eq da (JStr "sha256")); reflexivity.
Qed.

Lemma check_content_directory_returns d v :
  fst (check_content_directory (JDict d) v) = Ok tt.
Proof.
  unfold check_content_directory, bind, lift, py_in, py_getitem, py_contains,
    py_index, dict_has.
  simpl. destruct (dict_get "contentDirectory" d) as [cd |]; simpl; [| reflexivity].
  destruct cd; try reflexivity.
  match goal with |- context [if ?b then _ else _] => destruct b end; reflexivity.
Qed.

(** ** Frames for runs of blocks *)


Section Frames.
Context (I : validator -> Prop) (S : string -> Prop).
Hypothesis HS : respects I S.
Hypothesis Hinner : forall code, inner code -> S code.
Hypothesis Hneutral : neutral I.
Variable str_to_datetime : string -> outcome unit.

Lemma any_benign : forall e, benign e -> any_exn e.
Proof. done. Qed.

Lemma any_datetime :
  forall s, raises_in (fun e => any_exn e \/ exists msg, e = ValueError msg) (str_to_datetime s).
Proof. intros s. destruct (str_to_datetime s); simpl; [done | by left]. Qed.

Lemma frame_id inv : S "E100" -> S "E101" -> S "W207" -> keeps I any_exn (check_id inv).
Proof. intros. eapply keeps_check_id; eauto using any_benign. Qed.

Lemma frame_type inv : S "E102" -> S "E103" -> keeps I any_exn (check_type inv).
Proof. intros. eapply keeps_check_type; eauto using any_benign. Qed.

Lemma frame_digest_algorithm inv :
  S "E104" -> S "W206" -> S "E105" ->
  (forall v x, I v -> I (set_digest_algorithm x v)) ->
  keeps I any_exn (check_digest_algorithm inv).
Proof. intros. eapply keeps_check_digest_algorithm; eauto using any_benign. Qed.

Lemma frame_content_directory inv :
  S "E051" -> (forall v x, I v -> I (set_content_directory x v)) ->
  keeps I any_exn (check_content_directory inv).
Proof. intros. eapply keeps_check_content_directory; eauto using any_benign. Qed.

Lemma frame_manifest inv : S "E107" -> keeps I any_exn (check_manifest inv).
Proof.
  intros. destruct Hneutral as (? & ? & ? & ?).
  eapply keeps_check_manifest; eauto using any_benign, keeps_digest_regex_any.
Qed.

Lemma frame_versions inv :
  S "E108" -> keeps I any_exn (check_versions str_to_datetime inv).
Proof.
  intros. destruct Hneutral as (? & ? & ? & ?).
  eapply keeps_check_versions;
    eauto using any_benign, keeps_digest_regex_any, any_datetime.
Qed.

Lemma frame_head inv : S "E914" -> S "E106" -> keeps I any_exn (check_head inv).
Proof.
  intros. destruct Hneutral as (? & ? & ? & ?).
  eapply keeps_check_head; eauto using any_benign.
Qed.

Lemma frame_consistency inv digests_used :
  keeps I any_exn (check_consistency inv digests_used).
Proof. eapply keeps_check_consistency; eauto using any_benign. Qed.

(** Everything from the manifest on. *)
Lemma frame_from_manifest inv :
  S "E107" -> S "E108" -> S "E914" -> S "E106" ->
  keeps I any_exn
    (check_manifest inv ;;
     digests_used <- check_versions str_to_datetime inv ;;
     check_head inv ;;
     check_consistency inv digests_used).
Proof.
  intros. repeat split_bind.
  - by apply frame_manifest.
  - by apply frame_versions.
  - by apply frame_head.
  - apply frame_consistency.
Qed.

End Frames.

Lemma inner_not (c : string) :
  mem c inner_codes = false -> forall code, inner code -> code <> c.
Proof. intros Hc code Hin ->. unfold inner in Hin. congruence. Qed.

Lemma log_grows_refl v : log_grows v v.
Proof. by repeat split. Qed.

Lemma neutral_and (I J : validator -> Prop) :
  neutral I -> neutral J -> neutral (fun v => I v /\ J v).
Proof.
  intros (? & ? & ? & ?) (? & ? & ? & ?).
  split; [| split; [| split]]; intros v x [? ?]; split; auto.
Qed.

Lemma neutral_same_code c v0 : neutral (same_code c v0).
Proof. unfold neutral. split_and!; intros ? ? H; exact H. Qed.

Lemma neutral_log_grows v0 : neutral (log_grows v0).
Proof. unfold neutral. split_and!; intros ? ? H; exact H. Qed.

Lemma neutral_digest_algorithm x : neutral (fun v => digest_algorithm v = x).
Proof. unfold neutral. split_and!; intros ? ? H; exact H. Qed.

Lemma neutral_lax_digests x : neutral (fun v => lax_digests v = x).
Proof. unfold neutral. split_and!; intros ? ? H; exact H. Qed.

Lemma neutral_content_directory x : neutral (fun v => content_directory v = x).
Proof. unfold neutral. split_and!; intros ? ? H; exact H. Qed.

Lemma respects_field {A} (f : validator -> A) (x : A) :
  (forall L v, f (set_log L v) = f v) ->
  respects (fun v => f v = x) everything.
Proof. intros Hf v code args _ Hv. by rewrite !Hf. Qed.

Lemma respects_any (I : validator -> Prop) (S : string -> Prop) :
  respects I everything -> respects I S.
Proof. apply respects_mono. done. Qed.

(* ------------------------------------------------------------------ *)
(** * The digest algorithm *)
(* ------------------------------------------------------------------ *)

(** C10.  A run of [validate] that starts with a digest algorithm for which
    [digest_regex] has a pattern ('sha512', 'sha256', or any value while
    [lax_digests] is set) ends with one, and never raises the plain
    [Exception] of [digest_regex], whatever the document and the flag,
    provided [str_to_datetime] itself does not raise it. *)
Theorem validate_digest_regex_never_raises str_to_datetime inv v :
  (forall s msg, str_to_datetime s <> Raise (Exception msg)) ->
  good v ->
  good (snd (validate str_to_datetime inv v)) /\
  (forall msg, fst (validate str_to_datetime inv v) <> Raise (Exception msg)) /\
  (exists pattern,
     fst (digest_regex (snd (validate str_to_datetime inv v))) = Ok pattern).
Proof.
  intros Hdt Hv.
  assert (Hdt' : forall s, raises_in benign (str_to_datetime s)).
  { intros s. destruct (str_to_datetime s) as [| e] eqn:E; simpl; [done |].
    intros msg ->. by apply (Hdt s msg). }
  destruct (keeps_validate_good str_to_datetime inv Hdt' v Hv) as [H1 H2].
  split; [exact H1 | split].
  - intros msg Hr. rewrite Hr in H2. by apply (H2 msg).
  - destruct (digest_regex_good _ H1) as [pattern ->]. by exists pattern.
Qed.

Lemma validate_digest_regex_never_raises_fresh :
  let v := init (Log.init [] false "en") "???" false in
  let doc := JDict [("digestAlgorithm", JStr "md5"); ("manifest", JDict [("0", JList [])])] in
  good (snd (validate (fun _ => Ok tt) doc v)) /\
  (forall msg, fst (validate (fun _ => Ok tt) doc v) <> Raise (Exception msg)) /\
  (exists pattern, fst (digest_regex (snd (validate (fun _ => Ok tt) doc v))) = Ok pattern).
Proof.
  apply (validate_digest_regex_never_raises (fun _ => Ok tt)).
  - intros s msg. discriminate.
  - left. reflexivity.
Defined.

Lemma check_digest_algorithm_sha256 d v :
  dict_get "digestAlgorithm" d = Some (JStr "sha256") ->
  snd (check_digest_algorithm (JDict d) v) =
  set_digest_algorithm (JStr "sha256")
    (if lax_digests v then v
     else set_log (Log.warn "W206" [("where", JStr (where_ v))] (log v)) v).
Proof.
  intros Hd.
  unfold check_digest_algorithm, bind, lift, gets, py_in, py_getitem, py_contains,
    py_index, dict_has.
  simpl. rewrite Hd. simpl. destruct (lax_digests v); reflexivity.
Qed.

(** C6, as amended.  For an inventory whose [digestAlgorithm] is 'sha256',
    [validate] adopts 'sha256' as the snapshot's digest algorithm in both
    modes; it logs the warning W206 when [lax_digests] is off, and leaves
    the logger's W206 entry untouched when [lax_digests] is on. *)
Theorem validate_sha256 str_to_datetime d v :
  dict_get "digestAlgorithm" d = Some (JStr "sha256") ->
  let v' := snd (validate str_to_datetime (JDict d) v) in
  digest_algorithm v' = JStr "sha256" /\
  (lax_digests v = false ->
     is_Some (Log.codes (log v') !! "W206") /\
     (Log.num_warnings (log v) < Log.num_warnings (log v'))%nat) /\
  (lax_digests v = true ->
     Log.codes (log v') !! "W206" = Log.codes (log v) !! "W206").
Proof.
  intros Hd. cbv zeta. unfold validate.
  rewrite (run_bind (modify (set_inventory (JDict d))) _ v tt eq_refl).
  change (snd (modify (set_inventory (JDict d)) v)) with (set_inventory (JDict d) v).
  set (v0 := set_inventory (JDict d) v).
  set (Ipre := fun v' : validator =>
         lax_digests v' = lax_digests v /\ same_code "W206" v v' /\ log_grows v v').
  assert (Hres : respects Ipre (fun code => code <> "W206")).
  { apply respects_and; [apply respects_any, respects_field; done |].
    apply respects_and; [apply respects_same_code |].
    apply respects_any, respects_log_grows. }
  assert (Hneu : neutral Ipre).
  { apply neutral_and; [apply neutral_lax_digests |].
    apply neutral_and; [apply neutral_same_code | apply neutral_log_grows]. }
  assert (Hin : forall code, inner code -> code <> "W206") by (by apply inner_not).
  assert (H0 : Ipre v0) by (split; [done | split; [done | exact (log_grows_refl v)]]).
  rewrite (run_bind _ _ v0 tt (check_id_returns d v0)).
  assert (H1 : Ipre (snd (check_id (JDict d) v0))).
  { eapply keeps_run; [| exact H0]. eapply frame_id; eauto; done. }
  set (v1 := snd (check_id (JDict d) v0)) in *.
  rewrite (run_bind _ _ v1 tt (check_type_returns d v1)).
  assert (H2 : Ipre (snd (check_type (JDict d) v1))).
  { eapply keeps_run; [| exact H1]. eapply frame_type; eauto; done. }
  set (v2 := snd (check_type (JDict d) v1)) in *.
  rewrite (run_bind _ _ v2 tt (check_digest_algorithm_returns d v2)).
  rewrite (check_digest_algorithm_sha256 d v2 Hd).
  destruct H2 as (Hlax & Hcode & Hgrow).
  set (v3 := set_digest_algorithm _ _).
  set (Ipost := fun v' : validator =>
         digest_algorithm v' = JStr "sha256" /\ same_code "W206" v3 v' /\ log_grows v3 v').
  assert (Hres' : respects Ipost (fun code => code <> "W206")).
  { apply respects_and; [apply respects_any, respects_field; done |].
    apply respects_and; [apply respects_same_code |].
    apply respects_any, respects_log_grows. }
  assert (Hneu' : neutral Ipost).
  { apply neutral_and; [apply neutral_digest_algorithm |].
    apply neutral_and; [apply neutral_same_code | apply neutral_log_grows]. }
  assert (H3 : Ipost v3) by (split; [done | split; [done | apply log_grows_refl]]).
  match goal with |- context [snd (?rest v3)] => assert (H4 : Ipost (snd (rest v3))) end.
  { eapply keeps_run; [| exact H3]. apply keeps_bind; [| intros _].
    - eapply frame_content_directory; eauto; first [done | intros ? ? H; exact H].
    - eapply frame_from_manifest; eauto; done. }
  destruct H4 as (Hda & Hcode' & Hcodes' & _ & Hw').
  split; [exact Hda | split].
  - intros Hoff. rewrite Hoff in Hlax. subst v3. rewrite Hlax in *. split.
    + apply Hcodes'. simpl. rewrite codes_warn, lookup_insert_eq. eauto.
    + simpl in Hw'. rewrite num_warnings_warn in Hw'.
      destruct Hgrow as (_ & _ & Hw). lia.
  - intros Hon. rewrite Hon in Hlax. subst v3. rewrite Hlax in *.
    unfold same_code in *. simpl in Hcode'. congruence.
Qed.

(* ------------------------------------------------------------------ *)
(** * The content directory *)
(* ------------------------------------------------------------------ *)


Lemma check_content_directory_state d v cd :
  dict_get "contentDirectory" d = Some cd ->
  snd (check_content_directory (JDict d) v) =
  if unsafe_content_directory cd
  then set_log (Log.error "E051" [("where", JStr (where_ v))] (log v)) v
  else match cd with JStr s => set_content_directory s v | _ => v end.
Proof.
  intros Hd.
  unfold check_content_directory, bind, lift, py_in, py_getitem, py_contains,
    py_index, dict_has.
  simpl. rewrite Hd. simpl. destruct cd; try reflexivity.
  destruct (unsafe_content_directory (JStr s)); reflexivity.
Qed.

(** C9.  When [contentDirectory] is present but unsafe (not a string, with a
    '/', or '.' or '..'), [validate] logs the error E051 and the snapshot's
    [content_directory] stays the default 'content': the manifest block and
    everything after it run from a state with the default, and so does any
    later content-path check.  A safe value is adopted. *)
Theorem validate_content_directory str_to_datetime d v cd :
  dict_get "contentDirectory" d = Some cd ->
  content_directory v = "content" ->
  let v' := snd (validate str_to_datetime (JDict d) v) in
  (unsafe_content_directory cd = true ->
     content_directory v' = "content" /\
     is_Some (Log.codes (log v') !! "E051") /\
     (Log.num_errors (log v) < Log.num_errors (log v'))%nat /\
     (exists v4, content_directory v4 = "content" /\
        validate str_to_datetime (JDict d) v = from_manifest str_to_datetime (JDict d) v4) /\
     (forall path, is_valid_content_path path v' = re_match "^v\d+/content/" path v')) /\
  (unsafe_content_directory cd = false -> cd = JStr (content_directory v')).
Proof.
  intros Hd Hdefault. cbv zeta.
  change (validate str_to_datetime (JDict d))
    with (modify (set_inventory (JDict d)) ;; check_id (JDict d) ;; check_type (JDict d) ;;
          check_digest_algorithm (JDict d) ;; check_content_directory (JDict d) ;;
          from_manifest str_to_datetime (JDict d)).
  rewrite (run_bind (modify (set_inventory (JDict d))) _ v tt eq_refl).
  change (snd (modify (set_inventory (JDict d)) v)) with (set_inventory (JDict d) v).
  set (v0 := set_inventory (JDict d) v).
  set (Ipre := fun v' : validator =>
         content_directory v' = content_directory v /\ log_grows v v').
  assert (Hres : respects Ipre everything).
  { apply respects_and; [apply respects_field; done | apply respects_log_grows]. }
  assert (Hneu : neutral Ipre).
  { apply neutral_and; [apply neutral_content_directory | apply neutral_log_grows]. }
  assert (H0 : Ipre v0) by (split; [done | exact (log_grows_refl v)]).
  rewrite (run_bind _ _ v0 tt (check_id_returns d v0)).
  assert (H1 : Ipre (snd (check_id (JDict d) v0))).
  { eapply keeps_run; [| exact H0]. eapply frame_id; eauto; done. }
  set (v1 := snd (check_id (JDict d) v0)) in *.
  rewrite (run_bind _ _ v1 tt (check_type_returns d v1)).
  assert (H2 : Ipre (snd (check_type (JDict d) v1))).
  { eapply keeps_run; [| exact H1]. eapply frame_type; eauto; done. }
  set (v2 := snd (check_type (JDict d) v1)) in *.
  rewrite (run_bind _ _ v2 tt (check_digest_algorithm_returns d v2)).
  assert (H3 : Ipre (snd (check_digest_algorithm (JDict d) v2))).
  { eapply keeps_run; [| exact H2].
    eapply frame_digest_algorithm; eauto; first [done | intros ? ? H; exact H]. }
  set (v3 := snd (check_digest_algorithm (JDict d) v2)) in *.
  rewrite (run_bind _ _ v3 tt (check_content_directory_returns d v3)).
  rewrite (check_content_directory_state d v3 cd Hd).
  destruct H3 as (Hcd & _ & He & _).
  set (v4 := if unsafe_content_directory cd then _ else _).
  set (Ipost := fun v' : validator =>
         content_directory v' = content_directory v4 /\ log_grows v4 v').
  assert (Hres' : respects Ipost everything).
  { apply respects_and; [apply respects_field; done | apply respects_log_grows]. }
  assert (Hneu' : neutral Ipost).
  { apply neutral_and; [apply neutral_content_directory | apply neutral_log_grows]. }
  assert (H4 : Ipost (snd (from_manifest str_to_datetime (JDict d) v4))).
  { eapply keeps_run; [| split; [done | apply log_grows_refl]].
    eapply frame_from_manifest; eauto; done. }
  destruct H4 as (Hcd' & Hcodes' & He' & _).
  split.
  - intros Hbad. subst v4. rewrite Hbad in *. simpl in Hcd', He'.
    assert (Hfinal : content_directory
              (snd (from_manifest str_to_datetime (JDict d)
                 (set_log (Log.error "E051" [("where", JStr (where_ v3))] (log v3)) v3)))
            = "content") by congruence.
    split; [exact Hfinal | split; [| split; [| split]]].
    + apply Hcodes'. simpl. rewrite codes_error, lookup_insert_eq. eauto.
    + rewrite num_errors_error in He'. lia.
    + eexists. split; [| reflexivity]. simpl. congruence.
    + intros path. unfold is_valid_content_path, bind, gets. simpl.
      rewrite Hfinal. reflexivity.
  - intros Hsafe. subst v4. rewrite Hsafe in *.
    destruct cd; try discriminate Hsafe. simpl in Hcd'. congruence.
Qed.

(* ------------------------------------------------------------------ *)
(** * The head *)
(* ------------------------------------------------------------------ *)

Lemma bind_returns {A B} (m : M A) (k : A -> M B) v b :
  fst (bind m k v) = Ok b ->
  exists a, fst (m v) = Ok a /\ bind m k v = k a (snd (m v)).
Proof.
  unfold bind. destruct (m v) as [[a | e] v1]; simpl; [eauto | discriminate].
Qed.





(* ------------------------------------------------------------------ *)
(** * The version sequence *)
(* ------------------------------------------------------------------ *)


(* ------------------------------------------------------------------ *)
(** * Where the code departs from its intent *)
(* ------------------------------------------------------------------ *)

(** C1.  [validate] does raise: a document with a [head] and no valid
    version makes [self.all_versions[-1]] an [IndexError]; a state that maps
    a digest to a number makes the loop over its files a [TypeError]; a
    manifest that is a list, logged as E307, makes [manifest.keys()] an
    [AttributeError] in the final check.  The blocks after the raise are
    never run. *)
Theorem validate_raises (str_to_datetime : string -> outcome unit)
    (L : Log.logger) (where_ : string) (lax : bool) :
  fst (validate str_to_datetime (JDict [("head", JStr "v1")]) (init L where_ lax))
    = Raise IndexError /\
  fst (validate str_to_datetime
         (JDict [("versions",
                  JDict [("v1", JDict [("state", JDict [(Samples.digest_a, JInt 5)])])])])
         (init L where_ false))
    = Raise TypeError /\
  fst (validate str_to_datetime
         (JDict [("manifest", JList []); ("versions", JDict [])])
         (init L where_ lax))
    = Raise AttributeError.
Proof. repeat split; vm_compute; reflexivity. Qed.

(** C3.  With sha512 the manifest keys 'g' * 128 (not hexadecimal) and
    'a' * 128 followed by a line feed (129 characters) are accepted: no
    E304, the logger is untouched.  Likewise with sha256 and 64
    characters. *)
Theorem digest_regex_accepts_more (v : validator) :
  (digest_algorithm v = JStr "sha512" ->
     validate_manifest (JDict [(Samples.repeat_char 128 "g", JList [])]) v = (Ok [], v) /\
     validate_manifest (JDict [(Samples.repeat_char 128 "a" +:+ str1 LF, JList [])]) v
       = (Ok [], v)) /\
  (digest_algorithm v = JStr "sha256" ->
     validate_manifest (JDict [(Samples.repeat_char 64 "g", JList [])]) v = (Ok [], v) /\
     validate_manifest (JDict [(Samples.repeat_char 64 "a" +:+ str1 LF, JList [])]) v
       = (Ok [], v)).
Proof.
  split; intros Hda;
    unfold validate_manifest, fold_each, dict_keys, map, fst, digest_regex, bind, gets, ret;
    rewrite Hda; split; vm_compute; reflexivity.
Qed.

Lemma digest_regex_accepts_more_sha512 :
  validate_manifest (JDict [(Samples.repeat_char 128 "g", JList [])])
    (Samples.fresh "???" false) = (Ok [], Samples.fresh "???" false) /\
  validate_manifest (JDict [(Samples.repeat_char 128 "a" +:+ str1 LF, JList [])])
    (Samples.fresh "???" false) = (Ok [], Samples.fresh "???" false).
Proof.
  apply (proj1 (digest_regex_accepts_more (Samples.fresh "???" false))). reflexivity.
Defined.

(** C2.  The metadata comparison of [validate_as_prior_version] stands
    after the loop over the prior versions and reads the loop variable: only
    the last shared version is compared.  A changed message in v1 of two
    shared versions goes unnoticed, the same change in v2 is warned.  With
    no prior version at all the variable is unbound when it is read, which
    is after [prior.inventory['versions']] was subscripted: a prior document
    with an empty [versions] raises [UnboundLocalError], one without
    [versions] raises [KeyError]. *)
Theorem validate_as_prior_version_compares_last_only :
  (let r := Samples.lineage (Samples.two_versions "first" "second")
                            (Samples.two_versions "changed" "second") in
   fst r = Ok tt /\ Log.messages (log (snd r)) = [] /\
   Log.num_warnings (log (snd r)) = 0%nat /\ Log.codes (log (snd r)) !! "W212" = None) /\
  (let r := Samples.lineage (Samples.two_versions "first" "second")
                            (Samples.two_versions "first" "changed") in
   fst r = Ok tt /\ Log.num_warnings (log (snd r)) = 1%nat /\
   is_Some (Log.codes (log (snd r)) !! "W212")) /\
  fst (Samples.lineage (JDict [("manifest", JDict []); ("versions", JDict [])])
                       (Samples.two_versions "first" "second"))
    = Raise UnboundLocalError /\
  fst (Samples.lineage (JDict [("manifest", JDict [])])
                       (Samples.two_versions "first" "second"))
    = Raise KeyError.
Proof. vm_compute. repeat split; eauto. Qed.

(* ------------------------------------------------------------------ *)
(** * Lax digests: the pattern [.*$] *)
(* ------------------------------------------------------------------ *)



Lemma accept_lax_pattern pos s :
  Re.accept (Re.RCat (Re.RStar Re.RAny) (Re.RCat Re.REol Re.REmpty)) Re.accept_all pos s
  = one_line s.
Proof.
  revert pos. induction s as [| c s IH]; intros pos; [reflexivity |].
  change (Re.accept (Re.RCat (Re.RStar Re.RAny) (Re.RCat Re.REol Re.REmpty))
            Re.accept_all pos (String c s))
    with (Re.at_end (String c s) && true
          || negb (Ascii.eqb c LF) &&
             (Nat.ltb pos (Datatypes.S pos) &&
              Re.accept (Re.RCat (Re.RStar Re.RAny) (Re.RCat Re.REol Re.REmpty))
                Re.accept_all (Datatypes.S pos) s)).
  rewrite IH. simpl one_line.
  replace (Nat.ltb pos (Datatypes.S pos)) with true
    by (symmetry; apply Nat.ltb_lt; lia).
  destruct (Ascii.eqb c LF) eqn:Hc; simpl.
  - rewrite orb_false_r, andb_true_r. destruct s; simpl; [by rewrite Hc | reflexivity].
  - destruct s; simpl; [by rewrite Hc | reflexivity].
Qed.

Lemma compile_lax_pattern :
  Re.compile ".*$" = Some (Re.RCat (Re.RStar Re.RAny) (Re.RCat Re.REol Re.REmpty)).
Proof. vm_compute. reflexivity. Qed.

Lemma digest_regex_lax v :
  lax_digests v = true ->
  digest_algorithm v <> JStr "sha512" -> digest_algorithm v <> JStr "sha256" ->
  digest_regex v = (Ok ".*$", v).
Proof.
  intros Hlax H512 H256. unfold digest_regex, bind, gets, ret. simpl.
  destruct (py_eq (digest_algorithm v) (JStr "sha512")) eqn:E1;
    [by apply py_eq_str in E1 |].
  destruct (py_eq (digest_algorithm v) (JStr "sha256")) eqn:E2;
    [by apply py_eq_str in E2 |].
  by rewrite Hlax.
Qed.

Lemma set_log_own v : set_log (log v) v = v.
Proof. by destruct v. Qed.

Lemma is_valid_content_path_state path v : snd (is_valid_content_path path v) = v.
Proof.
  unfold is_valid_content_path, bind, gets, re_match.
  destruct (Re.compile _); [| reflexivity]. by destruct path.
Qed.

(** The loop of [validate_manifest] over the files of one digest, and the
    body of its loop over the digests. *)
Local Abbreviation files_loop digest files acc :=
  (fold_each files acc (fun file manifest_files =>
     if hashable file then
       let manifest_files := dict_set py_same file digest manifest_files in
       ok <- is_valid_content_path file ;;
       when (negb ok) (error "E913" [("path", file)]) ;;
       ret manifest_files
     else raise TypeError)).

Local Abbreviation manifest_body m :=
  (fun (digest : string) (manifest_files : list (json * string)) =>
     pattern <- digest_regex ;;
     ok <- re_match pattern (JStr digest) ;;
     if negb ok then error "E304" [("digest", JStr digest)] ;; ret manifest_files
     else
       entry <- lift (py_getitem (JDict m) digest) ;;
       match entry with
       | JList files =>
           fold_each files manifest_files (fun file manifest_files =>
             if hashable file then
               let manifest_files := dict_set py_same file digest manifest_files in
               ok <- is_valid_content_path file ;;
               when (negb ok) (error "E913" [("path", file)]) ;;
               ret manifest_files
             else raise TypeError)
       | _ => error "E308" [("digest", JStr digest)] ;; ret manifest_files
       end).

(** The loop over the files of one digest makes no call with the code of
    the digests. *)
Lemma files_loop_calls (digest : string) files : forall (acc : list (json * string)) v,
  exists cs,
    snd (files_loop digest files acc v) = set_log (run_calls cs (log v)) v /\
    digest_errors cs = [].
Proof.
  induction files as [| file files IH]; intros acc v.
  { exists []. split; [symmetry; apply set_log_own | reflexivity]. }
  cbn [fold_each]. destruct (hashable file).
  2: { exists []. split; [symmetry; apply set_log_own | reflexivity]. }
  cbv zeta. unfold bind at 1. unfold bind at 1.
  pose proof (is_valid_content_path_state file v) as Hstate.
  destruct (is_valid_content_path file v) as [[ok | e] v1]; cbn [snd] in Hstate; subst v1.
  2: { exists []. split; [symmetry; apply set_log_own | reflexivity]. }
  destruct ok; cbn [negb when].
  - unfold bind at 1, ret at 1, ret at 1. cbv beta iota. apply IH.
  - unfold bind at 1, error at 1, modify at 1, ret at 1. cbv beta iota.
    match goal with
    | |- context [fold_each files ?acc1 _ ?v1] =>
        destruct (IH acc1 v1) as (cs & Hcs & Hnone);
        exists (Call Log.SevError "E913" [("where", JStr (where_ v)); ("path", file)] :: cs)
    end.
    split; [exact Hcs | exact Hnone].
Qed.

(** One turn of the loop over the digests: a key that fails the test is
    logged and the loop goes on; a key that passes is not logged. *)
Lemma manifest_body_calls (test : string -> bool) pattern (m : list (string * json))
    digest acc v :
  digest_regex v = (Ok pattern, v) ->
  (forall digest v', re_match pattern (JStr digest) v' = (Ok (test digest), v')) ->
  exists cs,
    snd (manifest_body m digest acc v) = set_log (run_calls cs (log v)) v /\
    digest_errors cs = (if test digest then [] else [digest_error v digest]) /\
    (test digest = false -> fst (manifest_body m digest acc v) = Ok acc).
Proof.
  intros Hp Hm. cbv beta.
  match goal with |- context [snd (?run v)] => remember (run v) as r eqn:Hr end.
  unfold bind at 1 in Hr. rewrite Hp in Hr. unfold bind at 1 in Hr. rewrite (Hm digest v) in Hr.
  destruct (test digest); cbn [negb] in Hr.
  - unfold bind at 1, lift in Hr.
    destruct (py_getitem (JDict m) digest) as [entry | e].
    2: { subst r. exists []. split_and!; [symmetry; apply set_log_own | done | done]. }
    assert (Hother : r = (error "E308" [("digest", JStr digest)] ;; ret acc) v ->
              exists cs, snd r = set_log (run_calls cs (log v)) v /\ digest_errors cs = [] /\
                         (true = false -> fst r = Ok acc)).
    { intros ->.
      exists [Call Log.SevError "E308" [("where", JStr (where_ v)); ("digest", JStr digest)]].
      by split_and!. }
    destruct entry as [| | | | | files |]; try (exact (Hother Hr)).
    subst r. destruct (files_loop_calls digest files acc v) as (cs & H1 & H2).
    exists cs. split_and!; [exact H1 | exact H2 | done].
  - subst r. exists [digest_error v digest]. by split_and!.
Qed.

Lemma digest_regex_set_log v pattern L :
  digest_regex v = (Ok pattern, v) -> digest_regex (set_log L v) = (Ok pattern, set_log L v).
Proof.
  unfold digest_regex, bind, gets, ret, raise. cbn [digest_algorithm lax_digests set_log].
  destruct (py_eq (digest_algorithm v) (JStr "sha512")); [by intros [= <-] |].
  destruct (py_eq (digest_algorithm v) (JStr "sha256")); [by intros [= <-] |].
  cbn [lax_digests set_log]. destruct (lax_digests v); [by intros [= <-] | discriminate].
Qed.

Lemma manifest_loop_calls (test : string -> bool) pattern (m : list (string * json)) l :
  forall acc v,
  digest_regex v = (Ok pattern, v) ->
  (forall digest v', re_match pattern (JStr digest) v' = (Ok (test digest), v')) ->
  exists visited rest cs,
    l = visited ++ rest /\
    (forall files, fst (fold_each l acc (manifest_body m) v) = Ok files -> rest = []) /\
    snd (fold_each l acc (manifest_body m) v) = set_log (run_calls cs (log v)) v /\
    digest_errors cs = map (digest_error v) (List.filter (fun key => negb (test key)) visited).
Proof.
  induction l as [| digest l IH]; intros acc v Hp Hm.
  { exists [], [], []. split_and!; try done. symmetry. apply set_log_own. }
  destruct (manifest_body_calls test pattern m digest acc v Hp Hm) as (cs0 & Hs0 & He0 & Hacc).
  match goal with |- context [snd (?run v)] => remember (run v) as r eqn:Hr end.
  cbn [fold_each] in Hr. unfold bind at 1 in Hr.
  destruct (manifest_body m digest acc v) as [[acc1 | e] v1]; cbn [fst snd] in *.
  - subst v1.
    destruct (IH acc1 (set_log (run_calls cs0 (log v)) v))
      as (visited & rest & cs & Hl & Hrest & Hs & He);
      [by apply digest_regex_set_log | exact Hm |].
    rewrite <- Hr in Hrest, Hs.
    exists (digest :: visited), rest, (cs0 ++ cs). split_and!.
    + by rewrite Hl.
    + exact Hrest.
    + rewrite Hs. unfold run_calls. by rewrite fold_left_app.
    + unfold digest_errors in *. rewrite List.filter_app, He0, He. cbn [List.filter].
      by destruct (test digest).
  - subst r. exists [digest], l, cs0. split_and!; try done.
    cbn [List.filter]. destruct (test digest); [exact He0 |].
    specialize (Hacc eq_refl). discriminate Hacc.
Qed.

Lemma selects_filter {A} (f : A -> bool) (P : A -> Prop) l :
  (forall x, f x = true <-> P x) -> selects P l (List.filter f l).
Proof.
  intros Hf. induction l as [| x l IH]; cbn [List.filter]; [constructor |].
  destruct (f x) eqn:E.
  - apply selects_keep; [by apply Hf | exact IH].
  - apply selects_drop; [| exact IH]. intros Hx. apply Hf in Hx. congruence.
Qed.



(* ------------------------------------------------------------------ *)
(** * The logger's report *)
(* ------------------------------------------------------------------ *)


Lemma render_same_config L L' code sev args :
  same_config L L' -> Log.render L' code sev args = Log.render L code sev args.
Proof. intros (_ & Hl & Hv). unfold Log.render. by rewrite Hl, Hv. Qed.

Lemma apply_call_config L c : same_config L (apply_call L c).
Proof.
  unfold apply_call. destruct (call_severity c);
    [apply config_error | apply config_warn].
Qed.

Lemma run_calls_config cs L : same_config L (run_calls cs L).
Proof.
  revert L. induction cs as [| c cs IH]; intros L; simpl; [done |].
  destruct (IH (apply_call L c)) as (H1 & H2 & H3).
  destruct (apply_call_config L c) as (G1 & G2 & G3).
  unfold same_config. by rewrite H1, H2, H3.
Qed.

Lemma run_calls_messages cs L :
  Log.messages (run_calls cs L) =
  Log.messages L ++ map (message_of L) (List.filter (reported (Log.warnings L)) cs).
Proof.
  revert L. induction cs as [| c cs IH]; intros L; simpl.
  - by rewrite app_nil_r.
  - rewrite IH. destruct (apply_call_config L c) as (Hw & _). rewrite Hw.
    rewrite (List.map_ext (message_of (apply_call L c)) (message_of L))
      by (intros c'; apply render_same_config, apply_call_config).
    destruct c as [[] code args]; unfold reported, is_error, apply_call; simpl.
    + by rewrite messages_error, <- app_assoc.
    + rewrite messages_warn. destruct (Log.warnings L); simpl; [| done].
      by rewrite <- app_assoc.
Qed.

Lemma run_calls_counters cs L :
  Log.num_errors (run_calls cs L) =
    (Log.num_errors L + length (List.filter is_error cs))%nat /\
  Log.num_warnings (run_calls cs L) =
    (Log.num_warnings L + length (List.filter (fun c => negb (is_error c)) cs))%nat.
Proof.
  revert L. induction cs as [| c cs IH]; intros L; simpl; [lia |].
  destruct (IH (apply_call L c)) as [-> ->].
  unfold apply_call, is_error. destruct c as [[] code args]; simpl.
  - rewrite num_errors_error, num_warnings_error. lia.
  - rewrite num_errors_warn, num_warnings_warn. lia.
Qed.

Lemma apply_call_codes L c :
  Log.codes (apply_call L c) = <[call_code c := message_of L c]> (Log.codes L).
Proof.
  unfold apply_call, message_of. destruct (call_severity c);
    [apply codes_error | apply codes_warn].
Qed.

Lemma run_calls_codes_other cs L code :
  Forall (fun c => call_code c <> code) cs ->
  Log.codes (run_calls cs L) !! code = Log.codes L !! code.
Proof.
  revert L. induction cs as [| c cs IH]; intros L Hcs; simpl; [done |].
  inversion Hcs as [| ? ? Hc Hcs']; subst.
  rewrite IH by done. by rewrite apply_call_codes, lookup_insert_ne.
Qed.

(** The last call for a code decides the entry of [codes]. *)
Lemma run_calls_codes_last cs1 c cs2 L :
  Forall (fun c' => call_code c' <> call_code c) cs2 ->
  Log.codes (run_calls (cs1 ++ c :: cs2) L) !! call_code c = Some (message_of L c).
Proof.
  intros Hcs2. unfold run_calls. rewrite fold_left_app. simpl.
  fold (run_calls cs1 L). fold (run_calls cs2 (apply_call (run_calls cs1 L) c)).
  rewrite run_calls_codes_other by done.
  rewrite apply_call_codes, lookup_insert_eq. f_equal.
  apply render_same_config, run_calls_config.
Qed.

#[export] Instance str_le_total : Total Log.str_le.
Proof. intros a b. apply String.leb_total. Qed.


Lemma append_assoc (a b c : string) : (a +:+ b) +:+ c = a +:+ (b +:+ c).
Proof.
  induction a as [| x a IH]; [reflexivity |].
  change (String x ((a +:+ b) +:+ c) = String x (a +:+ (b +:+ c))). by rewrite IH.
Qed.

Lemma append_empty (a : string) : a +:+ "" = a.
Proof.
  induction a as [| x a IH]; [reflexivity |].
  change (String x (a +:+ "") = String x a). by rewrite IH.
Qed.

Lemma to_str_lines L : Log.to_str L = unlines (Log.sorted (Log.messages L)).
Proof.
  unfold Log.to_str. generalize (Log.sorted (Log.messages L)). intros l.
  assert (H : forall acc,
    fold_left (fun s message => s +:+ message +:+ str1 LF) l acc = acc +:+ unlines l).
  { induction l as [| m l IH]; intros acc; simpl.
    - by rewrite append_empty.
    - rewrite IH. change (unlines (m :: l)) with (m +:+ str1 LF +:+ unlines l).
      by rewrite !append_assoc. }
  apply (H "").
Qed.

(** C5, as amended.  After any sequence of calls on a new logger, the report
    holds one line for every call that reached the log (every error, and
    every warning when the logger keeps warnings), a code that fired twice
    giving two lines; the lines are sorted and each ends with a line feed.
    The counters count every call, warnings too whatever the configuration;
    it is the table [codes], not the report, that keeps one message per
    code, the last written. *)
Theorem report_lists_every_message (vc : Log.catalog) (w : bool) (lang : string)
    (cs : list call) :
  let L0 := Log.init vc w lang in
  let L := run_calls cs L0 in
  (exists lines,
     Log.to_str L = unlines lines /\
     Sorted Log.str_le lines /\
     lines ≡ₚ map (message_of L0) (List.filter (reported w) cs)) /\
  Log.num_errors L = length (List.filter is_error cs) /\
  Log.num_warnings L = length (List.filter (fun c => negb (is_error c)) cs) /\
  (forall cs1 c cs2,
     cs = cs1 ++ c :: cs2 ->
     Forall (fun c' => call_code c' <> call_code c) cs2 ->
     Log.codes L !! call_code c = Some (message_of L0 c)).
Proof.
  cbv zeta. split; [| split; [| split]].
  - exists (Log.sorted (Log.messages (run_calls cs (Log.init vc w lang)))).
    split; [apply to_str_lines | split].
    + apply Sorted_merge_sort. apply _.
    + unfold Log.sorted. rewrite merge_sort_Permutation, run_calls_messages. done.
  - by destruct (run_calls_counters cs (Log.init vc w lang)) as [-> _].
  - by destruct (run_calls_counters cs (Log.init vc w lang)) as [_ ->].
  - intros cs1 c cs2 -> Hcs2. by apply run_calls_codes_last.
Qed.

(* ------------------------------------------------------------------ *)
(** * The claims on sample inventories *)
(* ------------------------------------------------------------------ *)



(** In lax mode a valid sha256 inventory is adopted without any warning. *)
Lemma validate_sha256_lax_is_silent :
  let r := validate Samples.any_datetime (JDict Samples.two_versions_sha256)
             (Samples.fresh "???" true) in
  fst r = Ok tt /\
  digest_algorithm (snd r) = JStr "sha256" /\
  Log.num_warnings (log (snd r)) = 0%nat /\
  Log.codes (log (snd r)) !! "W206" = None /\
  Log.messages (log (snd r)) = [].
Proof. vm_compute. repeat split. Qed.

Lemma validate_sha256_strict :
  let v' := snd (validate Samples.any_datetime (JDict Samples.two_versions_sha256)
                   (Samples.fresh "???" false)) in
  digest_algorithm v' = JStr "sha256" /\
  (lax_digests (Samples.fresh "???" false) = false ->
     is_Some (Log.codes (log v') !! "W206") /\
     (Log.num_warnings (log (Samples.fresh "???" false)) < Log.num_warnings (log v'))%nat) /\
  (lax_digests (Samples.fresh "???" false) = true ->
     Log.codes (log v') !! "W206" = Log.codes (log (Samples.fresh "???" false)) !! "W206").
Proof.
  apply (validate_sha256 Samples.any_datetime Samples.two_versions_sha256
           (Samples.fresh "???" false)).
  reflexivity.
Defined.

Lemma validate_content_directory_unsafe :
  content_directory
    (snd (validate Samples.any_datetime
            (JDict (("contentDirectory", JStr "a/b") :: Samples.body "first" "second"))
            (Samples.fresh "???" false)))
  = "content".
Proof.
  apply (proj1 (validate_content_directory Samples.any_datetime
           (("contentDirectory", JStr "a/b") :: Samples.body "first" "second")
           (Samples.fresh "???" false) (JStr "a/b") eq_refl eq_refl)).
  reflexivity.
Defined.



(** One code fired twice: two lines in the report, one entry in [codes]. *)
Lemma report_repeats_a_code :
  let L := run_calls [Call Log.SevError "E304" [("digest", JStr "x")];
                      Call Log.SevError "E304" [("digest", JStr "y")]]
             (Log.init [] false "en") in
  Log.to_str L =
    unlines ["Unknown error: E304 - params ({'digest': 'x'})";
             "Unknown error: E304 - params ({'digest': 'y'})"] /\
  size (Log.codes L) = 1%nat.
Proof. vm_compute. split; reflexivity. Qed.

(* ------------------------------------------------------------------ *)
(** * Strict digests: the patterns [^[0-9a-z]{n}$] *)
(* ------------------------------------------------------------------ *)

Lemma at_end_spec s : Re.at_end s = true <-> s = "" \/ s = str1 LF.
Proof.
  destruct s as [| c [| c' s]]; simpl.
  - split; [by left | done].
  - rewrite Ascii.eqb_eq. split.
    + intros ->. by right.
    + intros [? | [= ->]]; done.
  - split; [done | intros [? | ?]; done].
Qed.

Lemma take_class_spec n s rest :
  take_class n s = Some rest <->
  exists body, s = body +:+ rest /\ String.length body = n /\
               forall c, has_char c body = true -> lower_alnum c = true.
Proof.
  revert s. induction n as [| n IH]; intros s; simpl.
  - split.
    + intros [= ->]. exists "". by repeat split.
    + intros (body & -> & Hlen & _). destruct body; [done | discriminate Hlen].
  - destruct s as [| c s].
    + split; [done |]. intros (body & Hs & Hlen & _).
      destruct body; [discriminate Hlen | discriminate Hs].
    + destruct (lower_alnum c) eqn:Hc.
      * rewrite IH. split.
        -- intros (body & -> & Hlen & Hall). exists (String c body).
           split; [done | split; [simpl; by rewrite Hlen |]].
           intros c'. simpl. destruct (Ascii.eqb_spec c' c) as [-> | _]; [done | apply Hall].
        -- intros (body & Hs & Hlen & Hall). destruct body as [| c' body]; [discriminate Hlen |].
           injection Hs as -> ->. exists body. split; [done | split; [by injection Hlen |]].
           intros c Hin. apply Hall. simpl. rewrite Hin. apply orb_true_r.
      * split; [done |]. intros (body & Hs & Hlen & Hall).
        destruct body as [| c' body]; [discriminate Hlen |]. injection Hs as -> ->.
        rewrite Hall in Hc; [done |]. simpl. by rewrite Ascii.eqb_refl.
Qed.

Lemma digest_ok_spec n s : digest_ok n s = true <-> digest_shape n s.
Proof.
  unfold digest_ok, digest_shape. split.
  - destruct (take_class n s) as [rest |] eqn:E; [| done]. intros Hend.
    apply take_class_spec in E as (body & -> & Hlen & Hall).
    apply at_end_spec in Hend. exists body. split; [| done].
    destruct Hend as [-> | ->]; [left; by rewrite append_empty | by right].
  - intros (body & Hs & Hlen & Hall).
    assert (E : exists rest, take_class n s = Some rest /\ (rest = "" \/ rest = str1 LF)).
    { destruct Hs as [-> | ->].
      - exists "". split; [| by left]. apply take_class_spec. exists body.
        by rewrite append_empty.
      - exists (str1 LF). split; [| by right]. apply take_class_spec. by exists body. }
    destruct E as (rest & -> & Hrest). by apply at_end_spec.
Qed.

Lemma accept_repeat_class n k pos s :
  Re.accept (Re.RRepeat n (Re.RClass [("0"%char, "9"%char); ("a"%char, "z"%char)])) k pos s
  = match take_class n s with
    | Some rest => k (pos + n)%nat rest
    | None => false
    end.
Proof.
  revert pos s. induction n as [| n IH]; intros pos s.
  - simpl. by rewrite Nat.add_0_r.
  - change (Re.accept (Re.RRepeat (Datatypes.S n) ?r) k pos s)
      with (Re.accept r (Re.accept (Re.RRepeat n r) k) pos s).
    simpl take_class. destruct s as [| c s]; [reflexivity |].
    change (Re.accept (Re.RClass ?rs) ?k' pos (String c s))
      with (Re.in_ranges rs c && k' (Datatypes.S pos) s).
    fold (lower_alnum c). destruct (lower_alnum c); [| reflexivity].
    rewrite IH. simpl. by rewrite Nat.add_succ_r.
Qed.

Lemma accept_digest_pattern n s :
  Re.accept
    (Re.RCat Re.RBol
       (Re.RCat (Re.RRepeat n (Re.RClass [("0"%char, "9"%char); ("a"%char, "z"%char)]))
          (Re.RCat Re.REol Re.REmpty)))
    Re.accept_all 0 s
  = digest_ok n s.
Proof.
  change (Re.accept (Re.RCat Re.RBol (Re.RCat ?r ?e)) Re.accept_all 0 s)
    with (Nat.eqb 0 0 && Re.accept r (Re.accept e Re.accept_all) 0 s).
  rewrite accept_repeat_class. unfold digest_ok. simpl.
  destruct (take_class n s); [| reflexivity]. simpl. apply andb_true_r.
Qed.

Lemma compile_digest_patterns :
  Re.compile "^[0-9a-z]{128}$" =
    Some (Re.RCat Re.RBol
            (Re.RCat (Re.RRepeat 128 (Re.RClass [("0"%char, "9"%char); ("a"%char, "z"%char)]))
               (Re.RCat Re.REol Re.REmpty))) /\
  Re.compile "^[0-9a-z]{64}$" =
    Some (Re.RCat Re.RBol
            (Re.RCat (Re.RRepeat 64 (Re.RClass [("0"%char, "9"%char); ("a"%char, "z"%char)]))
               (Re.RCat Re.REol Re.REmpty))).
Proof. split; vm_compute; reflexivity. Qed.

Lemma digest_regex_sha512 v :
  digest_algorithm v = JStr "sha512" -> digest_regex v = (Ok "^[0-9a-z]{128}$", v).
Proof. intros Hda. unfold digest_regex, bind, gets, ret. simpl. by rewrite Hda. Qed.

Lemma digest_regex_sha256 v :
  digest_algorithm v = JStr "sha256" -> digest_regex v = (Ok "^[0-9a-z]{64}$", v).
Proof. intros Hda. unfold digest_regex, bind, gets, ret. simpl. by rewrite Hda. Qed.

(** What the two strict patterns accept, through [validate_manifest] on
    any manifest: with sha512 (sha256) the validator changes in its logger
    only, by calls of which those with the code E304 are, in the order of
    the manifest, the errors for the keys that are not 128 (64) characters
    of [0-9a-z] followed by nothing or by one line feed, among the keys the
    loop has come to, which are all the keys when the method returns. *)
Theorem validate_manifest_strict_key d v n :
  digest_algorithm v = JStr "sha512" /\ n = 128%nat \/
  digest_algorithm v = JStr "sha256" /\ n = 64%nat ->
  exists visited rest cs bad,
    dict_keys d = visited ++ rest /\
    (forall files, fst (validate_manifest (JDict d) v) = Ok files -> rest = []) /\
    snd (validate_manifest (JDict d) v) = set_log (run_calls cs (log v)) v /\
    selects (fun key => ~ digest_shape n key) visited bad /\
    digest_errors cs = map (digest_error v) bad.
Proof.
  intros Hda. destruct compile_digest_patterns as [H512 H256]. unfold validate_manifest.
  assert (H : exists pattern,
            digest_regex v = (Ok pattern, v) /\
            forall digest v', re_match pattern (JStr digest) v' = (Ok (digest_ok n digest), v')).
  { destruct Hda as [[Hda ->] | [Hda ->]]; eexists; (split;
      [first [exact (digest_regex_sha512 v Hda) | exact (digest_regex_sha256 v Hda)] |]);
      intros digest v'; unfold re_match; [rewrite H512 | rewrite H256]; unfold ret;
      by rewrite accept_digest_pattern. }
  destruct H as (pattern & Hp & Hm).
  destruct (manifest_loop_calls (digest_ok n) pattern d (dict_keys d) [] v Hp Hm)
    as (visited & rest & cs & Hkeys & Hrest & Hs & He).
  exists visited, rest, cs, (List.filter (fun key => negb (digest_ok n key)) visited).
  split_and!; try done.
  apply selects_filter. intros key. rewrite negb_true_iff, <- digest_ok_spec.
  destruct (digest_ok n key); split; congruence.
Qed.

(* ------------------------------------------------------------------ *)
(** * Further properties: what a run keeps *)
(* ------------------------------------------------------------------ *)

Lemma respects_same_config L0 :
  respects (fun v => same_config L0 (log v)) everything.
Proof.
  intros v code args _ (H1 & H2 & H3). unfold same_config. simpl.
  destruct (config_error code args (log v)) as (E1 & E2 & E3).
  destruct (config_warn code args (log v)) as (W1 & W2 & W3).
  rewrite E1, E2, E3, W1, W2, W3. by repeat split.
Qed.

Lemma respects_only_log v0 : respects (fun v => v = set_log (log v) v0) everything.
Proof.
  intros v code args _ Hv. split; rewrite Hv at 2; reflexivity.
Qed.

Lemma raises_in_any {A} (o : outcome A) : raises_in any_exn o.
Proof. by destruct o. Qed.

Lemma keeps_validate_as_prior_version (I : validator -> Prop) prior :
  respects I everything -> keeps I any_exn (validate_as_prior_version prior).
Proof.
  intros HS. unfold validate_as_prior_version. cbv zeta.
  repeat keeps_step;
    try solve [ eapply keeps_error; [exact HS | done]
              | eapply keeps_warn; [exact HS | done]
              | apply raises_in_any
              | done ].
Qed.

(** A run of [validate], returning or raising, only adds to the logger: no
    code is removed, no counter decreases, its configuration stays.  The
    validator keeps its [lax_digests] and [where], and holds the document it
    was given. *)
Theorem validate_accumulates str_to_datetime inv v :
  let v' := snd (validate str_to_datetime inv v) in
  log_grows v v' /\ same_config (log v) (log v') /\
  lax_digests v' = lax_digests v /\ where_ v' = where_ v /\ inventory v' = inv.
Proof.
  cbv zeta. unfold validate.
  rewrite (run_bind (modify (set_inventory inv)) _ v tt eq_refl).
  change (snd (modify (set_inventory inv) v)) with (set_inventory inv v).
  set (I := fun v' : validator =>
         log_grows v v' /\ same_config (log v) (log v') /\
         lax_digests v' = lax_digests v /\ where_ v' = where_ v /\ inventory v' = inv).
  assert (HS : respects I everything).
  { apply respects_and; [apply respects_log_grows |].
    apply respects_and; [apply respects_same_config |].
    apply respects_and; [apply respects_field; done |].
    apply respects_and; apply respects_field; done. }
  assert (Hall : forall code, inner code -> everything code) by done.
  assert (H0 : I (set_inventory inv v)).
  { split; [exact (log_grows_refl v) | by repeat split]. }
  match goal with |- context [snd (?rest (set_inventory inv v))] =>
    apply (keeps_run I any_exn rest (set_inventory inv v)); [| exact H0]
  end.
  repeat split_bind.
  - eapply keeps_check_id; eauto using any_benign; done.
  - eapply keeps_check_type; eauto using any_benign; done.
  - eapply keeps_check_digest_algorithm; eauto using any_benign;
      first [done | intros ? ? H; exact H].
  - eapply keeps_check_content_directory; eauto using any_benign;
      first [done | intros ? ? H; exact H].
  - eapply keeps_check_manifest; eauto using any_benign, keeps_digest_regex_any;
      first [done | intros ? ? H; exact H].
  - eapply keeps_check_versions;
      eauto using any_benign, keeps_digest_regex_any, any_datetime;
      first [done | intros ? ? H; exact H].
  - eapply keeps_check_head; eauto using any_benign;
      first [done | intros ? ? H; exact H].
  - eapply keeps_check_consistency; eauto using any_benign.
Qed.

(** [validate_as_prior_version], returning or raising, writes nothing but
    the logger: the snapshot of the validator is the one it started with,
    and the logger only grows. *)
Theorem validate_as_prior_version_only_logs prior v :
  let v' := snd (validate_as_prior_version prior v) in
  v' = set_log (log v') v /\ log_grows v v' /\ same_config (log v) (log v').
Proof.
  cbv zeta.
  apply (keeps_run
           (fun v' => v' = set_log (log v') v /\ log_grows v v' /\ same_config (log v) (log v'))
           any_exn (validate_as_prior_version prior) v).
  - apply keeps_validate_as_prior_version.
    apply respects_and; [apply respects_only_log |].
    apply respects_and; [apply respects_log_grows | apply respects_same_config].
  - split; [by destruct v | split; [apply log_grows_refl | done]].
Qed.

(* ------------------------------------------------------------------ *)
(** * Further properties: the manifest against the states *)
(* ------------------------------------------------------------------ *)

Lemma mem_In x l : mem x l = true <-> In x l.
Proof.
  unfold mem. rewrite existsb_exists. split.
  - intros (y & Hy & Heq). apply String.eqb_eq in Heq. by subst.
  - intros Hx. exists x. split; [done | apply String.eqb_refl].
Qed.

Lemma mem_dict_keys {V} x (d : list (string * V)) : mem x (dict_keys d) = dict_has x d.
Proof.
  unfold dict_has, dict_keys. induction d as [| [k w] d IH]; simpl; [reflexivity |].
  destruct (String.eqb x k); simpl; [reflexivity | exact IH].
Qed.

Lemma filter_nil_forallb {A} (f : A -> bool) l :
  List.filter (fun x => negb (f x)) l = [] <-> forallb f l = true.
Proof.
  induction l as [| x l IH]; simpl; [done |].
  destruct (f x); simpl; [exact IH | split; discriminate].
Qed.

Lemma same_set_lists d digests_used :
  same_set (dict_keys d) digests_used = true <->
  not_in_manifest d digests_used = [] /\ not_in_state d digests_used = [].
Proof.
  unfold same_set, not_in_manifest, not_in_state.
  rewrite andb_true_iff, !filter_nil_forallb.
  assert (Hk : forallb (fun x => mem x (dict_keys d)) digests_used =
               forallb (fun x => dict_has x d) digests_used).
  { induction digests_used as [| x l IH]; simpl; [reflexivity |].
    by rewrite mem_dict_keys, IH. }
  rewrite Hk. tauto.
Qed.

(** [check_digests_present_and_used] on a manifest that is a dictionary
    always returns, and logs at most two errors: E913 when some digest used
    by a state is not a key of the manifest, then E302 when some key of the
    manifest is used by no state, each with the whole list in its
    description.  It logs nothing exactly when the two sets of digests are
    the same. *)
Theorem check_digests_present_and_used_reports d digests_used v :
  check_digests_present_and_used (JDict d) digests_used v =
    (Ok tt,
     report "E302" "in manifest but not in state: " (not_in_state d digests_used)
       (report "E913" "in state but not in manifest: " (not_in_manifest d digests_used) v)) /\
  (forall digest, In digest (not_in_manifest d digests_used) <->
     In digest digests_used /\ dict_get digest d = None) /\
  (forall digest, In digest (not_in_state d digests_used) <->
     In digest (dict_keys d) /\ ~ In digest digests_used) /\
  (snd (check_digests_present_and_used (JDict d) digests_used v) = v <->
     forall digest, In digest (dict_keys d) <-> In digest digests_used).
Proof.
  assert (Hrun : check_digests_present_and_used (JDict d) digests_used v =
    (Ok tt,
     report "E302" "in manifest but not in state: " (not_in_state d digests_used)
       (report "E913" "in state but not in manifest: " (not_in_manifest d digests_used) v))).
  { unfold check_digests_present_and_used. cbv zeta.
    fold (not_in_manifest d digests_used). fold (not_in_state d digests_used).
    destruct (same_set (dict_keys d) digests_used) eqn:E; simpl.
    - apply same_set_lists in E as [-> ->]. reflexivity.
    - destruct (not_in_manifest d digests_used), (not_in_state d digests_used);
        reflexivity. }
  assert (Hm : forall digest, In digest (not_in_manifest d digests_used) <->
     In digest digests_used /\ dict_get digest d = None).
  { intros digest. unfold not_in_manifest. rewrite filter_In. unfold dict_has.
    destruct (dict_get digest d); simpl; intuition congruence. }
  assert (Hs : forall digest, In digest (not_in_state d digests_used) <->
     In digest (dict_keys d) /\ ~ In digest digests_used).
  { intros digest. unfold not_in_state. rewrite filter_In, negb_true_iff.
    rewrite <- not_true_iff_false, mem_In. tauto. }
  split; [exact Hrun | split; [exact Hm | split; [exact Hs |]]].
  rewrite Hrun. simpl snd. split.
  - intros Hv. assert (Hnil : not_in_manifest d digests_used = [] /\
                              not_in_state d digests_used = []).
    { destruct (not_in_manifest d digests_used) as [| x l] eqn:E1;
        destruct (not_in_state d digests_used) as [| y l'] eqn:E2; [done | | |];
        exfalso; apply (f_equal (fun v => Log.num_errors (log v))) in Hv;
        simpl in Hv; rewrite ?num_errors_error in Hv; simpl in Hv;
        rewrite ?num_errors_error in Hv; lia. }
    destruct Hnil as [E1 E2]. intros digest. split.
    + intros Hin. destruct (in_dec String.string_dec digest digests_used) as [? | Hno];
        [done |]. assert (In digest (not_in_state d digests_used)) by (by apply Hs).
      rewrite E2 in *. done.
    + intros Hin. apply mem_In. rewrite mem_dict_keys. unfold dict_has.
      destruct (dict_get digest d) eqn:Hg; [done |].
      assert (In digest (not_in_manifest d digests_used)) by (by apply Hm).
      rewrite E1 in *. done.
  - intros Hsame.
    assert (E1 : not_in_manifest d digests_used = []).
    { destruct (not_in_manifest d digests_used) as [| x l]; [done |].
      destruct (proj1 (Hm x) (or_introl eq_refl)) as [Hx Hg].
      apply Hsame, mem_In in Hx.
      rewrite mem_dict_keys in Hx. unfold dict_has in Hx. by rewrite Hg in Hx. }
    assert (E2 : not_in_state d digests_used = []).
    { destruct (not_in_state d digests_used) as [| x l]; [done |].
      destruct (proj1 (Hs x) (or_introl eq_refl)) as [Hx Hno].
      by apply Hsame in Hx. }
    by rewrite E1, E2.
Qed.

(* ------------------------------------------------------------------ *)
(** * Further properties: the digests of a state block *)
(* ------------------------------------------------------------------ *)

Lemma validate_manifest_strict_key_sha512 :
  let d := [(Samples.digest_a, JList [JStr "v1/content/a"]); ("xyz", JList []);
            (Samples.digest_b, JInt 1)] in
  let v := Samples.fresh "???" false in
  exists visited rest cs bad,
    dict_keys d = visited ++ rest /\
    (forall files, fst (validate_manifest (JDict d) v) = Ok files -> rest = []) /\
    snd (validate_manifest (JDict d) v) = set_log (run_calls cs (log v)) v /\
    selects (fun key => ~ digest_shape 128 key) visited bad /\
    digest_errors cs = map (digest_error v) bad.
Proof.
  intros d v. apply (validate_manifest_strict_key d v 128). left. split; reflexivity.
Defined.

(** With an algorithm that has a pattern, [digest_regex] gives a pattern
    that compiles and matches exactly the strings of [accepts]. *)
Lemma digest_regex_accepts v :
  good v ->
  exists pattern,
    digest_regex v = (Ok pattern, v) /\
    forall digest v', re_match pattern (JStr digest) v' = (Ok (accepts v digest), v').
Proof.
  intros Hv. destruct compile_digest_patterns as [H512 H256]. unfold accepts.
  destruct (py_eq (digest_algorithm v) (JStr "sha512")) eqn:E1.
  { apply py_eq_str in E1. exists "^[0-9a-z]{128}$". split; [by apply digest_regex_sha512 |].
    intros digest v'. unfold re_match. rewrite H512. unfold ret.
    by rewrite accept_digest_pattern. }
  destruct (py_eq (digest_algorithm v) (JStr "sha256")) eqn:E2.
  { apply py_eq_str in E2. exists "^[0-9a-z]{64}$". split; [by apply digest_regex_sha256 |].
    intros digest v'. unfold re_match. rewrite H256. unfold ret.
    by rewrite accept_digest_pattern. }
  assert (N1 : digest_algorithm v <> JStr "sha512")
    by (intros H; apply py_eq_str in H; congruence).
  assert (N2 : digest_algorithm v <> JStr "sha256")
    by (intros H; apply py_eq_str in H; congruence).
  destruct Hv as [Hv | [Hv | Hv]]; [done | done |].
  exists ".*$". split; [by apply digest_regex_lax |].
  intros digest v'. unfold re_match. rewrite compile_lax_pattern. unfold ret.
  by rewrite accept_lax_pattern.
Qed.

Lemma state_loop (d : list (string * json)) l : forall acc v,
  good v ->
  (forall k, In k l -> is_Some (dict_get k d)) ->
  match
    fold_each l acc (fun digest digests =>
      pattern <- digest_regex ;;
      m <- re_match pattern (JStr digest) ;;
      if negb m then error "E305" [("digest", JStr digest)] ;; ret digests
      else
        files <- lift (py_getitem (JDict d) digest) ;;
        _ <- lift (py_iter files) ;;
        ret (digests ++ [digest])) v
  with
  | (Ok digests, v') =>
      digests = acc ++ List.filter (accepts v) l /\
      v' = set_log (log v') v /\
      Log.num_errors (log v') =
        (Log.num_errors (log v)
         + length (List.filter (fun digest => negb (accepts v digest)) l))%nat /\
      Log.num_warnings (log v') = Log.num_warnings (log v) /\
      (forall c, c <> "E305" -> Log.codes (log v') !! c = Log.codes (log v) !! c)
  | (Raise e, _) =>
      e = TypeError /\
      exists digest files,
        In digest l /\ accepts v digest = true /\ dict_get digest d = Some files /\
        py_iter files = Raise TypeError
  end.
Proof.
  induction l as [| digest l IH]; intros acc v Hv Hkeys.
  - simpl. unfold ret. rewrite app_nil_r. split_and!; try done. by destruct v.
  - destruct (digest_regex_accepts v Hv) as (pattern & Hp & Hm).
    cbn [fold_each]. unfold bind at 1. unfold bind at 1. rewrite Hp.
    unfold bind at 1. rewrite Hm. cbn [List.filter].
    destruct (accepts v digest) eqn:Ha; cbn [negb].
    + destruct (Hkeys digest (or_introl eq_refl)) as [files Hfiles].
      unfold bind at 1, lift at 1, py_getitem, py_index. cbn [hashable]. rewrite Hfiles.
      unfold bind at 1, lift at 1.
      destruct (py_iter files) as [fs | e] eqn:Hit.
      * unfold ret at 1.
        specialize (IH (acc ++ [digest]) v Hv (fun k Hk => Hkeys k (or_intror Hk))).
        destruct (fold_each l (acc ++ [digest]) _ v) as [[digests | e] v'].
        -- destruct IH as (-> & IH). split; [by rewrite <- app_assoc | exact IH].
        -- destruct IH as (-> & dg & fl & Hin & IH). split; [done |].
           exists dg, fl. split; [by right | exact IH].
      * split.
        -- destruct files; simpl in Hit; congruence.
        -- exists digest, files. split_and!; try done; [by left |].
           destruct files; simpl in *; congruence.
    + unfold bind at 1, error at 1, modify at 1. unfold ret at 1.
      set (v1 := set_log (Log.error "E305" _ (log v)) v).
      assert (Hv1 : good v1) by exact Hv.
      specialize (IH acc v1 Hv1 (fun k Hk => Hkeys k (or_intror Hk))).
      change (accepts v1) with (accepts v) in IH.
      change (fun digest0 : string => negb (accepts v1 digest0))
        with (fun digest0 : string => negb (accepts v digest0)) in IH.
      destruct (fold_each l acc _ v1) as [[digests | e] v'].
      * destruct IH as (-> & Hst & Herr & Hwarn & Hcodes). split_and!.
        -- done.
        -- rewrite Hst at 1. reflexivity.
        -- rewrite Herr. unfold v1. cbn [log set_log length].
           rewrite num_errors_error. lia.
        -- rewrite Hwarn. unfold v1. cbn [log set_log]. by rewrite num_warnings_error.
        -- intros c Hc. rewrite (Hcodes c Hc). unfold v1. cbn [log set_log].
           rewrite codes_error. by apply lookup_insert_ne.
      * destruct IH as (-> & dg & fl & Hin & IH). split; [done |].
        exists dg, fl. split; [by right | exact IH].
Qed.

(** [validate_state_block] on a dictionary, for a validator whose digest
    algorithm has a pattern: it returns the accepted keys in the order of
    the block, having logged one E305 for each key it rejects and nothing
    else, or it raises [TypeError] at an accepted key whose value cannot be
    iterated.  It writes no field of the validator but the logger. *)
Theorem validate_state_block_digests d v :
  good v ->
  match validate_state_block (JDict d) v with
  | (Ok digests, v') =>
      digests = List.filter (accepts v) (dict_keys d) /\
      v' = set_log (log v') v /\
      Log.num_errors (log v') = (Log.num_errors (log v) + length (rejected v d))%nat /\
      Log.num_warnings (log v') = Log.num_warnings (log v) /\
      (forall c, c <> "E305" -> Log.codes (log v') !! c = Log.codes (log v) !! c)
  | (Raise e, _) =>
      e = TypeError /\
      exists digest files,
        In digest (dict_keys d) /\ accepts v digest = true /\
        dict_get digest d = Some files /\ py_iter files = Raise TypeError
  end.
Proof.
  intros Hv. unfold validate_state_block.
  destruct (digest_regex_accepts v Hv) as (pattern & Hp & _).
  unfold bind at 1. rewrite Hp.
  apply (state_loop d (dict_keys d) [] v Hv).
  intros k Hk. unfold dict_keys in Hk. apply in_map_iff in Hk as ([k' x] & <- & Hin).
  clear - Hin. induction d as [| [k0 x0] d IH]; [done |]. simpl.
  destruct (String.eqb k' k0) eqn:E; [by eexists |].
  destruct Hin as [[= -> ->] | Hin]; [by rewrite String.eqb_refl in E | by apply IH].
Qed.

Lemma validate_state_block_digests_sha512 :
  let d := [(Samples.digest_a, JList [JStr "a.txt"]); ("xyz", JList []);
            (Samples.digest_b, JList [])] in
  let v := Samples.fresh "???" false in
  match validate_state_block (JDict d) v with
  | (Ok digests, v') =>
      digests = List.filter (accepts v) (dict_keys d) /\
      v' = set_log (log v') v /\
      Log.num_errors (log v') = (Log.num_errors (log v) + length (rejected v d))%nat /\
      Log.num_warnings (log v') = Log.num_warnings (log v) /\
      (forall c, c <> "E305" -> Log.codes (log v') !! c = Log.codes (log v) !! c)
  | (Raise e, _) =>
      e = TypeError /\
      exists digest files,
        In digest (dict_keys d) /\ accepts v digest = true /\
        dict_get digest d = Some files /\ py_iter files = Raise TypeError
  end.
Proof.
  intros d v. apply (validate_state_block_digests d v). left. reflexivity.
Defined.

(* ------------------------------------------------------------------ *)
(** * Further properties: the version sequence is the longest run *)
(* ------------------------------------------------------------------ *)

Lemma walk_sequence_spec fmt d max count : forall n acc v,
  exists j,
    (j <= count)%nat /\
    Forall (fun name => dict_has name d = true) (map (format_int fmt) (count_from n j)) /\
    ((j < count)%nat -> dict_has (format_int fmt (n + N.of_nat j)) d = false) /\
    walk_sequence fmt d max count n acc v =
      (Ok (acc ++ map (format_int fmt) (count_from n j)),
       if (if (j =? count)%nat then (max <? N.of_nat (length d))%N
           else negb (N.of_nat (length d) =? n + N.of_nat j - 1)%N)
       then with_error "E312" v else v).
Proof.
  induction count as [| count IH]; intros n acc v.
  - exists 0%nat. split_and!; [lia | constructor | lia |].
    cbn [walk_sequence count_from map Nat.eqb]. rewrite app_nil_r.
    destruct (max <? N.of_nat (length d))%N; reflexivity.
  - cbn [walk_sequence]. destruct (dict_has (format_int fmt n) d) eqn:Hn.
    + destruct (IH (n + 1)%N (acc ++ [format_int fmt n]) v) as (j & Hj & Hall & Hnext & ->).
      exists (S j). split_and!.
      * lia.
      * cbn [count_from map]. by constructor.
      * intros Hlt. replace (n + N.of_nat (S j))%N with (n + 1 + N.of_nat j)%N by lia.
        apply Hnext. lia.
      * cbn [count_from map Nat.eqb]. rewrite <- app_assoc. cbn [app].
        replace (n + 1 + N.of_nat j - 1)%N with (n + N.of_nat (S j) - 1)%N by lia.
        reflexivity.
    + exists 0%nat. split_and!; [lia | constructor | |].
      * intros _. by rewrite N.add_0_r.
      * cbn [count_from map Nat.eqb]. rewrite app_nil_r, N.add_0_r.
        destruct (negb (N.of_nat (length d) =? n - 1)%N); reflexivity.
Qed.

Lemma find_padding_spec d len : forall a,
  match find_padding (seq a len) d with
  | Some (w, fmt, vkey) =>
      (a <= w < a + len)%nat /\ fmt = version_format (Some w) /\
      vkey = version_name (Some w) 1 /\ dict_has vkey d = true /\
      forall w', (a <= w' < w)%nat -> dict_has (version_name (Some w') 1) d = false
  | None =>
      forall w', (a <= w' < a + len)%nat -> dict_has (version_name (Some w') 1) d = false
  end.
Proof.
  induction len as [| len IH]; intros a.
  - simpl. intros w' Hw'. lia.
  - cbn [seq find_padding].
    fold (version_format (Some a)). fold (version_name (Some a) 1).
    destruct (dict_has (version_name (Some a) 1) d) eqn:Ha.
    + split; [lia | split; [reflexivity | split; [reflexivity | split; [exact Ha |]]]].
      intros w' Hw'. lia.
    + specialize (IH (S a)). destruct (find_padding (seq (S a) len) d) as [[[w fmt] vkey] |].
      * destruct IH as (Hw & Hfmt & Hkey & Hhas & Hfirst).
        split; [lia | split; [exact Hfmt | split; [exact Hkey | split; [exact Hhas |]]]].
        intros w' Hw'. destruct (Nat.eq_dec w' a) as [-> | Hne]; [done |].
        apply Hfirst. lia.
      * intros w' Hw'. destruct (Nat.eq_dec w' a) as [-> | Hne]; [done |].
        apply IH. lia.
Qed.

Lemma walk_longest_run d zero_padded v :
  (2 <= version_ceiling zero_padded)%N ->
  dict_has (version_name zero_padded 1) d = true ->
  exists k,
    longest_run d zero_padded k /\
    walk_sequence (version_format zero_padded) d (version_ceiling zero_padded)
      (N.to_nat (version_ceiling zero_padded - 1)) 2 [version_name zero_padded 1] v =
    (Ok (version_names zero_padded k),
     if out_of_sequence d zero_padded k then with_error "E312" v else v).
Proof.
  intros Hmax H1.
  set (max := version_ceiling zero_padded) in *.
  assert (Hcount : N.of_nat (N.to_nat (max - 1)) = (max - 1)%N) by apply N2Nat.id.
  revert Hcount. generalize (N.to_nat (max - 1)). intros count Hcount.
  destruct (walk_sequence_spec (version_format zero_padded) d max count 2
              [version_name zero_padded 1] v) as (j & Hj & Hall & Hnext & ->).
  exists (S j). split.
  - unfold longest_run. fold max. split_and!.
    + lia.
    + lia.
    + unfold version_names. cbn [count_from map]. constructor; [exact H1 | exact Hall].
    + intros Hlt. replace (N.of_nat (S j) + 1)%N with (2 + N.of_nat j)%N by lia.
      apply Hnext. lia.
  - unfold version_names, out_of_sequence. fold max. cbn [count_from map app].
    change (1 + 1)%N with 2%N. fold (version_name zero_padded).
    replace (2 + N.of_nat j - 1)%N with (N.of_nat (S j)) by lia.
    destruct (Nat.eqb_spec j count) as [-> | Hne].
    + replace (N.of_nat (S count) =? max)%N with true
        by (symmetry; apply N.eqb_eq; lia).
      reflexivity.
    + replace (N.of_nat (S j) =? max)%N with false
        by (symmetry; apply N.eqb_neq; lia).
      reflexivity.
Qed.

Lemma padded_ceiling w : (2 <= w)%nat -> (2 <= version_ceiling (Some w))%N.
Proof.
  intros Hw. unfold version_ceiling.
  assert (10 ^ 1 <= 10 ^ (N.of_nat w - 1))%N by (apply N.pow_le_mono_r; lia).
  change (10 ^ 1)%N with 10%N in *. lia.
Qed.

(** [validate_version_sequence] on a dictionary always returns.  With no
    version 1 under any of the ten formats it gives no name and the error
    E311.  Otherwise it settles on the first format that has a version 1,
    warns W203 when that format is padded, and returns the longest run of
    names 1, 2, ..., k of that format that are keys; the error E312 is
    logged exactly when the count of keys does not fit the run. *)
Theorem validate_version_sequence_longest_run d v :
  (dict_has (version_name None 1) d = false /\
   (forall w, (2 <= w <= 10)%nat -> dict_has (version_name (Some w) 1) d = false) /\
   validate_version_sequence (JDict d) v = (Ok [], with_error "E311" v))
  \/
  exists zero_padded k,
    first_format d zero_padded /\ longest_run d zero_padded k /\
    validate_version_sequence (JDict d) v =
      (Ok (version_names zero_padded k),
       let v1 := match zero_padded with
                 | Some _ => with_warning "W203" v
                 | None => v
                 end in
       if out_of_sequence d zero_padded k then with_error "E312" v1 else v1).
Proof.
  unfold validate_version_sequence. cbv zeta.
  change (dict_has "v1" d) with (dict_has (version_name None 1) d).
  change ["v1"] with [version_name None 1].
  destruct (dict_has (version_name None 1) d) eqn:H1.
  - right. exists None.
    destruct (walk_longest_run d None v) as (k & Hrun & Hwalk); [done | exact H1 |].
    exists k. split; [by split | split; [exact Hrun |]].
    cbn [when]. rewrite (run_bind (ret tt) _ v tt eq_refl). exact Hwalk.
  - pose proof (find_padding_spec d 9 2) as Hfind.
    destruct (find_padding (seq 2 9) d) as [[[w fmt] vkey] |].
    + destruct Hfind as (Hw & -> & -> & Hhas & Hfirst). right. exists (Some w).
      destruct (walk_longest_run d (Some w) (with_warning "W203" v)) as (k & Hrun & Hwalk);
        [apply padded_ceiling; lia | exact Hhas |].
      exists k. split; [| split; [exact Hrun |]].
      * split; [exact Hhas |]. split_and!; [lia | lia | exact H1 | exact Hfirst].
      * cbn [when].
        rewrite (run_bind (warn "W203" []) _ v tt eq_refl). exact Hwalk.
    + left. split_and!; [done | intros w Hw; apply Hfind; lia | reflexivity].
Qed.

(* ------------------------------------------------------------------ *)
(** * Further properties: a validator is a prior version of itself *)
(* ------------------------------------------------------------------ *)

Section JsonInduction.
Variable P : json -> Prop.
Hypothesis Hnull : P JNull.
Hypothesis Hbool : forall b, P (JBool b).
Hypothesis Hint : forall z, P (JInt z).
Hypothesis Hfloat : forall f, P (JFloat f).
Hypothesis Hstr : forall s, P (JStr s).
Hypothesis Hlist : forall l, Forall P l -> P (JList l).
Hypothesis Hdict : forall d, Forall (fun kv => P (snd kv)) d -> P (JDict d).

Fixpoint json_induction (j : json) : P j :=
  match j with
  | JNull => Hnull
  | JBool b => Hbool b
  | JInt z => Hint z
  | JFloat f => Hfloat f
  | JStr s => Hstr s
  | JList l =>
      Hlist l ((fix go (l : list json) : Forall P l :=
                  match l with
                  | [] => List.Forall_nil P
                  | x :: l' => @List.Forall_cons _ P x l' (json_induction x) (go l')
                  end) l)
  | JDict d =>
      Hdict d ((fix go (d : list (string * json)) : Forall (fun kv => P (snd kv)) d :=
                  match d with
                  | [] => List.Forall_nil _
                  | (k, x) :: d' =>
                      @List.Forall_cons _ (fun kv => P (snd kv)) (k, x) d'
                        (json_induction x) (go d')
                  end) d)
  end.

End JsonInduction.

Lemma dict_get_distinct {V} (d : list (string * V)) k x :
  distinct (dict_keys d) = true -> In (k, x) d -> dict_get k d = Some x.
Proof.
  induction d as [| [k0 x0] d IH]; [done |]. cbn [dict_keys map fst distinct dict_get].
  intros Hd Hin. apply andb_true_iff in Hd as [Hk0 Hd].
  destruct Hin as [[= -> ->] | Hin]; [by rewrite String.eqb_refl |].
  destruct (String.eqb_spec k k0) as [-> | Hne]; [| by apply IH].
  exfalso. apply negb_true_iff in Hk0. apply not_true_iff_false in Hk0. apply Hk0.
  apply mem_In. apply in_map_iff. by exists (k0, x).
Qed.

Lemma dyadic_eqb_refl m e : dyadic_eqb m e m e = true.
Proof. unfold dyadic_eqb. apply Z.eqb_refl. Qed.

Lemma float_same_refl f : is_nan f && is_nan f || float_eqb f f = true.
Proof.
  destruct f as [| negative | m e repr]; simpl;
    [reflexivity | by destruct negative | apply dyadic_eqb_refl].
Qed.

(** A key is found under itself. *)
Lemma py_same_hashable j : hashable j = true -> py_same j j = true.
Proof.
  destruct j; try discriminate; intros _; simpl.
  - reflexivity.
  - by destruct b.
  - apply Z.eqb_refl.
  - apply float_same_refl.
  - apply String.eqb_refl.
Qed.

Lemma py_same_refl : forall j, well_formed j = true -> py_same j j = true.
Proof.
  apply (json_induction (fun j => well_formed j = true -> py_same j j = true)).
  - done.
  - intros b _. by destruct b.
  - intros z _. apply Z.eqb_refl.
  - intros f _. apply float_same_refl.
  - intros s _. apply String.eqb_refl.
  - intros l IH Hwf. cbn [well_formed] in Hwf.
    change (py_same (JList l) (JList l)) with
      ((fix go (xs ys : list json) {struct xs} : bool :=
          match xs, ys with
          | [], [] => true
          | x :: xs', y :: ys' => py_same x y && go xs' ys'
          | _, _ => false
          end) l l).
    induction IH as [| x l Hx _ IHl]; [reflexivity |].
    cbn [forallb] in Hwf. apply andb_true_iff in Hwf as [Hwx Hwl].
    rewrite (Hx Hwx). exact (IHl Hwl).
  - intros d IH Hwf. cbn [well_formed] in Hwf. apply andb_true_iff in Hwf as [Hd Hwf].
    change (py_same (JDict d) (JDict d)) with
      (Nat.eqb (length d) (length d) &&
       (fix go (xs : list (string * json)) : bool :=
          match xs with
          | [] => true
          | (k, v) :: xs' =>
              match dict_get k d with
              | Some w => py_same v w
              | None => false
              end && go xs'
          end) d).
    rewrite Nat.eqb_refl. cbn [andb].
    assert (Hall : forall kv, In kv d -> dict_get (fst kv) d = Some (snd kv) /\
                                         py_same (snd kv) (snd kv) = true).
    { intros [k x] Hin. split; [by apply dict_get_distinct |].
      rewrite List.Forall_forall in IH. apply (IH (k, x) Hin).
      rewrite forallb_forall in Hwf. apply (Hwf (k, x) Hin). }
    clear IH Hwf Hd. revert Hall. generalize d at 1 4. intros xs.
    induction xs as [| [k x] xs IHxs]; intros Hall; [reflexivity |].
    destruct (Hall (k, x) (or_introl eq_refl)) as [Hget Hx]. cbn [fst snd] in Hget, Hx.
    rewrite Hget, Hx. cbn [andb]. apply IHxs. intros kv Hin. apply Hall. by right.
Qed.

(** Python's [==] holds between a well-formed document and itself. *)
Lemma py_eq_refl j : well_formed j = true -> py_eq j j = true.
Proof.
  intros Hwf. pose proof (py_same_refl j Hwf) as Hsame.
  destruct j as [| | | f | | |]; try exact Hsame.
  destruct f; [discriminate Hwf | exact Hsame | exact Hsame].
Qed.

Lemma at_index_In {A} (l : list A) z x : at_index l z = Ok x -> In x l.
Proof.
  unfold at_index. destruct (_ <? 0); [done |].
  destruct (nth_error l _) eqn:E; [| done]. intros [= <-]. by eapply nth_error_In.
Qed.

Lemma well_formed_index c k x :
  well_formed c = true -> py_index c k = Ok x -> well_formed x = true.
Proof.
  intros Hwf. destruct c; simpl; try done.
  - destruct (as_index k); [| done]. intros Hx. apply at_index_In in Hx.
    apply in_map_iff in Hx as (y & <- & _). reflexivity.
  - destruct (as_index k); [| done]. intros Hx. apply at_index_In in Hx.
    cbn [well_formed] in Hwf. rewrite forallb_forall in Hwf. by apply Hwf.
  - destruct (hashable k); [| done]. destruct k; try done.
    destruct (dict_get s d) eqn:E; [| done]. intros [= <-].
    cbn [well_formed] in Hwf. apply andb_true_iff in Hwf as [_ Hwf].
    rewrite forallb_forall in Hwf.
    assert (Hin : exists k', In (k', j) d).
    { clear Hwf. induction d as [| [k0 x0] d IH]; [done |]. simpl in E.
      destruct (String.eqb s k0).
      - injection E as ->. exists k0. by left.
      - destruct (IH E) as [k' Hk']. exists k'. by right. }
    destruct Hin as [k' Hin]. apply (Hwf (k', j) Hin).
Qed.

Lemma well_formed_get c key x :
  well_formed c = true -> py_get c key = Ok x -> well_formed x = true.
Proof.
  intros Hwf. destruct c; simpl; try done. intros [= <-].
  destruct (dict_get key d) eqn:E; [| reflexivity].
  apply (well_formed_index (JDict d) (JStr key) j Hwf). simpl. by rewrite E.
Qed.

Lemma dict_set_keys {V} k (x : V) m e :
  In e (dict_set py_same k x m) -> fst e = k \/ exists e', In e' m /\ fst e = fst e'.
Proof.
  induction m as [| [k0 x0] m IH]; simpl.
  - intros [<- | []]. by left.
  - destruct (py_same k k0).
    + intros [<- | Hin]; right; [exists (k0, x0) | exists e]; split; auto.
    + intros [<- | Hin]; [right; exists (k0, x0); split; auto |].
      destruct (IH Hin) as [? | (e' & ? & ?)]; [by left | right; exists e'; auto].
Qed.

Lemma dict_set_tidy file paths m :
  py_same file file = true -> py_eq paths paths = true ->
  tidy m -> tidy (dict_set py_same file paths m).
Proof.
  intros Hfile Hpaths. induction m as [| [k0 x0] m IH]; intros [Hd Hv].
  - split; [by split | by constructor].
  - destruct Hd as (Hk0 & Hlater & Hd). apply List.Forall_cons_iff in Hv as [Hx0 Hv].
    cbn [dict_set]. destruct (py_same file k0) eqn:E.
    + split; [by split | by constructor].
    + destruct (IH (conj Hd Hv)) as [Hd' Hv']. split; [| by constructor].
      split; [exact Hk0 | split; [| exact Hd']].
      apply List.Forall_forall. intros e He.
      destruct (dict_set_keys _ _ _ _ He) as [-> | (e' & He' & ->)]; [exact E |].
      rewrite List.Forall_forall in Hlater. by apply Hlater.
Qed.

Lemma lookup_key_own {V} (m : list (json * V)) e :
  distinct_keys m -> In e m -> lookup_key (fst e) m = Some (snd e).
Proof.
  induction m as [| [k0 x0] m IH]; [done |]. intros (Hk0 & Hlater & Hd) [<- | Hin].
  - cbn [lookup_key fst snd]. by rewrite Hk0.
  - cbn [lookup_key]. rewrite List.Forall_forall in Hlater. rewrite (Hlater e Hin).
    by apply IH.
Qed.

Lemma keys_subset_refl {V} (m : list (json * V)) :
  (forall e, In e m -> py_same (fst e) (fst e) = true) -> keys_subset m m = true.
Proof.
  intros Hm. unfold keys_subset. apply forallb_forall. intros e He.
  unfold has_key. apply existsb_exists. exists e. split; [exact He | by apply Hm].
Qed.

Lemma distinct_keys_refl {V} (m : list (json * V)) e :
  distinct_keys m -> In e m -> py_same (fst e) (fst e) = true.
Proof.
  induction m as [| [k0 x0] m IH]; [done |]. intros (Hk0 & _ & Hd) [<- | Hin]; [done |].
  by apply IH.
Qed.

Lemma subset_refl l : subset l l = true.
Proof. unfold subset. apply forallb_forall. intros x Hx. by apply mem_In. Qed.

(** The map of [get_file_map] on a well-formed document. *)
Lemma get_file_map_tidy inv version_dir m :
  well_formed inv = true -> get_file_map inv version_dir = Ok m -> tidy m.
Proof.
  intros Hwf. unfold get_file_map.
  destruct (py_getitem inv "versions") as [versions |]; [| done].
  destruct (py_getitem versions version_dir) as [version |]; [| done].
  destruct (py_getitem version "state") as [state |]; [| done].
  destruct (py_getitem inv "manifest") as [manifest |] eqn:Hmanifest; [| done].
  assert (Hwm : well_formed manifest = true)
    by (eapply well_formed_index; [exact Hwf | exact Hmanifest]).
  destruct (py_iter state) as [digests |]; [| done].
  assert (Hnil : tidy []) by (split; [done | constructor]).
  revert Hnil. generalize (@nil (json * json)). revert m.
  induction digests as [| digest digests IH]; intros m acc Hacc.
  - by intros [= <-].
  - destruct (py_contains digest manifest) as [[|] |]; [| by apply IH | done].
    destruct (py_index state digest) as [files |]; [| done].
    destruct (py_iter files) as [fs |]; [| done].
    match goal with
    | |- match ?loop fs acc with _ => _ end = _ -> _ =>
        assert (Hfiles : forall fs acc, tidy acc ->
                  match loop fs acc with Ok m' => tidy m' | Raise _ => True end)
    end.
    { clear - Hwm. intros fs. induction fs as [| file fs IHfs]; intros acc Hacc; [exact Hacc |].
      destruct (hashable file) eqn:Hfile.
      - destruct (py_index manifest digest) as [paths |] eqn:Hpaths; [| done].
        apply IHfs. apply dict_set_tidy; [by apply py_same_hashable | | exact Hacc].
        apply py_eq_refl. eapply well_formed_index; [exact Hwm | exact Hpaths].
      - by destruct (py_index manifest digest). }
    specialize (Hfiles fs acc Hacc).
    match goal with
    | |- match ?x with _ => _ end = _ -> _ => destruct x as [m' |]; [| done]
    end.
    by apply IH.
Qed.

Lemma quiet_bind {A B} (m : M A) (k : A -> M B) v :
  quiet m v -> (forall a, fst (m v) = Ok a -> quiet (k a) v) -> quiet (bind m k) v.
Proof.
  unfold quiet, bind. destruct (m v) as [[a | e] v']; simpl; intros -> H; [by apply H | done].
Qed.

Lemma quiet_for_each {A} (l : list A) (body : A -> M unit) v :
  (forall x, In x l -> quiet (body x) v) -> quiet (for_each l body) v.
Proof.
  induction l as [| x l IH]; intros H; [reflexivity |]. cbn [for_each].
  apply quiet_bind; [apply H; by left |]. intros _ _. apply IH. intros y Hy. apply H. by right.
Qed.

Lemma quiet_for_each_bound {A} (l : list A) bound (body : A -> M unit) v :
  (forall x, In x l -> quiet (body x) v) -> quiet (for_each_bound l bound body) v.
Proof.
  revert bound. induction l as [| x l IH]; intros bound H; [reflexivity |].
  cbn [for_each_bound].
  apply quiet_bind; [apply H; by left |]. intros _ _. apply IH. intros y Hy. apply H. by right.
Qed.

(** A validator that holds a well-formed document, one without a repeated
    key and without NaN, is accepted as a prior version of itself:
    [validate_as_prior_version] logs no error and no warning, whether it
    returns or raises. *)
Theorem validate_as_prior_version_self v :
  well_formed (inventory v) = true ->
  (forall files, manifest_files v = Some files ->
     Forall (fun kv => hashable (fst kv) = true) files) ->
  snd (validate_as_prior_version v v) = v.
Proof.
  intros Hwf Hkeys. change (quiet (validate_as_prior_version v) v).
  unfold validate_as_prior_version. cbv zeta.
  apply quiet_bind; [reflexivity |]. intros self_versions [= <-].
  rewrite subset_refl. cbn [negb].
  destruct (manifest_files v) as [files |] eqn:Hmf; [| reflexivity].
  apply quiet_bind; [reflexivity |]. intros prior_files [= <-].
  apply quiet_bind; [reflexivity |]. intros self_manifest_files Hself.
  cbn [gets fst] in Hself. rewrite Hmf in Hself. injection Hself as <-.
  apply quiet_bind; [reflexivity |]. intros self_files [= <-].
  rewrite keys_subset_refl.
  2: { intros e He. apply py_same_hashable. specialize (Hkeys files eq_refl).
       rewrite List.Forall_forall in Hkeys. by apply Hkeys. }
  cbn [negb].
  apply quiet_bind; [reflexivity |]. intros self_inventory [= <-].
  apply quiet_bind.
  { apply quiet_for_each_bound. intros version_dir _.
    apply quiet_bind; [reflexivity |]. intros prior_map Hprior.
    apply quiet_bind; [reflexivity |]. intros self_map Hself.
    cbn [lift fst] in Hprior, Hself. rewrite Hprior in Hself. injection Hself as <-.
    destruct (get_file_map_tidy _ _ _ Hwf Hprior) as [Hd Hvals].
    rewrite keys_subset_refl by (intros e He; by eapply distinct_keys_refl).
    cbn [andb negb]. apply quiet_for_each. intros entry Hentry.
    rewrite (lookup_key_own prior_map entry Hd Hentry).
    rewrite List.Forall_forall in Hvals. rewrite (Hvals entry Hentry). reflexivity. }
  intros version_dir _.
  apply quiet_bind; [reflexivity |]. intros prior_versions Hpvs.
  destruct version_dir as [version_dir |]; [| reflexivity].
  apply quiet_bind; [reflexivity |]. intros prior_version Hpv.
  apply quiet_bind; [reflexivity |]. intros self_versions Hsvs.
  apply quiet_bind; [reflexivity |]. intros self_version Hsv.
  cbn [lift fst] in Hpvs, Hpv, Hsvs, Hsv.
  rewrite Hpvs in Hsvs. injection Hsvs as <-. rewrite Hpv in Hsv. injection Hsv as <-.
  assert (Hwv : well_formed prior_version = true).
  { eapply well_formed_index; [| exact Hpv]. eapply well_formed_index; [exact Hwf | exact Hpvs]. }
  apply quiet_for_each. intros key _.
  apply quiet_bind; [reflexivity |]. intros a Ha.
  apply quiet_bind; [reflexivity |]. intros b Hb.
  cbn [lift fst] in Ha, Hb. rewrite Ha in Hb. injection Hb as <-.
  rewrite (py_eq_refl a) by (eapply well_formed_get; [exact Hwv | exact Ha]).
  reflexivity.
Qed.

Lemma validate_as_prior_version_self_two_versions :
  let v := snd (validate Samples.any_datetime (Samples.two_versions "first" "second")
                  (Samples.fresh "???" false)) in
  snd (validate_as_prior_version v v) = v.
Proof.
  intros v. apply validate_as_prior_version_self.
  - vm_compute. reflexivity.
  - intros files Hfiles. vm_compute in Hfiles. injection Hfiles as <-.
    repeat constructor.
Defined.

(** The condition on NaN is needed: [!=] holds between NaN and itself, so a
    document whose message is NaN is warned as a prior version of itself. *)
Lemma validate_as_prior_version_self_nan :
  let d := JDict [("manifest", JDict []);
                  ("versions",
                   JDict [("v1", JDict [("state", JDict []); ("message", JFloat FNaN)])])] in
  let v := snd (validate Samples.any_datetime d (Samples.fresh "???" false)) in
  well_formed (inventory v) = false /\
  fst (validate_as_prior_version v v) = Ok tt /\
  Log.num_warnings (log (snd (validate_as_prior_version v v))) =
    Datatypes.S (Log.num_warnings (log v)) /\
  is_Some (Log.codes (log (snd (validate_as_prior_version v v))) !! "W212").
Proof. vm_compute. split_and!; eauto. Qed.

(* ------------------------------------------------------------------ *)
(** * Further properties: identifiers and content paths *)
(* ------------------------------------------------------------------ *)

Lemma append_cons c (a b : string) : String c a +:+ b = String c (a +:+ b).
Proof. reflexivity. Qed.

Lemma length_append (a b : string) :
  String.length (a +:+ b) = (String.length a + String.length b)%nat.
Proof.
  induction a as [| c a IH]; [reflexivity |].
  rewrite append_cons. cbn [String.length]. by rewrite IH.
Qed.

Lemma skip_then_spec p k s : forall pos,
  skip_then p k pos s = true <->
  exists pre rest,
    s = pre +:+ rest /\ all_chars p pre = true /\ k (pos + String.length pre)%nat rest = true.
Proof.
  induction s as [| c s IH]; intros pos; cbn [skip_then].
  - rewrite orb_false_r. split.
    + intros Hk. exists "", "". by rewrite Nat.add_0_r.
    + intros (pre & rest & Hs & _ & Hk). destruct pre; [| discriminate Hs].
      change ("" = rest) in Hs. subst rest. by rewrite Nat.add_0_r in Hk.
  - rewrite orb_true_iff, andb_true_iff, IH. split.
    + intros [Hk | (Hc & pre & rest & -> & Hpre & Hk)].
      * exists "", (String c s). by rewrite Nat.add_0_r.
      * exists (String c pre), rest. split; [reflexivity |]. split.
        -- cbn [all_chars]. by rewrite Hc.
        -- cbn [String.length]. by rewrite Nat.add_succ_r.
    + intros (pre & rest & Hs & Hpre & Hk). destruct pre as [| c' pre].
      * left. change (String c s = rest) in Hs. subst rest. by rewrite Nat.add_0_r in Hk.
      * right. rewrite append_cons in Hs. injection Hs as -> ->.
        cbn [all_chars] in Hpre. apply andb_true_iff in Hpre as [Hc Hpre].
        split; [exact Hc |]. exists pre, rest. split; [reflexivity | split; [exact Hpre |]].
        cbn [String.length] in Hk. by rewrite Nat.add_succ_r in Hk.
Qed.

Section OneCharacter.
Variables (r : Re.regex) (p : ascii -> bool).
Hypothesis Hone : forall k pos s, Re.accept r k pos s = Re.one p k pos s.

Lemma star_one k : forall fuel pos s,
  (String.length s <= fuel)%nat ->
  (fix star (fuel : nat) (pos : nat) (s : string) : bool :=
     k pos s ||
     match fuel with
     | O => false
     | S fuel' =>
         Re.accept r (fun pos' s' => Nat.ltb pos pos' && star fuel' pos' s') pos s
     end) fuel pos s
  = skip_then p k pos s.
Proof.
  induction fuel as [| fuel IH]; intros pos s Hlen.
  - destruct s; [| simpl in Hlen; lia]. reflexivity.
  - rewrite Hone. destruct s as [| c s]; [reflexivity |].
    cbn [Re.one skip_then]. cbn [String.length] in Hlen.
    replace (Nat.ltb pos (S pos)) with true by (symmetry; apply Nat.ltb_lt; lia).
    cbn [andb]. rewrite IH by lia. reflexivity.
Qed.

Lemma accept_plus_one k pos s :
  Re.accept (Re.RPlus r) k pos s = Re.one p (skip_then p k) pos s.
Proof.
  change (Re.accept (Re.RPlus r) k pos s) with
    (Re.accept r
       ((fix star (fuel : nat) (pos : nat) (s : string) : bool :=
           k pos s ||
           match fuel with
           | O => false
           | S fuel' =>
               Re.accept r (fun pos' s' => Nat.ltb pos pos' && star fuel' pos' s') pos s
           end) (String.length s)) pos s).
  rewrite Hone. destruct s as [| c s]; [reflexivity |]. cbn [Re.one].
  rewrite star_one by (cbn [String.length]; lia). reflexivity.
Qed.

End OneCharacter.

Lemma skip_then_all p pos s : skip_then p Re.accept_all pos s = true.
Proof. by destruct s. Qed.

Lemma accept_colon_rest pos s :
  Re.accept (Re.RCat (Re.RChar ":") (Re.RCat (Re.RPlus Re.RAny) Re.REmpty)) Re.accept_all pos s
    = true <->
  exists c rest, s = String ":" (String c rest) /\ c <> LF.
Proof.
  change (Re.accept (Re.RCat (Re.RChar ":") (Re.RCat (Re.RPlus Re.RAny) Re.REmpty))
            Re.accept_all pos s)
    with (Re.one (Ascii.eqb ":")
            (fun pos s => Re.accept (Re.RPlus Re.RAny) Re.accept_all pos s) pos s).
  destruct s as [| c0 s]; cbn [Re.one].
  { split; [done | intros (c & rest & Hs & _); done]. }
  rewrite (accept_plus_one Re.RAny (fun c => negb (Ascii.eqb c LF))) by reflexivity.
  destruct s as [| c s]; cbn [Re.one].
  { rewrite andb_false_r. split; [done | intros (c & rest & Hs & _); done]. }
  rewrite skip_then_all, andb_true_r, andb_true_iff, negb_true_iff.
  split.
  - intros [H0 Hc]. apply Ascii.eqb_eq in H0 as <-. exists c, s. split; [done |].
    intros ->. by rewrite Ascii.eqb_refl in Hc.
  - intros (c' & rest & [= -> -> ->] & Hc). split; [reflexivity |].
    by apply Ascii.eqb_neq.
Qed.

Lemma compile_id_pattern_is :
  Re.compile "(\w+):.+" =
  Some (Re.RCat (Re.RCat (Re.RPlus Re.RWord) Re.REmpty)
          (Re.RCat (Re.RChar ":") (Re.RCat (Re.RPlus Re.RAny) Re.REmpty))).
Proof. vm_compute. reflexivity. Qed.

Lemma accept_id_pattern s :
  Re.accept (Re.RCat (Re.RCat (Re.RPlus Re.RWord) Re.REmpty)
               (Re.RCat (Re.RChar ":") (Re.RCat (Re.RPlus Re.RAny) Re.REmpty)))
    Re.accept_all 0 s = true <->
  id_shape s.
Proof.
  change (Re.accept (Re.RCat (Re.RCat (Re.RPlus Re.RWord) Re.REmpty)
                       (Re.RCat (Re.RChar ":") (Re.RCat (Re.RPlus Re.RAny) Re.REmpty)))
            Re.accept_all 0 s)
    with (Re.accept (Re.RPlus Re.RWord)
            (fun pos s =>
               Re.accept (Re.RCat (Re.RChar ":") (Re.RCat (Re.RPlus Re.RAny) Re.REmpty))
                 Re.accept_all pos s) 0 s).
  rewrite (accept_plus_one Re.RWord Re.is_word) by reflexivity.
  unfold id_shape. destruct s as [| c0 s]; cbn [Re.one].
  { split; [done |]. intros (scheme & c & rest & Hs & Hne & _).
    destruct scheme; [done | discriminate Hs]. }
  rewrite andb_true_iff, skip_then_spec. split.
  - intros (Hc0 & pre & tail & -> & Hpre & Hk).
    apply accept_colon_rest in Hk as (c & rest & -> & Hc).
    exists (String c0 pre), c, rest. split_and!; try done.
    cbn [all_chars]. by rewrite Hc0.
  - intros (scheme & c & rest & Hs & Hne & Hall & Hc).
    destruct scheme as [| c' scheme]; [done |]. rewrite append_cons in Hs.
    injection Hs as -> ->. cbn [all_chars] in Hall. apply andb_true_iff in Hall as [Hc' Hall].
    split; [exact Hc' |]. exists scheme, (String ":" (String c rest)).
    split_and!; try done. apply accept_colon_rest. by exists c, rest.
Qed.

(** The [id] block of [validate] on a dictionary: no [id] is the error
    E100; an [id] that is not a string, or is the empty string, is the error
    E101; any other [id] passes in silence when it has the shape of a URI
    (word characters, a colon, more text) and is warned W207 when not. *)
Theorem check_id_cases d v :
  (dict_get "id" d = None -> check_id (JDict d) v = (Ok tt, with_error "E100" v)) /\
  (forall iid, dict_get "id" d = Some iid -> is_str iid = false \/ iid = JStr "" ->
     check_id (JDict d) v = (Ok tt, with_error "E101" v)) /\
  (forall s, dict_get "id" d = Some (JStr s) -> s <> "" ->
     (id_shape s -> check_id (JDict d) v = (Ok tt, v)) /\
     (~ id_shape s ->
        check_id (JDict d) v =
        (Ok tt, set_log (Log.warn "W207" [("where", JStr (where_ v)); ("id", JStr s)]
                           (log v)) v))).
Proof.
  unfold check_id, bind, lift, py_in, py_getitem, py_contains, py_index, dict_has.
  cbn [hashable]. split_and!.
  - intros ->. reflexivity.
  - intros iid -> [Hstr | ->]; [| reflexivity]. cbn [fst snd]. by rewrite Hstr.
  - intros s -> Hne. cbn [is_str negb orb py_eq py_same].
    destruct (String.eqb_spec s "") as [-> | _]; [done |].
    unfold re_match. rewrite compile_id_pattern_is. unfold ret at 1.
    pose proof (accept_id_pattern s) as Hshape.
    destruct (Re.accept _ Re.accept_all 0 s).
    + split; [reflexivity |]. intros Hno. exfalso. apply Hno. by apply Hshape.
    + split; [| reflexivity]. intros Hs. apply Hshape in Hs. discriminate Hs.
Qed.

Lemma literal_neq c x : literal c = true -> In x specials -> Ascii.eqb c x = false.
Proof.
  unfold literal. intros Hlit Hx. destruct (Ascii.eqb c x) eqn:E; [| reflexivity].
  assert (Hex : existsb (Ascii.eqb c) specials = true)
    by (apply existsb_exists; by exists x).
  by rewrite Hex in Hlit.
Qed.

Ltac special_tac := unfold specials; cbn [In]; tauto.

Lemma literal_not_quant c : literal c = true -> Re.is_quant c = false.
Proof.
  intros Hlit. unfold Re.is_quant.
  rewrite (literal_neq c "*"), (literal_neq c "+"), (literal_neq c "?"), (literal_neq c "{");
    first [reflexivity | exact Hlit | special_tac].
Qed.

Lemma read_atom_literal fuel c s :
  literal c = true -> Re.read_atom (S fuel) (String c s) = Some (Re.RChar c, s).
Proof.
  intros Hlit. cbn [Re.read_atom].
  rewrite (literal_neq c "("), (literal_neq c "["), (literal_neq c "."),
    (literal_neq c "^"), (literal_neq c "$"), (literal_neq c backslash),
    (literal_not_quant c);
    first [reflexivity | exact Hlit | special_tac].
Qed.

Lemma read_quant_none a s :
  Re.starts_quant s = false -> Re.read_quant a s = Some (a, s).
Proof.
  destruct s as [| c s]; [reflexivity |]. cbn [Re.starts_quant Re.read_quant].
  by intros ->.
Qed.

Lemma read_seq_literal lit : forall fuel tail r rest,
  all_chars literal lit = true -> Re.starts_quant tail = false ->
  Re.read_seq fuel tail = Some (r, rest) ->
  Re.read_seq (String.length lit + fuel) (lit +:+ tail) = Some (literal_regex lit r, rest).
Proof.
  induction lit as [| c lit IH]; intros fuel tail r rest Hlit Htail Hseq; [exact Hseq |].
  cbn [all_chars] in Hlit. apply andb_true_iff in Hlit as [Hc Hlit].
  destruct fuel as [| fuel]; [discriminate Hseq |].
  rewrite append_cons. cbn [String.length Nat.add Re.read_seq literal_regex].
  rewrite (literal_neq c "|"), (literal_neq c ")"); [| exact Hc | special_tac ..].
  cbn [orb]. rewrite Nat.add_succ_r, read_atom_literal by exact Hc.
  rewrite read_quant_none.
  - rewrite <- Nat.add_succ_r. by rewrite (IH (S fuel) tail r rest Hlit Htail Hseq).
  - destruct lit as [| c' lit]; [exact Htail |]. rewrite append_cons.
    cbn [Re.starts_quant]. cbn [all_chars] in Hlit. apply andb_true_iff in Hlit as [Hc' _].
    by apply literal_not_quant.
Qed.

Lemma read_seq_atom fuel c s a rest q rest' r rest'' :
  Ascii.eqb c "|" || Ascii.eqb c ")" = false ->
  Re.read_atom fuel (String c s) = Some (a, rest) ->
  Re.read_quant a rest = Some (q, rest') ->
  Re.read_seq fuel rest' = Some (r, rest'') ->
  Re.read_seq (S fuel) (String c s) = Some (Re.RCat q r, rest'').
Proof. intros Hc Ha Hq Hr. cbn [Re.read_seq]. by rewrite Hc, Ha, Hq, Hr. Qed.

Lemma compile_content_pattern cd :
  all_chars literal cd = true ->
  Re.compile ("^v\d+/" +:+ cd +:+ "/") =
  Some (Re.RCat Re.RBol
          (Re.RCat (Re.RChar "v")
             (Re.RCat (Re.RPlus Re.RDigit)
                (Re.RCat (Re.RChar "/")
                   (literal_regex cd (Re.RCat (Re.RChar "/") Re.REmpty)))))).
Proof.
  intros Hlit.
  set (tail := Re.RCat (Re.RChar "/") (literal_regex cd (Re.RCat (Re.RChar "/") Re.REmpty))).
  set (fuel := (String.length cd + S (S (3 * String.length cd + 25)))%nat).
  assert (H4 : Re.read_seq (S fuel) (String "/" (cd +:+ "/")) = Some (tail, "")).
  { apply (read_seq_literal (String "/" cd) (S (S (3 * String.length cd + 25))) "/"
             (Re.RCat (Re.RChar "/") Re.REmpty) "");
      [| reflexivity | reflexivity].
    cbn [all_chars]. by rewrite Hlit. }
  assert (H3 : Re.read_seq (S (S fuel)) (String backslash (String "d" (String "+"
                 (String "/" (cd +:+ "/"))))) =
               Some (Re.RCat (Re.RPlus Re.RDigit) tail, "")).
  { eapply read_seq_atom; [reflexivity | reflexivity | reflexivity | exact H4]. }
  assert (H2 : Re.read_seq (S (S (S fuel))) (String "v" (String backslash (String "d"
                 (String "+" (String "/" (cd +:+ "/")))))) =
               Some (Re.RCat (Re.RChar "v") (Re.RCat (Re.RPlus Re.RDigit) tail), "")).
  { eapply read_seq_atom; [reflexivity | reflexivity | reflexivity | exact H3]. }
  assert (H1 : Re.read_seq (S (S (S (S fuel)))) (String "^" (String "v" (String backslash
                 (String "d" (String "+" (String "/" (cd +:+ "/"))))))) =
               Some (Re.RCat Re.RBol
                       (Re.RCat (Re.RChar "v") (Re.RCat (Re.RPlus Re.RDigit) tail)), "")).
  { eapply read_seq_atom; [reflexivity | reflexivity | reflexivity | exact H2]. }
  change (Re.compile ("^v\d+/" +:+ cd +:+ "/")) with
    (match Re.read_alt (4 * String.length ("^v\d+/" +:+ cd +:+ "/") + 4)
             ("^v\d+/" +:+ cd +:+ "/") with
     | Some (r, EmptyString) => Some r
     | _ => None
     end).
  replace (4 * String.length ("^v\d+/" +:+ cd +:+ "/") + 4)%nat
    with (S (S (S (S (S fuel)))))
    by (unfold fuel; rewrite !length_append; cbn [String.length]; lia).
  change ("^v\d+/" +:+ cd +:+ "/") with
    (String "^" (String "v" (String backslash (String "d" (String "+"
       (String "/" (cd +:+ "/"))))))).
  cbn [Re.read_alt]. rewrite H1. reflexivity.
Qed.

Lemma accept_literal lit r k : forall pos s,
  Re.accept (literal_regex lit r) k pos s = true <->
  exists rest, s = lit +:+ rest /\ Re.accept r k (pos + String.length lit)%nat rest = true.
Proof.
  induction lit as [| c lit IH]; intros pos s.
  - cbn [literal_regex String.length]. rewrite Nat.add_0_r. split.
    + intros H. by exists s.
    + intros (rest & Hs & H). change (s = rest) in Hs. by subst rest.
  - change (Re.accept (literal_regex (String c lit) r) k pos s)
      with (Re.one (Ascii.eqb c) (Re.accept (literal_regex lit r) k) pos s).
    destruct s as [| c' s]; cbn [Re.one].
    { split; [done | intros (rest & Hs & _); discriminate Hs]. }
    rewrite andb_true_iff, IH. split.
    + intros (Hc & rest & -> & H). apply Ascii.eqb_eq in Hc as <-. exists rest.
      split; [reflexivity |]. cbn [String.length]. by rewrite Nat.add_succ_r.
    + intros (rest & Hs & H). rewrite append_cons in Hs. injection Hs as -> ->.
      split; [apply Ascii.eqb_refl |]. exists rest. split; [reflexivity |].
      cbn [String.length] in H. by rewrite Nat.add_succ_r in H.
Qed.

Lemma accept_content_pattern cd path :
  Re.accept
    (Re.RCat Re.RBol
       (Re.RCat (Re.RChar "v")
          (Re.RCat (Re.RPlus Re.RDigit)
             (Re.RCat (Re.RChar "/")
                (literal_regex cd (Re.RCat (Re.RChar "/") Re.REmpty))))))
    Re.accept_all 0 path = true <->
  content_path cd path.
Proof.
  change (Re.accept _ Re.accept_all 0 path) with
    (Nat.eqb 0 0 &&
     Re.one (Ascii.eqb "v")
       (fun pos s =>
          Re.accept (Re.RPlus Re.RDigit)
            (fun pos s =>
               Re.one (Ascii.eqb "/")
                 (Re.accept (literal_regex cd (Re.RCat (Re.RChar "/") Re.REmpty))
                    Re.accept_all) pos s) pos s) 0 path).
  cbn [Nat.eqb andb]. unfold content_path.
  destruct path as [| c0 path]; cbn [Re.one].
  { split; [done | intros (digits & rest & Hs & _); discriminate Hs]. }
  rewrite (accept_plus_one Re.RDigit Re.is_digit) by reflexivity.
  rewrite andb_true_iff. split.
  - intros [Hv Hrest]. apply Ascii.eqb_eq in Hv as <-.
    destruct path as [| d0 path]; [done |]. cbn [Re.one] in Hrest.
    apply andb_true_iff in Hrest as [Hd0 Hrest].
    apply skip_then_spec in Hrest as (pre & tail & -> & Hpre & Hk).
    destruct tail as [| c tail]; [done |]. cbn [Re.one] in Hk.
    apply andb_true_iff in Hk as [Hc Hk]. apply Ascii.eqb_eq in Hc as <-.
    apply accept_literal in Hk as (rest & -> & Hk).
    change (Re.accept (Re.RCat (Re.RChar "/") Re.REmpty) Re.accept_all ?pos rest)
      with (Re.one (Ascii.eqb "/") Re.accept_all pos rest) in Hk.
    destruct rest as [| c rest]; [done |]. cbn [Re.one] in Hk.
    apply andb_true_iff in Hk as [Hc _]. apply Ascii.eqb_eq in Hc as <-.
    exists (String d0 pre), rest. split_and!.
    + reflexivity.
    + done.
    + cbn [all_chars]. by rewrite Hd0.
  - intros (digits & rest & Hs & Hne & Hall).
    destruct digits as [| d0 digits]; [done |].
    rewrite !append_cons in Hs. change ("" +:+ ?x) with x in Hs.
    injection Hs as -> ->. split; [reflexivity |]. cbn [Re.one].
    cbn [all_chars] in Hall. apply andb_true_iff in Hall as [Hd0 Hall].
    rewrite Hd0. cbn [andb]. apply skip_then_spec.
    exists digits, ("/" +:+ cd +:+ "/" +:+ rest). split_and!; try done.
    rewrite append_cons. change ("" +:+ ?x) with x. cbn [Re.one].
    rewrite Ascii.eqb_refl. cbn [andb]. apply accept_literal.
    exists ("/" +:+ rest). split; [reflexivity |]. reflexivity.
Qed.

Lemma is_valid_content_path_run v path :
  all_chars literal (content_directory v) = true ->
  is_valid_content_path (JStr path) v =
  (Ok (Re.accept
         (Re.RCat Re.RBol
            (Re.RCat (Re.RChar "v")
               (Re.RCat (Re.RPlus Re.RDigit)
                  (Re.RCat (Re.RChar "/")
                     (literal_regex (content_directory v)
                        (Re.RCat (Re.RChar "/") Re.REmpty))))))
         Re.accept_all 0 path), v).
Proof.
  intros Hlit. unfold is_valid_content_path, bind, gets, re_match.
  by rewrite (compile_content_pattern _ Hlit).
Qed.

(** [is_valid_content_path] for a content directory of literal characters
    (the default one, or any name free of pattern syntax): a string is
    accepted exactly when it starts with the letter v, one digit or more, a
    slash, the content directory and a slash.  The state is only read. *)
Theorem is_valid_content_path_shape v path :
  all_chars literal (content_directory v) = true ->
  exists ok,
    is_valid_content_path (JStr path) v = (Ok ok, v) /\
    (ok = true <-> content_path (content_directory v) path).
Proof.
  intros Hlit. rewrite (is_valid_content_path_run v path Hlit).
  eexists. split; [reflexivity |]. apply accept_content_pattern.
Qed.

Lemma is_valid_content_path_shape_default :
  exists ok,
    is_valid_content_path (JStr "v1/content/a.txt") (Samples.fresh "???" false)
      = (Ok ok, Samples.fresh "???" false) /\
    (ok = true <-> content_path "content" "v1/content/a.txt").
Proof.
  apply (is_valid_content_path_shape (Samples.fresh "???" false) "v1/content/a.txt").
  reflexivity.
Defined.

(* ------------------------------------------------------------------ *)
(** * Further properties: every subscript of [validate] is guarded *)
(* ------------------------------------------------------------------ *)

Lemma keeps_bind_lift {A B} (I : validator -> Prop) (G : exn -> Prop)
    (o : outcome A) (k : A -> M B) :
  raises_in G o -> (forall a, o = Ok a -> keeps I G (k a)) -> keeps I G (bind (lift o) k).
Proof.
  intros Ho Hk v Hv. unfold bind, lift. destruct o as [a | e]; simpl in *.
  - by apply (Hk a).
  - by split.
Qed.

Lemma keeps_bind_post {A B} (I : validator -> Prop) (G : exn -> Prop) (Q : A -> Prop)
    (m : M A) (k : A -> M B) :
  keeps I G m -> (forall v a, fst (m v) = Ok a -> Q a) ->
  (forall a, Q a -> keeps I G (k a)) -> keeps I G (bind m k).
Proof.
  intros Hm HQ Hk v Hv. unfold bind. destruct (Hm v Hv) as [H1 H2].
  specialize (HQ v). destruct (m v) as [[a | e] v']; simpl in *.
  - apply Hk; [by apply HQ | exact H1].
  - by split.
Qed.

Lemma keeps_fold_each_in {A B} (I : validator -> Prop) (G : exn -> Prop)
    (l : list A) (acc : B) (body : A -> B -> M B) :
  (forall x acc, In x l -> keeps I G (body x acc)) -> keeps I G (fold_each l acc body).
Proof.
  revert acc. induction l as [| x l IH]; intros acc Hbody; cbn [fold_each].
  - apply keeps_ret.
  - apply keeps_bind; [apply Hbody; by left |].
    intros acc'. apply IH. intros y acc'' Hy. apply Hbody. by right.
Qed.

Lemma respects_anywhere : respects anywhere everything.
Proof. by intros v code args _ _. Qed.

Lemma py_contains_guarded x c : raises_in guarded (py_contains x c).
Proof. destruct c, x; simpl; done. Qed.

Lemma py_in_guarded key c : raises_in guarded (py_in key c).
Proof. apply py_contains_guarded. Qed.

(** [c[key]] after [key in c]: no [KeyError]. *)
Lemma py_getitem_guarded c key :
  py_in key c = Ok true -> raises_in guarded (py_getitem c key).
Proof.
  destruct c; simpl; try done. unfold dict_has.
  destruct (dict_get key d); [done | discriminate].
Qed.

Lemma dict_get_key {V} (d : list (string * V)) key :
  In key (dict_keys d) -> exists x, dict_get key d = Some x.
Proof.
  induction d as [| [k0 x0] d IH]; [done |]. cbn [dict_keys map fst dict_get In].
  intros Hin. destruct (String.eqb_spec key k0) as [-> | Hne]; [by eexists |].
  destruct Hin as [-> | Hin]; [done | by apply IH].
Qed.

Lemma py_getitem_key d key :
  In key (dict_keys d) -> raises_in guarded (py_getitem (JDict d) key).
Proof. intros Hin. simpl. by destruct (dict_get_key d key Hin) as [x ->]. Qed.

Lemma py_iter_guarded c : raises_in guarded (py_iter c).
Proof. destruct c; simpl; done. Qed.

Lemma at_index_guarded {A} (l : list A) z : raises_in guarded (at_index l z).
Proof.
  unfold at_index. destruct (_ <? 0); [done |]. by destruct (nth_error _ _).
Qed.

Section Guarded.
Context (G : exn -> Prop).
Hypothesis HG : forall e, guarded e -> G e.

Lemma raises_guarded {A} (o : outcome A) : raises_in guarded o -> raises_in G o.
Proof. apply raises_in_weaken, HG. Qed.

Lemma guarded_error code args : keeps anywhere G (error code args).
Proof. eapply keeps_error; [exact respects_anywhere | done]. Qed.

Lemma guarded_warn code args : keeps anywhere G (warn code args).
Proof. eapply keeps_warn; [exact respects_anywhere | done]. Qed.

Lemma guarded_re_match pattern x : keeps anywhere G (re_match pattern x).
Proof.
  unfold re_match. destruct (Re.compile pattern).
  - destruct x; first [apply keeps_ret | by apply keeps_raise, HG].
  - by apply keeps_raise, HG.
Qed.

Lemma guarded_re_search pattern s : keeps anywhere G (re_search pattern s).
Proof.
  apply keeps_lift. unfold Re.re_search.
  destruct (Re.compile pattern); simpl; [done | by apply HG].
Qed.

End Guarded.

Ltac guard_side :=
  first
    [ exact Logic.I
    | apply py_in_guarded
    | apply py_iter_guarded
    | apply at_index_guarded
    | apply py_getitem_guarded; assumption
    | apply py_getitem_key; assumption
    | assumption ].

Ltac guard_step :=
  lazymatch goal with
  | |- keeps _ _ (bind (lift _) _) => apply keeps_bind_lift; [ | intros ? ? ]
  | |- keeps _ _ (bind (if ?b then _ else _) _) => destruct b
  | |- keeps _ _ (bind _ _) => apply keeps_bind; [ | intros ? ]
  | |- keeps _ _ (ret _) => apply keeps_ret
  | |- keeps _ _ (gets _) => apply keeps_gets
  | |- keeps _ _ (modify _) => apply keeps_modify; done
  | |- keeps _ _ (when _ _) => apply keeps_when
  | |- keeps _ _ (raise _) => apply keeps_raise
  | |- keeps _ _ (lift _) => apply keeps_lift
  | |- keeps _ _ (error _ _) => apply guarded_error
  | |- keeps _ _ (warn _ _) => apply guarded_warn
  | |- keeps _ _ (re_match _ _) => apply guarded_re_match; done
  | |- keeps _ _ (re_search _ _) => apply guarded_re_search
  | |- keeps _ _ (if negb ?b then _ else _) => destruct b; cbn [negb]
  | |- keeps _ _ (match ?x with _ => _ end) => destruct x
  end.

Lemma guarded_digest_regex : keeps anywhere guarded digest_regex.
Proof. unfold digest_regex. repeat guard_step; guard_side. Qed.

Lemma guarded_is_valid_content_path path :
  keeps anywhere guarded (is_valid_content_path path).
Proof. unfold is_valid_content_path. repeat guard_step; guard_side. Qed.

Lemma guarded_validate_manifest manifest :
  keeps anywhere guarded (validate_manifest manifest).
Proof.
  unfold validate_manifest. destruct manifest; try (repeat guard_step; guard_side; fail).
  apply keeps_fold_each_in. intros digest manifest_files Hin.
  apply keeps_bind; [apply guarded_digest_regex | intros pattern].
  apply keeps_bind; [by apply guarded_re_match | intros m].
  destruct m; cbn [negb]; [| repeat guard_step; guard_side].
  apply keeps_bind_lift; [by apply py_getitem_key | intros entry _].
  destruct entry; try (repeat guard_step; guard_side; fail).
  apply keeps_fold_each. intros file files.
  destruct (hashable file); [| by apply keeps_raise]. cbv zeta.
  apply keeps_bind; [apply guarded_is_valid_content_path | intros ok].
  repeat guard_step; guard_side.
Qed.

Lemma guarded_validate_state_block state :
  keeps anywhere guarded (validate_state_block state).
Proof.
  unfold validate_state_block. destruct state; try (repeat guard_step; guard_side; fail).
  apply keeps_bind; [apply guarded_digest_regex | intros _].
  apply keeps_fold_each_in. intros digest digests Hin.
  apply keeps_bind; [apply guarded_digest_regex | intros pattern].
  apply keeps_bind; [by apply guarded_re_match | intros m].
  destruct m; cbn [negb]; [| repeat guard_step; guard_side].
  apply keeps_bind_lift; [by apply py_getitem_key | intros files _].
  repeat guard_step; guard_side.
Qed.

(** The names of [validate_version_sequence] are keys of [versions]. *)
Lemma validate_version_sequence_keys versions v :
  exists names,
    fst (validate_version_sequence versions v) = Ok names /\
    forall name, In name names -> raises_in guarded (py_getitem versions name).
Proof.
  assert (Hkeys : forall d names,
            Forall (fun name => dict_has name d = true) names ->
            forall name, In name names -> raises_in guarded (py_getitem (JDict d) name)).
  { intros d names Hall name Hin. rewrite List.Forall_forall in Hall.
    specialize (Hall name Hin). unfold dict_has in Hall. simpl.
    by destruct (dict_get name d). }
  unfold validate_version_sequence. cbv zeta.
  destruct versions; try (exists []; split; [reflexivity | done]).
  destruct (dict_has "v1" d) eqn:H1.
  - cbn [when]. rewrite (run_bind (ret tt) _ v tt eq_refl).
    generalize (N.to_nat (999999 - 1)). intros count.
    destruct (walk_sequence_spec "v%d" d 999999 count 2 ["v1"] (snd (ret tt v)))
      as (j & _ & Hall & _ & ->).
    eexists. split; [reflexivity |]. apply Hkeys.
    apply Forall_app. split; [| exact Hall]. constructor; [exact H1 | constructor].
  - pose proof (find_padding_spec d 9 2) as Hfind.
    destruct (find_padding (seq 2 9) d) as [[[w fmt] vkey] |].
    + destruct Hfind as (_ & _ & _ & Hhas & _). cbn [when].
      rewrite (run_bind (warn "W203" []) _ v tt eq_refl).
      generalize (N.to_nat (10 ^ (N.of_nat w - 1) - 1 - 1)). intros count.
      destruct (walk_sequence_spec fmt d (10 ^ (N.of_nat w - 1) - 1) count 2 [vkey]
                  (snd (warn "W203" [] v))) as (j & _ & Hall & _ & ->).
      eexists. split; [reflexivity |]. apply Hkeys.
      apply Forall_app. split; [| exact Hall]. constructor; [exact Hhas | constructor].
    + exists []. split; [reflexivity | done].
Qed.

Section GuardedVersions.
Variable str_to_datetime : string -> outcome unit.
Hypothesis Hdt :
  forall s, raises_in (fun e => guarded e \/ exists msg, e = ValueError msg)
              (str_to_datetime s).

Lemma guarded_validate_version versions v digests_used :
  raises_in guarded (py_getitem versions v) ->
  keeps anywhere guarded (validate_version str_to_datetime versions v digests_used).
Proof.
  intros Hv. unfold validate_version. cbv zeta.
  apply keeps_bind_lift; [exact Hv | intros version _].
  apply keeps_bind_lift; [apply py_in_guarded | intros has_created Hcreated].
  apply keeps_bind.
  { destruct has_created; [apply keeps_lift; by apply py_getitem_guarded | apply keeps_ret]. }
  intros created.
  apply keeps_bind.
  { destruct has_created; [| apply guarded_error; done].
    destruct created; try (apply guarded_error; done).
    apply keeps_except; [| intros msg; apply guarded_error; done].
    apply keeps_bind_lift; [apply Hdt | intros _ _].
    apply keeps_bind; [apply guarded_re_search; by left | intros zone].
    apply keeps_bind; [apply keeps_when, guarded_warn | intros _].
    apply keeps_bind; [apply guarded_re_search; by left | intros time].
    apply keeps_when, guarded_warn. }
  intros _.
  apply keeps_bind_lift; [apply py_in_guarded | intros has_state Hstate].
  apply keeps_bind.
  { destruct has_state.
    - apply keeps_bind_lift; [by apply py_getitem_guarded | intros state _].
      apply keeps_bind; [apply guarded_validate_state_block | intros digests].
      apply keeps_ret.
    - apply keeps_bind; [by apply guarded_error | intros _; apply keeps_ret]. }
  intros digests.
  apply keeps_bind_lift; [apply py_in_guarded | intros has_message Hmessage].
  apply keeps_bind.
  { destruct has_message; cbn [negb]; [| by apply guarded_warn].
    apply keeps_bind_lift; [by apply py_getitem_guarded | intros message _].
    apply keeps_when. by apply guarded_error. }
  intros _.
  apply keeps_bind_lift; [apply py_in_guarded | intros has_user Huser].
  apply keeps_bind; [| intros _; apply keeps_ret].
  destruct has_user; cbn [negb]; [| by apply guarded_warn].
  apply keeps_bind_lift; [by apply py_getitem_guarded | intros user _].
  destruct (negb (is_dict user)); [by apply guarded_error |].
  apply keeps_bind_lift; [apply py_in_guarded | intros has_name Hname].
  apply keeps_bind.
  { destruct has_name; [apply keeps_lift; by apply py_getitem_guarded | apply keeps_ret]. }
  intros name.
  apply keeps_bind; [apply keeps_when; by apply guarded_error | intros _].
  apply keeps_bind_lift; [apply py_in_guarded | intros has_address Haddress].
  destruct has_address; cbn [negb]; [| by apply guarded_warn].
  apply keeps_bind_lift; [by apply py_getitem_guarded | intros address _].
  apply keeps_when. by apply guarded_error.
Qed.

Lemma guarded_check_versions inv :
  keeps anywhere guarded (check_versions str_to_datetime inv).
Proof.
  unfold check_versions.
  apply keeps_bind_lift; [apply py_in_guarded | intros has_versions Hversions].
  destruct has_versions; cbn [negb]; [| repeat guard_step; guard_side].
  apply keeps_bind_lift; [by apply py_getitem_guarded | intros versions _].
  apply (keeps_bind_post anywhere guarded
           (fun names => forall name, In name names ->
                         raises_in guarded (py_getitem versions name))).
  - intros v _. split; [done |].
    destruct (validate_version_sequence_keys versions v) as (names & -> & _). done.
  - intros v names Hnames.
    destruct (validate_version_sequence_keys versions v) as (names' & Hrun & Hkeys).
    rewrite Hrun in Hnames. by injection Hnames as <-.
  - intros names Hkeys.
    apply keeps_bind; [by apply keeps_modify | intros _].
    apply keeps_bind; [| intros digests_used; apply keeps_ret].
    unfold validate_versions. apply keeps_fold_each_in. intros name acc Hin.
    apply guarded_validate_version. by apply Hkeys.
Qed.

(** [digests_used] is bound whenever the document has a [versions] entry. *)
Lemma check_versions_binds inv v digests_used :
  fst (check_versions str_to_datetime inv v) = Ok digests_used ->
  py_in "versions" inv = Ok true -> digests_used <> None.
Proof.
  unfold check_versions. intros Hrun Hin.
  rewrite (run_bind (lift (py_in "versions" inv)) _ v true) in Hrun
    by (unfold lift; cbn [fst]; exact Hin).
  cbn [negb] in Hrun.
  do 4 (pose proof (bind_returns _ _ _ _ Hrun) as (? & _ & Hrun');
        rewrite Hrun' in Hrun; clear Hrun').
  injection Hrun as <-. done.
Qed.

Lemma guarded_check_consistency inv digests_used :
  (py_in "versions" inv = Ok true -> digests_used <> None) ->
  keeps anywhere guarded (check_consistency inv digests_used).
Proof.
  intros Hbound. unfold check_consistency.
  apply keeps_bind_lift; [apply py_in_guarded | intros has_manifest Hmanifest].
  destruct has_manifest.
  - apply keeps_bind_lift; [apply py_in_guarded | intros has_versions Hversions].
    destruct has_versions; [| apply keeps_ret]. cbn [andb when].
    apply keeps_bind_lift; [by apply py_getitem_guarded | intros manifest _].
    destruct digests_used as [digests_used |]; [| by destruct (Hbound Hversions)].
    unfold check_digests_present_and_used. repeat guard_step; guard_side.
  - apply keeps_bind; [apply keeps_ret | intros has_versions; apply keeps_ret].
Qed.

(** [validate] raises no [KeyError], no [UnboundLocalError] and no
    [ValueError], whatever the document and the state: every subscript by
    key follows a membership test on the same container, the names of the
    version sequence are keys of [versions], [digests_used] is bound when
    it is read, and the [ValueError] of a timestamp is caught.  The parser
    of timestamps is assumed to raise no [KeyError] or [UnboundLocalError]
    itself. *)
Theorem validate_subscripts_guarded inv v :
  raises_in guarded (fst (validate str_to_datetime inv v)).
Proof.
  assert (H : keeps anywhere guarded (validate str_to_datetime inv)).
  { unfold validate.
    apply keeps_bind; [by apply keeps_modify | intros _].
    apply keeps_bind; [unfold check_id; repeat guard_step; guard_side | intros _].
    apply keeps_bind; [unfold check_type; repeat guard_step; guard_side | intros _].
    apply keeps_bind;
      [unfold check_digest_algorithm; repeat guard_step; guard_side | intros _].
    apply keeps_bind.
    { unfold check_content_directory.
      apply keeps_bind_lift; [apply py_in_guarded | intros has_directory Hdirectory].
      destruct has_directory; [cbn [when] | apply keeps_ret].
      repeat guard_step; guard_side. }
    intros _.
    apply keeps_bind.
    { unfold check_manifest.
      apply keeps_bind_lift; [apply py_in_guarded | intros has_manifest Hmanifest].
      destruct has_manifest; cbn [negb]; [| by apply guarded_error].
      apply keeps_bind_lift; [by apply py_getitem_guarded | intros manifest _].
      apply keeps_bind; [apply guarded_validate_manifest | intros files].
      by apply keeps_modify. }
    intros _.
    apply (keeps_bind_post anywhere guarded
             (fun digests_used => py_in "versions" inv = Ok true -> digests_used <> None)).
    - apply guarded_check_versions.
    - intros v' digests_used. apply check_versions_binds.
    - intros digests_used Hbound.
      apply keeps_bind; [unfold check_head; repeat guard_step; guard_side | intros _].
      by apply guarded_check_consistency. }
  by destruct (H v Logic.I) as [_ Hraise].
Qed.

End GuardedVersions.

Lemma validate_subscripts_guarded_no_versions :
  raises_in guarded
    (fst (validate Samples.any_datetime (JDict [("head", JStr "v1")])
            (Samples.fresh "???" false))).
Proof.
  apply (validate_subscripts_guarded Samples.any_datetime).
  intros s. exact Logic.I.
Defined.

(* ------------------------------------------------------------------ *)
(** * Further properties: the digest algorithm of a validator used again *)
(* ------------------------------------------------------------------ *)

(** The algorithm is the one of [v0], or it was adopted from the document:
    then it is not 'sha512', and is 'sha256' unless the validator is lax. *)
Lemma keeps_check_digest_algorithm_adopts inv v0 :
  let J := fun v' : validator =>
    lax_digests v' = lax_digests v0 /\
    (digest_algorithm v' = digest_algorithm v0 \/
     py_getitem inv "digestAlgorithm" = Ok (digest_algorithm v') /\
     digest_algorithm v' <> JStr "sha512" /\
     (lax_digests v0 = true \/ digest_algorithm v' = JStr "sha256")) in
  keeps J any_exn (check_digest_algorithm inv).
Proof.
  intros J v [Hlax Hv]. unfold check_digest_algorithm, bind, lift, gets, modify, ret.
  destruct (py_in "digestAlgorithm" inv) as [[|] | e]; cbn [negb fst snd];
    [| by split | by split].
  destruct (py_getitem inv "digestAlgorithm") as [da | e] eqn:Hda; cbn [fst snd];
    [| by split].
  destruct (py_eq da (JStr "sha512")) eqn:E512; [by split |].
  assert (Hne : da <> JStr "sha512").
  { intros Heq. apply py_eq_str in Heq. congruence. }
  destruct (lax_digests v) eqn:Hon; cbn [fst snd].
  - split; [| done]. split; [by rewrite <- Hlax |]. right. cbn [digest_algorithm set_digest_algorithm].
    split_and!; [done | done | left; by rewrite <- Hlax].
  - destruct (py_eq da (JStr "sha256")) eqn:E256; cbn [fst snd].
    + apply py_eq_str in E256 as ->. split; [| done]. split; [by rewrite <- Hlax |].
      right. cbn [digest_algorithm set_digest_algorithm]. split_and!; [done | done | by right].
    + split; [| done]. unfold J, error, modify.
      cbn [snd lax_digests digest_algorithm set_log]. rewrite Hon. by split.
Qed.

(** [validate] never resets the digest algorithm: after a run it is the one
    the validator had before, unless the document names another than
    'sha512' that is adopted ('sha256', or anything in lax mode).  A
    validator that adopted 'sha256' keeps it for a later document that says
    'sha512'. *)
Theorem validate_keeps_or_adopts str_to_datetime inv v :
  let v' := snd (validate str_to_datetime inv v) in
  digest_algorithm v' = digest_algorithm v \/
  py_getitem inv "digestAlgorithm" = Ok (digest_algorithm v') /\
  digest_algorithm v' <> JStr "sha512" /\
  (lax_digests v = true \/ digest_algorithm v' = JStr "sha256").
Proof.
  cbv zeta. unfold validate.
  rewrite (run_bind (modify (set_inventory inv)) _ v tt eq_refl).
  change (snd (modify (set_inventory inv) v)) with (set_inventory inv v).
  set (J := fun v' : validator =>
    lax_digests v' = lax_digests v /\
    (digest_algorithm v' = digest_algorithm v \/
     py_getitem inv "digestAlgorithm" = Ok (digest_algorithm v') /\
     digest_algorithm v' <> JStr "sha512" /\
     (lax_digests v = true \/ digest_algorithm v' = JStr "sha256"))).
  assert (HS : respects J everything) by (intros v' code args _ Hv'; by split).
  assert (Hall : forall code, inner code -> everything code) by done.
  assert (H0 : J (set_inventory inv v)) by (split; [done | by left]).
  match goal with |- context [snd (?rest (set_inventory inv v))] =>
    cut (J (snd (rest (set_inventory inv v)))); [by intros [_ H] |];
    apply (keeps_run J any_exn rest (set_inventory inv v)); [| exact H0]
  end.
  repeat split_bind.
  - eapply keeps_check_id; eauto using any_benign; done.
  - eapply keeps_check_type; eauto using any_benign; done.
  - apply keeps_check_digest_algorithm_adopts.
  - eapply keeps_check_content_directory; eauto using any_benign;
      first [done | intros ? ? H; exact H].
  - eapply keeps_check_manifest; eauto using any_benign, keeps_digest_regex_any;
      first [done | intros ? ? H; exact H].
  - eapply keeps_check_versions;
      eauto using any_benign, keeps_digest_regex_any, any_datetime;
      first [done | intros ? ? H; exact H].
  - eapply keeps_check_head; eauto using any_benign;
      first [done | intros ? ? H; exact H].
  - eapply keeps_check_consistency; eauto using any_benign.
Qed.

(* ------------------------------------------------------------------ *)
(** * Further properties: the two patterns on timestamps *)
(* ------------------------------------------------------------------ *)

Lemma search_from_spec r s : forall pos,
  Re.search_from r pos s = true <->
  exists prefix rest,
    s = prefix +:+ rest /\
    Re.accept r Re.accept_all (pos + String.length prefix)%nat rest = true.
Proof.
  induction s as [| c s IH]; intros pos; cbn [Re.search_from].
  - rewrite orb_false_r. split.
    + intros H. exists "", "". by rewrite Nat.add_0_r.
    + intros (prefix & rest & Hs & H). destruct prefix; [| discriminate Hs].
      change ("" = rest) in Hs. subst rest. by rewrite Nat.add_0_r in H.
  - rewrite orb_true_iff, IH. split.
    + intros [H | (prefix & rest & -> & H)].
      * exists "", (String c s). by rewrite Nat.add_0_r.
      * exists (String c prefix), rest. split; [reflexivity |].
        cbn [String.length]. by rewrite Nat.add_succ_r.
    + intros (prefix & rest & Hs & H). destruct prefix as [| c' prefix].
      * left. change (String c s = rest) in Hs. subst rest. by rewrite Nat.add_0_r in H.
      * right. rewrite append_cons in Hs. injection Hs as -> ->. exists prefix, rest.
        split; [reflexivity |]. cbn [String.length] in H. by rewrite Nat.add_succ_r in H.
Qed.

Lemma accept_chain rs ps r k :
  Forall2 (fun x p => char_test x = Some p) rs ps ->
  forall pos s,
    Re.accept (chain rs r) k pos s =
    match starts_with ps s with
    | Some rest => Re.accept r k (pos + length ps)%nat rest
    | None => false
    end.
Proof.
  induction 1 as [| x p rs ps Hx _ IH]; intros pos s.
  - cbn [chain starts_with length]. by rewrite Nat.add_0_r.
  - change (Re.accept (chain (x :: rs) r) k pos s)
      with (Re.accept x (Re.accept (chain rs r) k) pos s).
    assert (Hone : Re.accept x (Re.accept (chain rs r) k) pos s =
                   Re.one p (Re.accept (chain rs r) k) pos s).
    { destruct x; try discriminate Hx; injection Hx as <-; reflexivity. }
    rewrite Hone. destruct s as [| c s]; [reflexivity |]. cbn [Re.one starts_with length].
    destruct (p c); [| reflexivity]. cbn [andb]. rewrite IH. by rewrite Nat.add_succ_r.
Qed.

Lemma accept_time_pattern pos s :
  Re.accept
    (Re.RCat (Re.RChar "T")
       (Re.RCat Re.RDigit (Re.RCat Re.RDigit
          (Re.RCat (Re.RChar ":") (Re.RCat Re.RDigit (Re.RCat Re.RDigit
             (Re.RCat (Re.RChar ":") (Re.RCat Re.RDigit (Re.RCat Re.RDigit Re.REmpty)))))))))
    Re.accept_all pos s
  = match starts_with time_shape s with Some _ => true | None => false end.
Proof.
  change (Re.RCat (Re.RChar "T") _) with
    (chain [Re.RChar "T"; Re.RDigit; Re.RDigit; Re.RChar ":"; Re.RDigit; Re.RDigit;
            Re.RChar ":"; Re.RDigit; Re.RDigit] Re.REmpty).
  rewrite (accept_chain _ time_shape) by (unfold time_shape; repeat constructor).
  by destruct (starts_with time_shape s).
Qed.

Lemma accept_zone_pattern pos s :
  Re.accept
    (Re.RCat
       (Re.RAlt (Re.RCat (Re.RChar "Z") Re.REmpty)
          (Re.RCat (Re.RClass [("+"%char, "+"%char); ("-"%char, "-"%char)])
             (Re.RCat Re.RDigit (Re.RCat Re.RDigit
                (Re.RCat (Re.RChar ":") (Re.RCat Re.RDigit (Re.RCat Re.RDigit Re.REmpty)))))))
       (Re.RCat Re.REol Re.REmpty))
    Re.accept_all pos s
  = ends_with [Ascii.eqb "Z"] s || ends_with offset_shape s.
Proof.
  change (Re.accept (Re.RCat (Re.RAlt ?a ?b) ?e) Re.accept_all pos s) with
    (Re.accept (chain [Re.RChar "Z"] Re.REmpty) (Re.accept e Re.accept_all) pos s ||
     Re.accept
       (chain [Re.RClass [("+"%char, "+"%char); ("-"%char, "-"%char)]; Re.RDigit; Re.RDigit;
               Re.RChar ":"; Re.RDigit; Re.RDigit] Re.REmpty)
       (Re.accept e Re.accept_all) pos s).
  rewrite (accept_chain _ [Ascii.eqb "Z"]) by repeat constructor.
  rewrite (accept_chain _ offset_shape) by (unfold offset_shape, is_sign; repeat constructor).
  unfold ends_with. f_equal.
  - destruct (starts_with [Ascii.eqb "Z"] s); [| reflexivity].
    cbn [Re.accept Re.accept_all]. apply andb_true_r.
  - destruct (starts_with offset_shape s); [| reflexivity].
    cbn [Re.accept Re.accept_all]. apply andb_true_r.
Qed.

Lemma compile_timestamp_patterns :
  Re.compile "(Z|[+-]\d\d:\d\d)$" =
    Some (Re.RCat
            (Re.RAlt (Re.RCat (Re.RChar "Z") Re.REmpty)
               (Re.RCat (Re.RClass [("+"%char, "+"%char); ("-"%char, "-"%char)])
                  (Re.RCat Re.RDigit (Re.RCat Re.RDigit
                     (Re.RCat (Re.RChar ":")
                        (Re.RCat Re.RDigit (Re.RCat Re.RDigit Re.REmpty)))))))
            (Re.RCat Re.REol Re.REmpty)) /\
  Re.compile "T\d\d:\d\d:\d\d" =
    Some (Re.RCat (Re.RChar "T")
            (Re.RCat Re.RDigit (Re.RCat Re.RDigit
               (Re.RCat (Re.RChar ":") (Re.RCat Re.RDigit (Re.RCat Re.RDigit
                  (Re.RCat (Re.RChar ":")
                     (Re.RCat Re.RDigit (Re.RCat Re.RDigit Re.REmpty))))))))).
Proof. split; vm_compute; reflexivity. Qed.

(** [re.search] with the two patterns of [validate_versions]. *)
Lemma re_search_zone created :
  exists found, Re.re_search "(Z|[+-]\d\d:\d\d)$" created = Ok found /\
                (found = true <-> has_zone created).
Proof.
  unfold Re.re_search. destruct compile_timestamp_patterns as [-> _].
  eexists. split; [reflexivity |]. rewrite search_from_spec. unfold has_zone.
  split; intros (prefix & rest & Hs & H); exists prefix, rest; (split; [exact Hs |]).
  - rewrite accept_zone_pattern in H. by apply orb_true_iff in H.
  - rewrite accept_zone_pattern. by apply orb_true_iff.
Qed.

Lemma re_search_time created :
  exists found, Re.re_search "T\d\d:\d\d:\d\d" created = Ok found /\
                (found = true <-> has_time created).
Proof.
  unfold Re.re_search. destruct compile_timestamp_patterns as [_ ->].
  eexists. split; [reflexivity |]. rewrite search_from_spec. unfold has_time.
  split; intros (prefix & rest & Hs & H); exists prefix, rest; (split; [exact Hs |]).
  - rewrite accept_time_pattern in H. destruct (starts_with time_shape rest); [eauto | done].
  - rewrite accept_time_pattern. by destruct H as [x ->].
Qed.

(* ------------------------------------------------------------------ *)
(** * Further properties: what [validate] accepts in silence *)
(* ------------------------------------------------------------------ *)

Lemma state_loop_clean (d : list (string * json)) v l : forall acc,
  good v ->
  (forall digest, In digest l ->
     accepts v digest = true /\
     exists files items, dict_get digest d = Some files /\ py_iter files = Ok items) ->
  fold_each l acc (fun digest digests =>
    pattern <- digest_regex ;;
    m <- re_match pattern (JStr digest) ;;
    if negb m then error "E305" [("digest", JStr digest)] ;; ret digests
    else
      files <- lift (py_getitem (JDict d) digest) ;;
      _ <- lift (py_iter files) ;;
      ret (digests ++ [digest])) v
  = (Ok (acc ++ l), v).
Proof.
  induction l as [| digest l IH]; intros acc Hv Hl.
  - cbn [fold_each]. unfold ret. by rewrite app_nil_r.
  - destruct (digest_regex_accepts v Hv) as (pattern & Hp & Hm).
    destruct (Hl digest (or_introl eq_refl)) as (Ha & files & items & Hfiles & Hitems).
    cbn [fold_each]. unfold bind at 1. unfold bind at 1. rewrite Hp.
    unfold bind at 1. rewrite Hm, Ha. cbn [negb].
    unfold bind at 1, lift at 1, py_getitem, py_index. cbn [hashable]. rewrite Hfiles.
    unfold bind at 1, lift at 1. rewrite Hitems. unfold ret at 1. cbv beta iota.
    etrans; [exact (IH (acc ++ [digest]) Hv (fun x Hx => Hl x (or_intror Hx))) |].
    by rewrite <- app_assoc.
Qed.

Lemma validate_state_block_clean st v :
  good v -> clean_state v st -> validate_state_block (JDict st) v = (Ok (dict_keys st), v).
Proof.
  intros Hv Hst. unfold validate_state_block.
  destruct (digest_regex_accepts v Hv) as (pattern & Hp & _).
  unfold bind at 1. rewrite Hp.
  exact (state_loop_clean st v (dict_keys st) [] Hv Hst).
Qed.

Lemma paths_loop_clean v (digest : string) paths : forall acc : list (json * string),
  all_chars literal (content_directory v) = true ->
  Forall (fun p => exists s, p = JStr s /\ content_path (content_directory v) s) paths ->
  exists files,
    fold_each paths acc (fun file manifest_files =>
      if hashable file then
        let manifest_files := dict_set py_same file digest manifest_files in
        ok <- is_valid_content_path file ;;
        when (negb ok) (error "E913" [("path", file)]) ;;
        ret manifest_files
      else raise TypeError) v
    = (Ok files, v).
Proof.
  intros acc Hlit Hpaths. revert acc.
  induction Hpaths as [| p paths (s & -> & Hs) _ IH]; intros acc.
  - by exists acc.
  - cbn [fold_each hashable]. cbv zeta. unfold bind at 1. unfold bind at 1.
    rewrite (is_valid_content_path_run v s Hlit).
    apply accept_content_pattern in Hs. rewrite Hs. cbn [negb when].
    unfold bind at 1, ret at 1, ret at 1. cbv beta iota.
    destruct (IH (dict_set py_same (JStr s) digest acc)) as [files Hfiles].
    exists files. exact Hfiles.
Qed.

Lemma manifest_loop_clean (m : list (string * json)) v l : forall acc,
  good v -> all_chars literal (content_directory v) = true ->
  (forall digest, In digest l ->
     accepts v digest = true /\
     exists paths,
       dict_get digest m = Some (JList paths) /\
       Forall (fun p => exists s, p = JStr s /\ content_path (content_directory v) s) paths) ->
  exists files,
    fold_each l acc (fun digest manifest_files =>
      pattern <- digest_regex ;;
      ok <- re_match pattern (JStr digest) ;;
      if negb ok then error "E304" [("digest", JStr digest)] ;; ret manifest_files
      else
        entry <- lift (py_getitem (JDict m) digest) ;;
        match entry with
        | JList files =>
            fold_each files manifest_files (fun file manifest_files =>
              if hashable file then
                let manifest_files := dict_set py_same file digest manifest_files in
                ok <- is_valid_content_path file ;;
                when (negb ok) (error "E913" [("path", file)]) ;;
                ret manifest_files
              else raise TypeError)
        | _ => error "E308" [("digest", JStr digest)] ;; ret manifest_files
        end) v
    = (Ok files, v).
Proof.
  induction l as [| digest l IH]; intros acc Hv Hlit Hl.
  - by exists acc.
  - destruct (digest_regex_accepts v Hv) as (pattern & Hp & Hm).
    destruct (Hl digest (or_introl eq_refl)) as (Ha & paths & Hget & Hpaths).
    cbn [fold_each]. unfold bind at 1. unfold bind at 1. rewrite Hp.
    unfold bind at 1. rewrite Hm, Ha. cbn [negb].
    unfold bind at 1, lift at 1, py_getitem, py_index. cbn [hashable]. rewrite Hget.
    cbv beta iota.
    destruct (paths_loop_clean v digest paths acc Hlit Hpaths) as [files Hfiles].
    destruct (IH files Hv Hlit (fun x Hx => Hl x (or_intror Hx))) as [files' Hrest].
    exists files'. etrans; [| exact Hrest].
    change (?f v = ?g v) with (f v = g v).
    match goal with
    | |- match ?x with _ => _ end = _ =>
        replace x with (@Ok (list (json * string)) files, v) by (symmetry; exact Hfiles)
    end.
    reflexivity.
Qed.

Lemma validate_manifest_clean m v :
  good v -> all_chars literal (content_directory v) = true ->
  clean_manifest v (content_directory v) m ->
  exists files, validate_manifest (JDict m) v = (Ok files, v).
Proof.
  intros Hv Hlit Hm. unfold validate_manifest.
  exact (manifest_loop_clean m v (dict_keys m) [] Hv Hlit Hm).
Qed.

Lemma bind_assoc {A B C} (m : M A) (k1 : A -> M B) (k2 : B -> M C) v :
  bind (bind m k1) k2 v = bind m (fun a => bind (k1 a) k2) v.
Proof. unfold bind. by destruct (m v) as [[a | e] v']. Qed.

Lemma run_bind_eq {A B} (m : M A) (k : A -> M B) v a v' :
  m v = (Ok a, v') -> bind m k v = k a v'.
Proof. unfold bind. by intros ->. Qed.

Section Clean.
Variable str_to_datetime : string -> outcome unit.

Lemma validate_version_clean vs name fields acc v :
  good v ->
  dict_get name vs = Some (JDict fields) ->
  clean_version str_to_datetime v fields ->
  validate_version str_to_datetime (JDict vs) name acc v =
  (Ok (acc ++ dict_keys (state_of vs name)), v).
Proof.
  intros Hv Hname ((created & Hcreated & Hdt & Hzone & Htime) & (st & Hstate & Hst) &
                   (message & Hmessage) & (user & uname & address & Huser & Huname & Haddress)).
  destruct (re_search_zone created) as (zone & Ezone & Hz).
  destruct (re_search_time created) as (time & Etime & Ht).
  apply Hz in Hzone. apply Ht in Htime. subst zone time.
  unfold state_of. rewrite Hname, Hstate.
  assert (Has : forall (d : list (string * json)) key x,
            dict_get key d = Some x -> dict_has key d = true)
    by (intros d key x Hx; unfold dict_has; by rewrite Hx).
  pose proof (Has _ _ _ Hcreated) as Hcreated'. pose proof (Has _ _ _ Hstate) as Hstate'.
  pose proof (Has _ _ _ Hmessage) as Hmessage'. pose proof (Has _ _ _ Huser) as Huser'.
  pose proof (Has _ _ _ Huname) as Huname'. pose proof (Has _ _ _ Haddress) as Haddress'.
  clear Has. unfold validate_version, re_search. cbv zeta.
  repeat (progress
    (cbn [bind lift ret when negb andb orb fst snd except_ValueError re_search is_str is_dict
          py_getitem py_in py_index py_contains hashable];
     rewrite ?Hname, ?Hcreated, ?Hdt, ?Ezone, ?Etime, ?Hstate, ?Hmessage, ?Huser, ?Huname,
       ?Haddress, ?Hcreated', ?Hstate', ?Hmessage', ?Huser', ?Huname', ?Haddress',
       ?bind_assoc,
       ?(run_bind_eq (validate_state_block (JDict st)) _ v _ v
           (validate_state_block_clean st v Hv Hst)))).
  reflexivity.
Qed.

Lemma validate_versions_clean vs v names : forall acc,
  good v ->
  (forall name, In name names ->
     exists fields,
       dict_get name vs = Some (JDict fields) /\ clean_version str_to_datetime v fields) ->
  fold_each names acc (validate_version str_to_datetime (JDict vs)) v =
  (Ok (acc ++ digests_of vs names), v).
Proof.
  induction names as [| name names IH]; intros acc Hv Hnames.
  - cbn [fold_each digests_of flat_map]. unfold ret. by rewrite app_nil_r.
  - destruct (Hnames name (or_introl eq_refl)) as (fields & Hname & Hclean).
    cbn [fold_each]. unfold bind.
    rewrite (validate_version_clean vs name fields acc v Hv Hname Hclean).
    rewrite (IH _ Hv (fun x Hx => Hnames x (or_intror Hx))).
    cbn [digests_of flat_map]. by rewrite app_assoc.
Qed.

End Clean.

Lemma count_from_In x j : forall n,
  In x (count_from n j) <-> (n <= x < n + N.of_nat j)%N.
Proof.
  induction j as [| j IH]; intros n; cbn [count_from In].
  - lia.
  - rewrite IH. lia.
Qed.

Lemma count_from_last j : forall n,
  count_from n (S j) = count_from n j ++ [(n + N.of_nat j)%N].
Proof.
  induction j as [| j IH]; intros n.
  - cbn [count_from app]. by rewrite N.add_0_r.
  - change (count_from n (S (S j))) with (n :: count_from (n + 1) (S j)).
    rewrite IH. cbn [count_from app]. do 3 f_equal. lia.
Qed.

Lemma at_index_snoc {A} (l : list A) x : at_index (l ++ [x]) (-1) = Ok x.
Proof.
  unfold at_index. change (-1 <? 0) with true. cbv iota.
  rewrite length_app. cbn [length].
  replace (Z.of_nat (length l + 1) + -1 <? 0) with false by (symmetry; apply Z.ltb_ge; lia).
  replace (Z.to_nat (Z.of_nat (length l + 1) + -1)) with (length l + 0)%nat by lia.
  by rewrite nth_error_app2, Nat.add_0_r, Nat.sub_diag by lia.
Qed.

Lemma longest_run_unique d zero_padded k k' :
  longest_run d zero_padded k -> longest_run d zero_padded k' -> k = k'.
Proof.
  assert (H : forall a b, longest_run d zero_padded a -> longest_run d zero_padded b ->
                          (a < b)%nat -> False).
  { intros a b (_ & _ & _ & Hnext) (_ & Hceil & Hall & _) Hlt.
    assert (Hin : In (version_name zero_padded (N.of_nat a + 1))
                     (version_names zero_padded b)).
    { unfold version_names. apply in_map. apply count_from_In. lia. }
    rewrite List.Forall_forall in Hall. specialize (Hall _ Hin).
    rewrite Hnext in Hall by lia. discriminate Hall. }
  intros Hk Hk'. destruct (Nat.lt_trichotomy k k') as [Hlt | [-> | Hlt]]; [| done |].
  - destruct (H k k' Hk Hk' Hlt).
  - destruct (H k' k Hk' Hk Hlt).
Qed.

Lemma validate_version_sequence_clean vs v k :
  longest_run vs None k -> out_of_sequence vs None k = false ->
  validate_version_sequence (JDict vs) v = (Ok (version_names None k), v).
Proof.
  intros Hrun Hfits. pose proof Hrun as (Hk & Hceil & Hall & _).
  assert (H1 : dict_has (version_name None 1) vs = true).
  { destruct k as [| k]; [lia |]. unfold version_names in Hall.
    cbn [count_from map] in Hall. by apply List.Forall_cons_iff in Hall as [H1 _]. }
  unfold validate_version_sequence. cbv zeta.
  change (dict_has "v1" vs) with (dict_has (version_name None 1) vs).
  change ["v1"] with [version_name None 1]. rewrite H1. cbn [when].
  rewrite (run_bind (ret tt) _ v tt eq_refl).
  destruct (walk_longest_run vs None v) as (k' & Hrun' & Hwalk); [done | exact H1 |].
  rewrite <- (longest_run_unique vs None k k' Hrun Hrun') in Hwalk.
  etrans; [exact Hwalk |]. by rewrite Hfits.
Qed.

Lemma version_names_last zero_padded k :
  (1 <= k)%nat ->
  at_index (version_names zero_padded k) (-1) = Ok (version_name zero_padded (N.of_nat k)).
Proof.
  intros Hk. destruct k as [| k]; [lia |]. unfold version_names.
  rewrite count_from_last, map_app. cbn [map]. rewrite at_index_snoc.
  do 2 f_equal. lia.
Qed.

Lemma same_set_iff a b :
  (forall x, In x a <-> In x b) -> same_set a b = true.
Proof.
  intros H. unfold same_set. apply andb_true_iff.
  split; apply forallb_forall; intros x Hx; apply mem_In; by apply H.
Qed.

Lemma check_id_clean d v iid :
  dict_get "id" d = Some (JStr iid) -> id_shape iid -> check_id (JDict d) v = (Ok tt, v).
Proof.
  intros Hd Hshape.
  unfold check_id, bind, lift, py_in, py_getitem, py_contains, py_index, dict_has.
  cbn [hashable]. rewrite Hd. cbn [is_str negb orb py_eq py_same].
  destruct (String.eqb_spec iid "") as [-> | _].
  { destruct Hshape as (scheme & c & rest & Hs & _). by destruct scheme. }
  unfold re_match. rewrite compile_id_pattern_is. unfold ret at 1.
  apply accept_id_pattern in Hshape. by rewrite Hshape.
Qed.

Section Accepts.
Variable str_to_datetime : string -> outcome unit.

(** An inventory that meets the conditions of [valid_inventory] is
    validated in silence: [validate] returns, the logger is the one it
    started with, and the validator holds the document, its content
    directory, the sequence v1 ... vk of its versions and its head.  The
    conditions: the validator's digest algorithm has a pattern; the [id]
    has the shape of a URI; [type] is the inventory type; [digestAlgorithm]
    is 'sha512'; [contentDirectory], if any, is safe and free of pattern
    syntax; every digest of the manifest is accepted and maps to a list of
    content paths; [versions] has v1 ... vk as its longest run and no
    key besides (at the ceiling of 999999, no more than that many), each with a
    timestamp with zone and time, a clean state, a message and a user with
    name and address; [head] is vk; the digests of the states are those of
    the manifest. *)
Theorem validate_accepts d v k :
  valid_inventory str_to_datetime v d k ->
  fst (validate str_to_datetime (JDict d) v) = Ok tt /\
  log (snd (validate str_to_datetime (JDict d) v)) = log v /\
  inventory (snd (validate str_to_datetime (JDict d) v)) = JDict d /\
  digest_algorithm (snd (validate str_to_datetime (JDict d) v)) = digest_algorithm v /\
  content_directory (snd (validate str_to_datetime (JDict d) v)) = directory_of v d /\
  all_versions (snd (validate str_to_datetime (JDict d) v)) = version_names None k /\
  head (snd (validate str_to_datetime (JDict d) v)) = JStr (version_name None (N.of_nat k)) /\
  is_Some (manifest_files (snd (validate str_to_datetime (JDict d) v))).
Proof.
  intros (Hv & (iid & Hid & Hshape) & Htype & Hda & Hsafe & Hlit & m & vs &
          Hm & Hvs & Hmanifest & Hrun & Hfits & Hversions & Hhead & Hsame).
  set (v0 := set_inventory (JDict d) v).
  set (v1 := match dict_get "contentDirectory" d with
             | Some (JStr s) => set_content_directory s v0
             | _ => v0
             end).
  assert (Hcd1 : content_directory v1 = directory_of v d).
  { unfold v1, directory_of. by destruct (dict_get "contentDirectory" d) as [[] |]. }
  assert (Hv1 : good v1).
  { unfold v1. by destruct (dict_get "contentDirectory" d) as [[] |]. }
  assert (Hacc1 : forall digest, accepts v1 digest = accepts v digest).
  { intros digest. unfold v1. by destruct (dict_get "contentDirectory" d) as [[] |]. }
  assert (Hlog1 : log v1 = log v /\ inventory v1 = JDict d /\
                  digest_algorithm v1 = digest_algorithm v).
  { unfold v1. by destruct (dict_get "contentDirectory" d) as [[] |]. }
  assert (Hdirectory : check_content_directory (JDict d) v0 = (Ok tt, v1)).
  { unfold check_content_directory, bind, lift, py_in, py_getitem, py_contains, py_index,
      dict_has, v1.
    cbn [hashable]. destruct (dict_get "contentDirectory" d) as [cd |] eqn:Hcd;
      [| reflexivity].
    specialize (Hsafe cd eq_refl). cbn [when]. destruct cd; try discriminate Hsafe.
    by rewrite Hsafe. }
  destruct (validate_manifest_clean m v1 Hv1) as [files Hfiles].
  { by rewrite Hcd1. }
  { rewrite Hcd1. intros digest Hin. rewrite Hacc1. by apply Hmanifest. }
  set (v2 := set_manifest_files (Some files) v1).
  set (names := version_names None k).
  set (v3 := set_all_versions names v2).
  assert (Hclean3 : forall name, In name names ->
            exists fields, dict_get name vs = Some (JDict fields) /\
                           clean_version str_to_datetime v3 fields).
  { intros name Hin. destruct (Hversions name Hin) as (fields & Hname & Hc1 & Hc2 & Hc3).
    exists fields. split; [exact Hname |]. split; [exact Hc1 | split; [| exact Hc3]].
    destruct Hc2 as (st & Hst & Hclean). exists st. split; [exact Hst |].
    intros digest Hdigest. destruct (Hclean digest Hdigest) as [Ha Hrest].
    split; [| exact Hrest]. change (accepts v1 digest = true). by rewrite Hacc1. }
  set (last := version_name None (N.of_nat k)).
  set (v4 := set_head (JStr last) v3).
  assert (Hvalidate : validate str_to_datetime (JDict d) v = (Ok tt, v4)).
  { unfold validate.
    rewrite (run_bind_eq (modify (set_inventory (JDict d))) _ v tt v0 eq_refl).
    rewrite (run_bind_eq _ _ v0 tt v0 (check_id_clean d v0 iid Hid Hshape)).
    rewrite (run_bind_eq (check_type (JDict d)) _ v0 tt v0).
    2: { unfold check_type, bind, lift, py_in, py_getitem, py_contains, py_index, dict_has.
         cbn [hashable]. by rewrite Htype. }
    rewrite (run_bind_eq (check_digest_algorithm (JDict d)) _ v0 tt v0).
    2: { unfold check_digest_algorithm, bind, lift, py_in, py_getitem, py_contains,
           py_index, dict_has.
         cbn [hashable]. by rewrite Hda. }
    rewrite (run_bind_eq _ _ v0 tt v1 Hdirectory).
    rewrite (run_bind_eq (check_manifest (JDict d)) _ v1 tt v2).
    2: { unfold check_manifest.
         rewrite (run_bind_eq (lift (py_in "manifest" (JDict d))) _ v1 true v1)
           by (unfold lift, py_in, py_contains, dict_has; cbn [hashable]; by rewrite Hm).
         cbn [negb].
         rewrite (run_bind_eq (lift (py_getitem (JDict d) "manifest")) _ v1 (JDict m) v1)
           by (unfold lift, py_getitem, py_index; cbn [hashable]; by rewrite Hm).
         by rewrite (run_bind_eq _ _ v1 files v1 Hfiles). }
    rewrite (run_bind_eq (check_versions str_to_datetime (JDict d)) _ v2
               (Some (digests_of vs names)) v3).
    2: { unfold check_versions.
         rewrite (run_bind_eq (lift (py_in "versions" (JDict d))) _ v2 true v2)
           by (unfold lift, py_in, py_contains, dict_has; cbn [hashable]; by rewrite Hvs).
         cbn [negb].
         rewrite (run_bind_eq (lift (py_getitem (JDict d) "versions")) _ v2 (JDict vs) v2)
           by (unfold lift, py_getitem, py_index; cbn [hashable]; by rewrite Hvs).
         rewrite (run_bind_eq _ _ v2 names v2
                    (validate_version_sequence_clean vs v2 k Hrun Hfits)).
         rewrite (run_bind_eq (modify (set_all_versions names)) _ v2 tt v3 eq_refl).
         unfold validate_versions.
         by rewrite (run_bind_eq _ _ v3 (digests_of vs names) v3
                       (validate_versions_clean str_to_datetime vs v3 names [] Hv1 Hclean3)). }
    rewrite (run_bind_eq (check_head (JDict d)) _ v3 tt v4).
    2: { unfold check_head.
         rewrite (run_bind_eq (lift (py_in "head" (JDict d))) _ v3 true v3)
           by (unfold lift, py_in, py_contains, dict_has; cbn [hashable]; by rewrite Hhead).
         rewrite (run_bind_eq (gets all_versions) _ v3 names v3 eq_refl).
         rewrite (run_bind_eq (lift (at_index names (-1))) _ v3 last v3)
           by (unfold lift, names; rewrite version_names_last; [done | by destruct Hrun]).
         rewrite (run_bind_eq (modify (set_head (JStr last))) _ v3 tt v4 eq_refl).
         rewrite (run_bind_eq (lift (py_getitem (JDict d) "head")) _ v4 (JStr last) v4)
           by (unfold lift, py_getitem, py_index; cbn [hashable]; by rewrite Hhead).
         cbn [py_eq py_same]. by rewrite String.eqb_refl. }
    unfold check_consistency.
    rewrite (run_bind_eq (lift (py_in "manifest" (JDict d))) _ v4 true v4)
      by (unfold lift, py_in, py_contains, dict_has; cbn [hashable]; by rewrite Hm).
    rewrite (run_bind_eq (lift (py_in "versions" (JDict d))) _ v4 true v4)
      by (unfold lift, py_in, py_contains, dict_has; cbn [hashable]; by rewrite Hvs).
    cbn [andb when].
    rewrite (run_bind_eq (lift (py_getitem (JDict d) "manifest")) _ v4 (JDict m) v4)
      by (unfold lift, py_getitem, py_index; cbn [hashable]; by rewrite Hm).
    unfold check_digests_present_and_used.
    by rewrite (same_set_iff (dict_keys m) (digests_of vs names) Hsame). }
  rewrite Hvalidate. cbn [fst snd].
  destruct Hlog1 as (Hlog & Hinv & Halg).
  split_and!; done.
Qed.

End Accepts.

Lemma validate_accepts_two_versions :
  let d := Samples.body "first" "second" ++ [("head", JStr "v2")] in
  let v := Samples.fresh "???" false in
  fst (validate Samples.any_datetime (JDict d) v) = Ok tt /\
  log (snd (validate Samples.any_datetime (JDict d) v)) = log v /\
  inventory (snd (validate Samples.any_datetime (JDict d) v)) = JDict d /\
  digest_algorithm (snd (validate Samples.any_datetime (JDict d) v)) = digest_algorithm v /\
  content_directory (snd (validate Samples.any_datetime (JDict d) v)) = directory_of v d /\
  all_versions (snd (validate Samples.any_datetime (JDict d) v)) = version_names None 2 /\
  head (snd (validate Samples.any_datetime (JDict d) v)) = JStr (version_name None 2) /\
  is_Some (manifest_files (snd (validate Samples.any_datetime (JDict d) v))).
Proof.
  intros d v. apply (validate_accepts Samples.any_datetime d v 2).
  assert (Hclean : forall message st,
    clean_state v st ->
    clean_version Samples.any_datetime v
      [("created", JStr "2018-01-01T00:00:00Z"); ("message", JStr message);
       ("user", JDict [("name", JStr "A"); ("address", JStr "mailto:a@example.org")]);
       ("state", JDict st)]).
  { intros message st Hst. split_and!.
    - exists "2018-01-01T00:00:00Z". split_and!; [reflexivity | reflexivity | |].
      + exists "2018-01-01T00:00:00", "Z". split; [reflexivity | left; reflexivity].
      + exists "2018-01-01", "T00:00:00Z". split; [reflexivity | by eexists].
    - exists st. split; [reflexivity | exact Hst].
    - by exists message.
    - exists [("name", JStr "A"); ("address", JStr "mailto:a@example.org")],
        "A", "mailto:a@example.org".
      split_and!; reflexivity. }
  split_and!.
  - left. reflexivity.
  - exists "info:x". split; [reflexivity |]. apply accept_id_pattern. vm_compute. reflexivity.
  - reflexivity.
  - reflexivity.
  - intros cd Hcd. discriminate Hcd.
  - vm_compute. reflexivity.
  - exists [(Samples.digest_a, JList [JStr "v1/content/a.txt"]);
            (Samples.digest_b, JList [JStr "v2/content/b.txt"])],
      [("v1", Samples.version "first" [(Samples.digest_a, JList [JStr "a.txt"])]);
       ("v2", Samples.version "second" [(Samples.digest_a, JList [JStr "a.txt"]);
                                        (Samples.digest_b, JList [JStr "b.txt"])])].
    split_and!.
    + reflexivity.
    + reflexivity.
    + intros digest [<- | [<- | []]].
      * split; [vm_compute; reflexivity |]. exists [JStr "v1/content/a.txt"].
        split; [vm_compute; reflexivity |]. constructor; [| constructor].
        exists "v1/content/a.txt". split; [reflexivity |].
        apply accept_content_pattern. vm_compute. reflexivity.
      * split; [vm_compute; reflexivity |]. exists [JStr "v2/content/b.txt"].
        split; [vm_compute; reflexivity |]. constructor; [| constructor].
        exists "v2/content/b.txt". split; [reflexivity |].
        apply accept_content_pattern. vm_compute. reflexivity.
    + split_and!.
      * lia.
      * vm_compute. discriminate.
      * repeat constructor.
      * intros _. vm_compute. reflexivity.
    + reflexivity.
    + intros name [<- | [<- | []]].
      * eexists. split; [reflexivity |]. apply Hclean.
        intros digest [<- | []]. split; [vm_compute; reflexivity |].
        exists (JList [JStr "a.txt"]), [JStr "a.txt"]. split; [vm_compute |]; reflexivity.
      * eexists. split; [reflexivity |]. apply Hclean.
        intros digest [<- | [<- | []]]; (split; [vm_compute; reflexivity |]).
        -- exists (JList [JStr "a.txt"]), [JStr "a.txt"]. split; [vm_compute |]; reflexivity.
        -- exists (JList [JStr "b.txt"]), [JStr "b.txt"]. split; [vm_compute |]; reflexivity.
    + reflexivity.
    + intros digest. vm_compute. tauto.
Defined.

(* ------------------------------------------------------------------ *)
(** * Further properties: the warnings on a timestamp *)
(* ------------------------------------------------------------------ *)

Section Timestamps.
Variable str_to_datetime : string -> outcome unit.

(** For a version whose [created] is a string that the parser takes,
    [validate_versions] warns W208 exactly when the string does not end
    with the letter Z or an offset (sign, two digits, colon, two digits; a
    final line feed apart), and W209 exactly when it holds no time of day
    (T, two digits, colon, two digits, colon, two digits) anywhere.  No
    other block of the version touches the two codes. *)
Theorem validate_version_timestamp vs name fields created acc v :
  dict_get name vs = Some (JDict fields) ->
  dict_get "created" fields = Some (JStr created) ->
  str_to_datetime created = Ok tt ->
  Log.codes (log v) !! "W208" = None ->
  Log.codes (log v) !! "W209" = None ->
  let v' := snd (validate_version str_to_datetime (JDict vs) name acc v) in
  (is_Some (Log.codes (log v') !! "W208") <-> ~ has_zone created) /\
  (is_Some (Log.codes (log v') !! "W209") <-> ~ has_time created).
Proof.
  intros Hname Hcreated Hdt H208 H209. cbv zeta.
  destruct (re_search_zone created) as (zone & Ezone & Hz).
  destruct (re_search_time created) as (time & Etime & Ht).
  set (v1 := if zone then v
             else set_log (Log.warn "W208" [("where", JStr (where_ v)); ("version", JStr name)]
                             (log v)) v).
  set (v2 := if time then v1
             else set_log (Log.warn "W209" [("where", JStr (where_ v1)); ("version", JStr name)]
                             (log v1)) v1).
  unfold validate_version, re_search. cbv zeta.
  rewrite (run_bind_eq (lift (py_getitem (JDict vs) name)) _ v (JDict fields) v)
    by (unfold lift, py_getitem, py_index; cbn [hashable]; by rewrite Hname).
  rewrite (run_bind_eq (lift (py_in "created" (JDict fields))) _ v true v)
    by (unfold lift, py_in, py_contains, dict_has; cbn [hashable]; by rewrite Hcreated).
  rewrite (run_bind_eq (lift (py_getitem (JDict fields) "created")) _ v (JStr created) v)
    by (unfold lift, py_getitem, py_index; cbn [hashable]; by rewrite Hcreated).
  rewrite (run_bind_eq (except_ValueError _ _) _ v tt v2).
  2: { unfold except_ValueError, bind, lift, when, warn, modify, ret, v2, v1.
       rewrite Hdt, Ezone, Etime. by destruct zone, time. }
  set (I := fun v' : validator => same_code "W208" v2 v' /\ same_code "W209" v2 v').
  assert (HS : respects I (fun code => code <> "W208" /\ code <> "W209")).
  { apply respects_and.
    - eapply respects_mono; [| apply respects_same_code]. by intros code [? _].
    - eapply respects_mono; [| apply respects_same_code]. by intros code [_ ?]. }
  match goal with |- context [snd (?rest v2)] => assert (Hrest : I (snd (rest v2))) end.
  { apply (keeps_run I any_exn); [| by split].
    unfold validate_state_block.
    repeat keeps_step;
      try solve [ apply raises_in_any
                | exact any_benign
                | eapply keeps_error; [exact HS | by split]
                | eapply keeps_warn; [exact HS | by split]
                | apply keeps_digest_regex_any ]. }
  destruct Hrest as [-> ->]. unfold v2, v1. split.
  - destruct zone.
    + assert (Hzone : has_zone created) by (by apply Hz).
      assert (Hnone : Log.codes (log (if time then v
                 else set_log (Log.warn "W209"
                        [("where", JStr (where_ v)); ("version", JStr name)] (log v)) v))
               !! "W208" = None).
      { destruct time; [exact H208 |]. cbn [log set_log].
        by rewrite codes_warn, lookup_insert_ne. }
      rewrite Hnone. split; [by intros [x Hx] | done].
    + assert (Hzone : ~ has_zone created) by (intros H; by apply Hz in H).
      split; [done | intros _]. destruct time; cbn [log set_log].
      * rewrite codes_warn, lookup_insert_eq. by eexists.
      * rewrite codes_warn, lookup_insert_ne by done. cbn [log set_log].
        rewrite codes_warn, lookup_insert_eq. by eexists.
  - destruct time.
    + assert (Htime : has_time created) by (by apply Ht).
      assert (Hnone : Log.codes (log (if zone then v
                 else set_log (Log.warn "W208"
                        [("where", JStr (where_ v)); ("version", JStr name)] (log v)) v))
               !! "W209" = None).
      { destruct zone; [exact H209 |]. cbn [log set_log].
        by rewrite codes_warn, lookup_insert_ne. }
      rewrite Hnone. split; [by intros [x Hx] | done].
    + assert (Htime : ~ has_time created) by (intros H; by apply Ht in H).
      split; [done | intros _]. cbn [log set_log].
      rewrite codes_warn, lookup_insert_eq. by eexists.
Qed.

End Timestamps.

Lemma validate_version_timestamp_no_zone :
  let v' := snd (validate_version Samples.any_datetime
                   (JDict [("v1", JDict [("created", JStr "2018-01-01T00:00:00")])])
                   "v1" [] (Samples.fresh "???" false)) in
  (is_Some (Log.codes (log v') !! "W208") <-> ~ has_zone "2018-01-01T00:00:00") /\
  (is_Some (Log.codes (log v') !! "W209") <-> ~ has_time "2018-01-01T00:00:00").
Proof.
  apply (validate_version_timestamp Samples.any_datetime
           [("v1", JDict [("created", JStr "2018-01-01T00:00:00")])] "v1"
           [("created", JStr "2018-01-01T00:00:00")] "2018-01-01T00:00:00" []
           (Samples.fresh "???" false)); reflexivity.
Defined.

(* ------------------------------------------------------------------ *)
(** * Further properties: the files of a manifest *)
(* ------------------------------------------------------------------ *)





Lemma is_valid_content_path_returns file v ok v' :
  is_valid_content_path file v = (Ok ok, v') -> v' = v /\ exists path, file = JStr path.
Proof.
  unfold is_valid_content_path, bind, gets, re_match.
  destruct (Re.compile _); [| discriminate]. destruct file; try discriminate.
  intros [= _ <-]. split; [reflexivity | by eexists].
Qed.

Lemma accepts_same v v' digest : same_digests v v' -> accepts v' digest = accepts v digest.
Proof. intros [Hda Hlax]. unfold accepts. by rewrite Hda. Qed.

Lemma good_same v v' : same_digests v v' -> good v -> good v'.
Proof. intros [Hda Hlax]. unfold good. by rewrite Hda, Hlax. Qed.





(* ------------------------------------------------------------------ *)
(** * Further properties: a silent lineage check has compared everything *)
(* ------------------------------------------------------------------ *)

Lemma louder_refl v : louder v v.
Proof. by left. Qed.

Lemma louder_count v0 v1 : louder v0 v1 -> (count v0 <= count v1)%nat.
Proof. intros [-> | H]; lia. Qed.

Lemma louder_trans v0 v1 v2 : louder v0 v1 -> louder v1 v2 -> louder v0 v2.
Proof.
  intros [-> | H1] H2; [exact H2 |]. right. apply louder_count in H2. lia.
Qed.

(** Going back to the first state, nothing was logged on the way. *)
Lemma louder_back v0 v1 : louder v0 v1 -> louder v1 v0 -> v1 = v0.
Proof.
  intros [-> | H1] H2; [reflexivity |]. apply louder_count in H2. lia.
Qed.

Lemma steps_ret {A} (a : A) : steps (ret a).
Proof. intros v0. apply louder_refl. Qed.

Lemma steps_raise {A} e : steps (@raise A e).
Proof. intros v0. apply louder_refl. Qed.

Lemma steps_lift {A} (o : outcome A) : steps (lift o).
Proof. intros v0. apply louder_refl. Qed.

Lemma steps_gets {A} (f : validator -> A) : steps (gets f).
Proof. intros v0. apply louder_refl. Qed.

Lemma steps_error code args : steps (error code args).
Proof.
  intros v0. right. unfold count, error, modify. cbn [snd log set_log].
  rewrite num_errors_error, num_warnings_error. lia.
Qed.

Lemma steps_warn code args : steps (warn code args).
Proof.
  intros v0. right. unfold count, warn, modify. cbn [snd log set_log].
  rewrite num_errors_warn, num_warnings_warn. lia.
Qed.

Lemma steps_bind {A B} (m : M A) (k : A -> M B) :
  steps m -> (forall a, steps (k a)) -> steps (bind m k).
Proof.
  intros Hm Hk v0. unfold bind. specialize (Hm v0).
  destruct (m v0) as [[a | e] v1]; cbn [snd] in *; [| exact Hm].
  eapply louder_trans; [exact Hm | apply Hk].
Qed.

Lemma steps_when b (m : M unit) : steps m -> steps (when b m).
Proof. intros Hm. destruct b; [exact Hm | apply steps_ret]. Qed.

Lemma steps_for_each {A} (l : list A) (body : A -> M unit) :
  (forall x, steps (body x)) -> steps (for_each l body).
Proof.
  intros Hbody. induction l as [| x l IH]; cbn [for_each]; [apply steps_ret |].
  apply steps_bind; [apply Hbody | intros _; exact IH].
Qed.

Lemma steps_for_each_bound {A} (l : list A) bound (body : A -> M unit) :
  (forall x, steps (body x)) -> steps (for_each_bound l bound body).
Proof.
  intros Hbody. revert bound. induction l as [| x l IH]; intros bound;
    cbn [for_each_bound]; [apply steps_ret |].
  apply steps_bind; [apply Hbody | intros _; apply IH].
Qed.

Ltac steps_step :=
  lazymatch goal with
  | |- steps (bind _ _) => apply steps_bind; [ | intros ? ]
  | |- steps (ret _) => apply steps_ret
  | |- steps (raise _) => apply steps_raise
  | |- steps (lift _) => apply steps_lift
  | |- steps (gets _) => apply steps_gets
  | |- steps (error _ _) => apply steps_error
  | |- steps (warn _ _) => apply steps_warn
  | |- steps (when _ _) => apply steps_when
  | |- steps (for_each _ _) => apply steps_for_each; intros ?
  | |- steps (for_each_bound _ _ _) => apply steps_for_each_bound; intros ?
  | |- steps (match ?x with _ => _ end) => destruct x
  end.

Ltac steps_tac := intros; cbv zeta; repeat steps_step.

(** A sequence that ends in the state it started from: so did its parts. *)
Lemma bind_silent {A B} (m : M A) (k : A -> M B) v0 b :
  steps m -> (forall a, steps (k a)) ->
  bind m k v0 = (Ok b, v0) ->
  exists a, m v0 = (Ok a, v0) /\ k a v0 = (Ok b, v0).
Proof.
  intros Hm Hk. unfold bind. specialize (Hm v0).
  destruct (m v0) as [[a | e] v1]; cbn [snd] in *; [| discriminate].
  intros Hrun. exists a. specialize (Hk a v1). rewrite Hrun in Hk. cbn [snd] in Hk.
  assert (v1 = v0) as -> by (by apply louder_back). by split.
Qed.

Lemma error_not_silent code args v0 (r : unit) : error code args v0 <> (Ok r, v0).
Proof.
  intros H. pose proof (steps_error code args v0) as [Heq | Hlt].
  - unfold error, modify in Heq. cbn [snd] in Heq.
    apply (f_equal (fun v => Log.num_errors (log v))) in Heq.
    cbn [log set_log] in Heq. rewrite num_errors_error in Heq. lia.
  - rewrite H in Hlt. cbn [snd] in Hlt. lia.
Qed.

Lemma warn_not_silent code args v0 (r : unit) : warn code args v0 <> (Ok r, v0).
Proof.
  intros H. pose proof (steps_warn code args v0) as [Heq | Hlt].
  - unfold warn, modify in Heq. cbn [snd] in Heq.
    apply (f_equal (fun v => Log.num_warnings (log v))) in Heq.
    cbn [log set_log] in Heq. rewrite num_warnings_warn in Heq. lia.
  - rewrite H in Hlt. cbn [snd] in Hlt. lia.
Qed.





(* ------------------------------------------------------------------ *)
(** * Further properties: what a silent [validate] has found *)
(* ------------------------------------------------------------------ *)

Lemma steps_fold_each {A B} (l : list A) (body : A -> B -> M B) : forall acc,
  (forall x acc, steps (body x acc)) -> steps (fold_each l acc body).
Proof.
  induction l as [| x l IH]; intros acc Hbody; cbn [fold_each]; [apply steps_ret |].
  apply steps_bind; [apply Hbody | intros acc'; by apply IH].
Qed.

Lemma steps_except {A} (m : M A) handler :
  steps m -> (forall msg, steps (handler msg)) -> steps (except_ValueError m handler).
Proof.
  intros Hm Hh v0. unfold except_ValueError. specialize (Hm v0).
  destruct (m v0) as [[a | e] v1]; cbn [snd] in *; try exact Hm.
  destruct e; try exact Hm. eapply louder_trans; [exact Hm | apply Hh].
Qed.

Lemma steps_re_match pattern x : steps (re_match pattern x).
Proof. unfold re_match. destruct (Re.compile pattern); [destruct x |]; steps_tac. Qed.

Lemma steps_digest_regex : steps digest_regex.
Proof. intros v0. rewrite digest_regex_state. apply louder_refl. Qed.

Lemma steps_is_valid_content_path path : steps (is_valid_content_path path).
Proof.
  unfold is_valid_content_path. apply steps_bind; [apply steps_gets |].
  intros cd. apply steps_re_match.
Qed.

Ltac steps_more_step :=
  first
    [ steps_step
    | apply steps_re_match
    | apply steps_digest_regex
    | apply steps_is_valid_content_path
    | apply steps_fold_each; intros ? ?
    | apply steps_except; [ | intros ? ]
    | match goal with |- steps (re_search _ _) => apply steps_lift end ].

Ltac steps_more := intros; cbv zeta; repeat steps_more_step.

Lemma steps_validate_manifest manifest : steps (validate_manifest manifest).
Proof. unfold validate_manifest. steps_more. Qed.

Lemma steps_walk_sequence fmt d max count : forall n acc,
  steps (walk_sequence fmt d max count n acc).
Proof.
  induction count as [| count IH]; intros n acc; cbn [walk_sequence]; cbv zeta.
  - steps_more.
  - destruct (dict_has _ d); [apply IH | steps_more].
Qed.

Lemma steps_validate_version_sequence versions : steps (validate_version_sequence versions).
Proof.
  unfold validate_version_sequence. destruct versions; try (steps_more; fail).
  cbv zeta. destruct (dict_has "v1" d).
  - apply steps_bind; [steps_more | intros _; apply steps_walk_sequence].
  - destruct (find_padding _ d) as [[[n fmt] vkey] |]; [| steps_more].
    apply steps_bind; [steps_more | intros _; apply steps_walk_sequence].
Qed.

Lemma steps_validate_state_block state : steps (validate_state_block state).
Proof. unfold validate_state_block. steps_more. Qed.

Section StepsVersions.
Variable str_to_datetime : string -> outcome unit.

Lemma steps_validate_version versions name acc :
  steps (validate_version str_to_datetime versions name acc).
Proof.
  unfold validate_version.
  repeat first [ apply steps_validate_state_block | steps_more_step | progress (intros; cbv zeta) ].
Qed.


Lemma steps_validate_versions versions names :
  steps (validate_versions str_to_datetime versions names).
Proof.
  unfold validate_versions. apply steps_fold_each. intros name acc.
  apply steps_validate_version.
Qed.

End StepsVersions.

Lemma steps_check_id inv : steps (check_id inv).
Proof. unfold check_id. steps_more. Qed.

Lemma steps_check_type inv : steps (check_type inv).
Proof. unfold check_type. steps_more. Qed.

Lemma steps_check_digests_present_and_used manifest digests_used :
  steps (check_digests_present_and_used manifest digests_used).
Proof. unfold check_digests_present_and_used. steps_more. Qed.

Lemma steps_check_consistency inv digests_used : steps (check_consistency inv digests_used).
Proof.
  unfold check_consistency.
  repeat first [ apply steps_check_digests_present_and_used | steps_more_step
               | progress (intros; cbv zeta) ].
Qed.

(** ** Counting what is logged *)

Lemma rising_steps {A} (m : M A) : steps m -> rising m.
Proof. intros Hm v0. apply louder_count, Hm. Qed.

Lemma rising_bind {A B} (m : M A) (k : A -> M B) :
  rising m -> (forall a, rising (k a)) -> rising (bind m k).
Proof.
  intros Hm Hk v0. unfold bind. specialize (Hm v0).
  destruct (m v0) as [[a | e] v1]; cbn [snd] in *; [| exact Hm].
  specialize (Hk a v1). lia.
Qed.

Lemma steps_back {A} (m : M A) v0 r v1 :
  steps m -> m v0 = (r, v1) -> (count v1 <= count v0)%nat -> v1 = v0.
Proof.
  intros Hm Hrun Hcount. specialize (Hm v0). rewrite Hrun in Hm.
  destruct Hm as [Heq | Hlt]; [exact Heq | cbn [snd] in Hlt; lia].
Qed.

(** A sequence that has logged nothing: neither have its parts. *)
Lemma bind_hush {A B} (m : M A) (k : A -> M B) v0 b v' :
  rising m -> (forall a, rising (k a)) ->
  bind m k v0 = (Ok b, v') -> (count v' <= count v0)%nat ->
  exists a v1, m v0 = (Ok a, v1) /\ (count v1 <= count v0)%nat /\
               k a v1 = (Ok b, v') /\ (count v' <= count v1)%nat.
Proof.
  intros Hm Hk. unfold bind. specialize (Hm v0).
  destruct (m v0) as [[a | e] v1]; cbn [snd] in *; [| discriminate].
  intros Hrun Hcount. exists a, v1. specialize (Hk a v1). rewrite Hrun in Hk.
  cbn [snd] in Hk. split_and!; [done | lia | done | lia].
Qed.

Lemma count_error code args v :
  count (set_log (Log.error code args (log v)) v) = S (count v).
Proof. unfold count. cbn [log set_log]. rewrite num_errors_error, num_warnings_error. lia. Qed.

Lemma count_warn code args v :
  count (set_log (Log.warn code args (log v)) v) = S (count v).
Proof. unfold count. cbn [log set_log]. rewrite num_errors_warn, num_warnings_warn. lia. Qed.

(** ** What a silent run has found *)

Lemma py_getitem_ok c key x :
  py_getitem c key = Ok x -> exists d, c = JDict d /\ dict_get key d = Some x.
Proof.
  destruct c; try discriminate. cbn. destruct (dict_get key d) eqn:E; [| discriminate].
  intros [= <-]. by exists d.
Qed.

Lemma lift_ok {A} (o : outcome A) v a v' : lift o v = (Ok a, v') -> o = Ok a.
Proof. unfold lift. congruence. Qed.

Lemma dict_get_ok (d : list (string * json)) key x v :
  lift (py_getitem (JDict d) key) v = (Ok x, v) -> dict_get key d = Some x.
Proof.
  unfold lift, py_getitem, py_index. cbn [hashable].
  destruct (dict_get key d); intros [= H]; by subst.
Qed.

Ltac noisy H :=
  exfalso; cbn [negb when is_str is_dict orb andb] in H;
  first
    [ exact (error_not_silent _ _ _ _ H)
    | exact (warn_not_silent _ _ _ _ H)
    | apply bind_silent in H as ([] & H & _); [ | steps_more ..];
      first [ exact (error_not_silent _ _ _ _ H) | exact (warn_not_silent _ _ _ _ H) ] ].

Lemma digest_regex_ok v pattern v' : digest_regex v = (Ok pattern, v') -> good v.
Proof.
  unfold digest_regex, bind, gets, ret, raise, good.
  destruct (py_eq (digest_algorithm v) (JStr "sha512")) eqn:E1.
  { apply py_eq_str in E1. by left. }
  destruct (py_eq (digest_algorithm v) (JStr "sha256")) eqn:E2.
  { apply py_eq_str in E2. by right; left. }
  destruct (lax_digests v); [by right; right | discriminate].
Qed.

Lemma state_loop_silent (d : list (string * json)) v l : forall acc r,
  good v ->
  fold_each l acc (fun digest digests =>
    pattern <- digest_regex ;;
    m <- re_match pattern (JStr digest) ;;
    if negb m then error "E305" [("digest", JStr digest)] ;; ret digests
    else
      files <- lift (py_getitem (JDict d) digest) ;;
      _ <- lift (py_iter files) ;;
      ret (digests ++ [digest])) v
  = (Ok r, v) ->
  forall digest, In digest l ->
    accepts v digest = true /\
    exists files items, dict_get digest d = Some files /\ py_iter files = Ok items.
Proof.
  induction l as [| digest l IH]; intros acc r Hv Hrun; [done |].
  cbn [fold_each] in Hrun.
  apply bind_silent in Hrun as (acc' & Hbody & Hrest); [| steps_more ..].
  destruct (digest_regex_accepts v Hv) as (pattern & Hp & Hm).
  rewrite (run_bind_eq _ _ _ _ _ Hp), (run_bind_eq _ _ _ _ _ (Hm digest v)) in Hbody.
  intros x [<- | Hx]; [| by eapply IH].
  destruct (accepts v digest); cbn [negb] in Hbody; [| noisy Hbody].
  split; [reflexivity |].
  apply bind_silent in Hbody as (files & Hfiles & Hbody); [| steps_more ..].
  apply bind_silent in Hbody as (items & Hitems & _); [| steps_more ..].
  apply dict_get_ok in Hfiles. apply lift_ok in Hitems. by exists files, items.
Qed.

Lemma validate_state_block_silent state v r :
  validate_state_block state v = (Ok r, v) ->
  good v /\ exists st, state = JDict st /\ clean_state v st.
Proof.
  unfold validate_state_block. intros Hrun.
  destruct state as [| | | | | | st]; try (noisy Hrun).
  apply bind_silent in Hrun as (pattern & Hp & Hrun); [| steps_more ..].
  apply digest_regex_ok in Hp. split; [exact Hp |]. exists st. split; [reflexivity |].
  exact (state_loop_silent st v (dict_keys st) [] r Hp Hrun).
Qed.

Lemma except_silent (m : M unit) code (args : string -> Log.kwargs) v r :
  steps m ->
  except_ValueError m (fun e => error code (args e)) v = (Ok r, v) ->
  m v = (Ok r, v).
Proof.
  intros Hm. unfold except_ValueError. specialize (Hm v).
  destruct (m v) as [[a | e] v1]; cbn [snd] in *.
  - by intros [= -> ->].
  - destruct e; try discriminate. intros Hrun.
    pose proof (steps_error code (args msg) v1) as Herr. rewrite Hrun in Herr.
    cbn [snd] in Herr. apply louder_count in Hm, Herr.
    apply (f_equal (fun p => count (snd p))) in Hrun. unfold error, modify in Hrun.
    cbn [snd] in Hrun. rewrite count_error in Hrun. lia.
Qed.

Ltac steps_all :=
  repeat first
    [ apply steps_validate_state_block
    | apply steps_validate_manifest
    | apply steps_validate_version_sequence
    | apply steps_validate_versions
    | apply steps_validate_version
    | apply steps_check_digests_present_and_used
    | steps_more_step
    | progress (intros; cbv zeta) ].

Section SilentVersions.
Variable str_to_datetime : string -> outcome unit.

Lemma validate_version_silent vs name acc v r :
  validate_version str_to_datetime (JDict vs) name acc v = (Ok r, v) ->
  good v /\
  exists fields, dict_get name vs = Some (JDict fields) /\ clean_version str_to_datetime v fields.
Proof.
  unfold validate_version. cbv zeta. intros H.
  apply bind_silent in H as (version & Hversion & H); [| steps_all ..].
  apply dict_get_ok in Hversion.
  apply bind_silent in H as (has_created & H1 & H); [| steps_all ..].
  apply bind_silent in H as (created & H2 & H); [| steps_all ..].
  apply bind_silent in H as ([] & H3 & H); [| steps_all ..].
  destruct has_created; [| noisy H3].
  destruct created as [| | | | created | |]; try (noisy H3).
  injection H2 as H2. apply py_getitem_ok in H2 as (fields & -> & Hcreated).
  apply except_silent in H3; [| steps_all].
  apply bind_silent in H3 as ([] & Hdt & H3); [| steps_all ..].
  apply lift_ok in Hdt.
  apply bind_silent in H3 as (zone & Hzone & H3); [| steps_all ..].
  apply bind_silent in H3 as ([] & Hwz & H3); [| steps_all ..].
  apply bind_silent in H3 as (time & Htime & Hwt); [| steps_all ..].
  destruct zone; [| noisy Hwz]. destruct time; [| noisy Hwt].
  apply lift_ok in Hzone, Htime.
  destruct (re_search_zone created) as (z & Ez & Hz).
  assert (z = true) as -> by congruence.
  destruct (re_search_time created) as (t & Et & Ht).
  assert (t = true) as -> by congruence.
  apply bind_silent in H as (has_state & H4 & H); [| steps_all ..].
  apply bind_silent in H as (digests & H5 & H); [| steps_all ..].
  destruct has_state; [| noisy H5].
  apply bind_silent in H5 as (state & Hstate & H5); [| steps_all ..].
  apply dict_get_ok in Hstate.
  apply bind_silent in H5 as (ds & Hblock & _); [| steps_all ..].
  apply validate_state_block_silent in Hblock as (Hgood & st & -> & Hst).
  apply bind_silent in H as (has_message & H6 & H); [| steps_all ..].
  apply bind_silent in H as ([] & H7 & H); [| steps_all ..].
  destruct has_message; cbn [negb] in H7; [| noisy H7].
  apply bind_silent in H7 as (message & Hmessage & H7); [| steps_all ..].
  apply dict_get_ok in Hmessage.
  destruct message as [| | | | message | |]; try (noisy H7).
  apply bind_silent in H as (has_user & H8 & H); [| steps_all ..].
  apply bind_silent in H as ([] & H9 & _); [| steps_all ..].
  destruct has_user; cbn [negb] in H9; [| noisy H9].
  apply bind_silent in H9 as (user & Huser & H9); [| steps_all ..].
  apply dict_get_ok in Huser.
  destruct user as [| | | | | | user]; cbn [is_dict negb] in H9; try (noisy H9).
  apply bind_silent in H9 as (has_name & H10 & H9); [| steps_all ..].
  apply bind_silent in H9 as (uname & Hname & H9); [| steps_all ..].
  apply bind_silent in H9 as ([] & H11 & H9); [| steps_all ..].
  destruct has_name; [| noisy H11]. apply dict_get_ok in Hname.
  destruct uname as [| | | | uname | |]; try (noisy H11).
  apply bind_silent in H9 as (has_address & H12 & H9); [| steps_all ..].
  destruct has_address; cbn [negb] in H9; [| noisy H9].
  apply bind_silent in H9 as (address & Haddress & H9); [| steps_all ..].
  apply dict_get_ok in Haddress.
  destruct address as [| | | | address | |]; try (noisy H9).
  split; [exact Hgood |]. exists fields. split; [exact Hversion |].
  split_and!.
  - exists created. split_and!; [done | done | by apply Hz | by apply Ht].
  - by exists st.
  - by exists message.
  - by exists user, uname, address.
Qed.


Lemma validate_versions_silent vs v names : forall acc r,
  fold_each names acc (validate_version str_to_datetime (JDict vs)) v = (Ok r, v) ->
  forall name, In name names ->
    good v /\
    exists fields,
      dict_get name vs = Some (JDict fields) /\ clean_version str_to_datetime v fields.
Proof.
  induction names as [| name names IH]; intros acc r Hrun; [done |].
  cbn [fold_each] in Hrun.
  apply bind_silent in Hrun as (acc' & Hbody & Hrest); [| steps_all ..].
  intros x [<- | Hx]; [by eapply validate_version_silent | by eapply IH].
Qed.

End SilentVersions.

Lemma validate_version_sequence_silent versions v names :
  validate_version_sequence versions v = (Ok names, v) ->
  exists vs k,
    versions = JDict vs /\ longest_run vs None k /\ out_of_sequence vs None k = false /\
    names = version_names None k.
Proof.
  unfold validate_version_sequence. intros Hrun.
  destruct versions as [| | | | | | vs]; try (noisy Hrun).
  cbv zeta in Hrun. exists vs.
  change (dict_has "v1" vs) with (dict_has (version_name None 1) vs) in Hrun.
  destruct (dict_has (version_name None 1) vs) eqn:H1.
  - cbn [when] in Hrun. rewrite (run_bind (ret tt) _ v tt eq_refl) in Hrun.
    destruct (walk_longest_run vs None v) as (k & Hk & Hwalk); [done | exact H1 |].
    exists k.
    assert (Hrun' : walk_sequence (version_format None) vs (version_ceiling None)
              (N.to_nat (version_ceiling None - 1)) 2 [version_name None 1] v = (Ok names, v))
      by exact Hrun.
    clear Hrun. rename Hrun' into Hrun.
    rewrite Hwalk in Hrun.
    destruct (out_of_sequence vs None k).
    + injection Hrun as _ Hrun. exfalso. apply (f_equal count) in Hrun.
      unfold with_error in Hrun. rewrite count_error in Hrun. lia.
    + by injection Hrun as <-.
  - destruct (find_padding _ vs) as [[[n fmt] vkey] |]; [| noisy Hrun].
    apply bind_silent in Hrun as ([] & Hwarn & _);
      [| steps_all | intros _; apply steps_walk_sequence].
    noisy Hwarn.
Qed.

Lemma paths_loop_silent v (digest : string) paths : forall (acc r : list (json * string)),
  all_chars literal (content_directory v) = true ->
  fold_each paths acc (fun file manifest_files =>
    if hashable file then
      let manifest_files := dict_set py_same file digest manifest_files in
      ok <- is_valid_content_path file ;;
      when (negb ok) (error "E913" [("path", file)]) ;;
      ret manifest_files
    else raise TypeError) v
  = (Ok r, v) ->
  Forall (fun p => exists s, p = JStr s /\ content_path (content_directory v) s) paths.
Proof.
  induction paths as [| file paths IH]; intros acc r Hlit Hrun; [by constructor |].
  cbn [fold_each] in Hrun.
  apply bind_silent in Hrun as (acc' & Hbody & Hrest); [| steps_all ..].
  constructor; [| by eapply IH].
  destruct (hashable file); [| discriminate Hbody]. cbv zeta in Hbody.
  apply bind_silent in Hbody as (ok & Hok & Hbody); [| steps_all ..].
  pose proof (is_valid_content_path_returns _ _ _ _ Hok) as (_ & path & ->).
  rewrite (is_valid_content_path_run v path Hlit) in Hok.
  apply bind_silent in Hbody as ([] & Hwhen & _); [| steps_all ..].
  destruct ok; [| noisy Hwhen].
  exists path. split; [reflexivity |]. apply accept_content_pattern. congruence.
Qed.

Lemma manifest_loop_silent (m : list (string * json)) v l : forall acc r,
  good v -> all_chars literal (content_directory v) = true ->
  fold_each l acc (fun digest manifest_files =>
    pattern <- digest_regex ;;
    ok <- re_match pattern (JStr digest) ;;
    if negb ok then error "E304" [("digest", JStr digest)] ;; ret manifest_files
    else
      entry <- lift (py_getitem (JDict m) digest) ;;
      match entry with
      | JList files =>
          fold_each files manifest_files (fun file manifest_files =>
            if hashable file then
              let manifest_files := dict_set py_same file digest manifest_files in
              ok <- is_valid_content_path file ;;
              when (negb ok) (error "E913" [("path", file)]) ;;
              ret manifest_files
            else raise TypeError)
      | _ => error "E308" [("digest", JStr digest)] ;; ret manifest_files
      end) v
  = (Ok r, v) ->
  forall digest, In digest l ->
    accepts v digest = true /\
    exists paths,
      dict_get digest m = Some (JList paths) /\
      Forall (fun p => exists s, p = JStr s /\ content_path (content_directory v) s) paths.
Proof.
  induction l as [| digest l IH]; intros acc r Hv Hlit Hrun; [done |].
  cbn [fold_each] in Hrun.
  apply bind_silent in Hrun as (acc' & Hbody & Hrest); [| steps_all ..].
  intros x [<- | Hx]; [| by eapply IH].
  destruct (digest_regex_accepts v Hv) as (pattern & Hp & Hm).
  rewrite (run_bind_eq _ _ _ _ _ Hp), (run_bind_eq _ _ _ _ _ (Hm digest v)) in Hbody.
  destruct (accepts v digest); cbn [negb] in Hbody; [| noisy Hbody].
  split; [reflexivity |].
  apply bind_silent in Hbody as (entry & Hentry & Hbody); [| steps_all ..].
  apply dict_get_ok in Hentry.
  destruct entry as [| | | | | paths |]; try (noisy Hbody).
  exists paths. split; [exact Hentry |]. by eapply paths_loop_silent.
Qed.

Lemma validate_manifest_silent manifest v files :
  good v -> all_chars literal (content_directory v) = true ->
  validate_manifest manifest v = (Ok files, v) ->
  exists m, manifest = JDict m /\ clean_manifest v (content_directory v) m.
Proof.
  intros Hv Hlit. unfold validate_manifest. intros Hrun.
  destruct manifest as [| | | | | | m]; try (noisy Hrun).
  exists m. split; [reflexivity |].
  exact (manifest_loop_silent m v (dict_keys m) [] files Hv Hlit Hrun).
Qed.

Lemma check_id_silent d v :
  check_id (JDict d) v = (Ok tt, v) ->
  exists iid, dict_get "id" d = Some (JStr iid) /\ id_shape iid.
Proof.
  unfold check_id. intros Hrun.
  apply bind_silent in Hrun as (has_id & Hhas & Hrun); [| steps_all ..].
  destruct has_id; [| noisy Hrun].
  apply bind_silent in Hrun as (iid & Hid & Hrun); [| steps_all ..].
  apply dict_get_ok in Hid.
  destruct iid as [| | | | iid | |]; try (noisy Hrun).
  cbn [is_str negb orb] in Hrun.
  destruct (py_eq (JStr iid) (JStr "")); [noisy Hrun |].
  apply bind_silent in Hrun as (ok & Hok & Hrun); [| steps_all ..].
  destruct ok; [| noisy Hrun].
  exists iid. split; [exact Hid |]. apply accept_id_pattern.
  unfold re_match in Hok. rewrite compile_id_pattern_is in Hok. unfold ret in Hok. congruence.
Qed.

Lemma check_type_silent d v :
  check_type (JDict d) v = (Ok tt, v) ->
  dict_get "type" d = Some (JStr "https://ocfl.io/1.0/spec/#inventory").
Proof.
  unfold check_type. intros Hrun.
  apply bind_silent in Hrun as (has_type & Hhas & Hrun); [| steps_all ..].
  destruct has_type; cbn [negb] in Hrun; [| noisy Hrun].
  apply bind_silent in Hrun as (type & Htype & Hrun); [| steps_all ..].
  apply dict_get_ok in Htype.
  destruct (py_eq type (JStr "https://ocfl.io/1.0/spec/#inventory")) eqn:E; [| noisy Hrun].
  apply py_eq_str in E. by subst.
Qed.

Ltac count_tac :=
  unfold count in *; cbn [log set_log set_inventory set_digest_algorithm set_content_directory
                          set_head set_all_versions set_manifest_files] in *;
  rewrite ?num_errors_error, ?num_warnings_error, ?num_errors_warn, ?num_warnings_warn in *;
  lia.

Lemma check_digest_algorithm_hush d v v' :
  lax_digests v = false ->
  check_digest_algorithm (JDict d) v = (Ok tt, v') -> (count v' <= count v)%nat ->
  v' = v /\ dict_get "digestAlgorithm" d = Some (JStr "sha512").
Proof.
  intros Hlax.
  unfold check_digest_algorithm, bind, lift, gets, py_in, py_getitem, py_contains, py_index,
    dict_has.
  cbn [hashable]. destruct (dict_get "digestAlgorithm" d) as [da |]; cbn [negb].
  2: { unfold error, modify. intros [= <-] Hc. count_tac. }
  destruct (py_eq da (JStr "sha512")) eqn:E.
  { apply py_eq_str in E as ->. unfold ret. by intros [= <-]. }
  rewrite Hlax. destruct (py_eq da (JStr "sha256")).
  - unfold warn, modify. intros [= <-] Hc. count_tac.
  - unfold error, modify. intros [= <-] Hc. count_tac.
Qed.

Lemma check_content_directory_hush d v v' :
  check_content_directory (JDict d) v = (Ok tt, v') -> (count v' <= count v)%nat ->
  (forall cd, dict_get "contentDirectory" d = Some cd -> unsafe_content_directory cd = false) /\
  v' = match dict_get "contentDirectory" d with
       | Some (JStr s) => set_content_directory s v
       | _ => v
       end.
Proof.
  unfold check_content_directory, bind, lift, py_in, py_getitem, py_contains, py_index,
    dict_has.
  cbn [hashable]. destruct (dict_get "contentDirectory" d) as [cd |]; cbn [when].
  2: { unfold ret. by intros [= <-]. }
  destruct cd as [| | | | s | |]; try (unfold error, modify; intros [= <-] Hc; count_tac).
  destruct (unsafe_content_directory (JStr s)) eqn:E.
  - unfold error, modify. intros [= <-] Hc. count_tac.
  - unfold modify. intros [= <-] _. split; [| reflexivity]. by intros cd [= <-].
Qed.

Lemma check_manifest_hush d v v' :
  check_manifest (JDict d) v = (Ok tt, v') -> (count v' <= count v)%nat ->
  exists manifest files,
    dict_get "manifest" d = Some manifest /\
    validate_manifest manifest v = (Ok files, v) /\ v' = set_manifest_files (Some files) v.
Proof.
  unfold check_manifest, bind, lift, py_in, py_getitem, py_contains, py_index, dict_has.
  cbn [hashable]. destruct (dict_get "manifest" d) as [manifest |]; cbn [negb].
  2: { unfold error, modify. intros [= <-] Hc. count_tac. }
  destruct (validate_manifest manifest v) as [[files | e] v1] eqn:Hm; [| discriminate].
  unfold modify. intros [= <-] Hc.
  assert (v1 = v) as ->.
  { eapply steps_back; [apply steps_validate_manifest | exact Hm | count_tac]. }
  by exists manifest, files.
Qed.

Section HushVersions.
Variable str_to_datetime : string -> outcome unit.

Lemma check_versions_hush d v digests_used v' :
  check_versions str_to_datetime (JDict d) v = (Ok digests_used, v') ->
  (count v' <= count v)%nat ->
  exists versions names digests,
    dict_get "versions" d = Some versions /\
    validate_version_sequence versions v = (Ok names, v) /\
    v' = set_all_versions names v /\ digests_used = Some digests /\
    validate_versions str_to_datetime versions names v' = (Ok digests, v').
Proof.
  unfold check_versions, bind, lift, py_in, py_getitem, py_contains, py_index, dict_has.
  cbn [hashable]. destruct (dict_get "versions" d) as [versions |]; cbn [negb].
  2: { unfold error, modify, ret. intros [= _ <-] Hc. count_tac. }
  destruct (validate_version_sequence versions v) as [[names | e] v1] eqn:Hseq;
    [| discriminate].
  unfold modify.
  destruct (validate_versions str_to_datetime versions names (set_all_versions names v1))
    as [[digests | e] v2] eqn:Hvs; [| discriminate].
  unfold ret. intros [= <- <-] Hc.
  pose proof (steps_validate_version_sequence versions v) as H1. rewrite Hseq in H1.
  pose proof (steps_validate_versions str_to_datetime versions names
                (set_all_versions names v1)) as H2. rewrite Hvs in H2.
  cbn [snd] in H1, H2. apply louder_count in H1. pose proof (louder_count _ _ H2) as H2'.
  assert (Hc1 : count (set_all_versions names v1) = count v1) by reflexivity.
  assert (v1 = v) as ->.
  { eapply steps_back; [apply steps_validate_version_sequence | exact Hseq | lia]. }
  assert (v2 = set_all_versions names v) as ->.
  { eapply steps_back; [apply steps_validate_versions | exact Hvs | lia]. }
  by exists versions, names, digests.
Qed.

End HushVersions.

Lemma check_head_hush d v v' :
  check_head (JDict d) v = (Ok tt, v') -> (count v' <= count v)%nat ->
  exists last,
    at_index (all_versions v) (-1) = Ok last /\ dict_get "head" d = Some (JStr last) /\
    v' = set_head (JStr last) v.
Proof.
  unfold check_head, bind, lift, gets, modify, py_in, py_getitem, py_contains, py_index,
    dict_has.
  cbn [hashable]. destruct (dict_get "head" d) as [got |].
  2: { unfold error, modify. intros [= <-] Hc. count_tac. }
  destruct (at_index (all_versions v) (-1)) as [last | e]; [| discriminate].
  destruct (py_eq got (JStr last)) eqn:E; cbn [negb when].
  - apply py_eq_str in E as ->. unfold ret. intros [= <-] _. by exists last.
  - unfold error, modify. intros [= <-] Hc. count_tac.
Qed.

Lemma same_set_In a b : same_set a b = true -> forall x, In x a <-> In x b.
Proof.
  unfold same_set. rewrite andb_true_iff, !forallb_forall. intros [Hab Hba] x.
  split; intros Hx; apply mem_In; auto.
Qed.

Lemma check_consistency_silent d m versions digests v :
  dict_get "manifest" d = Some (JDict m) -> dict_get "versions" d = Some versions ->
  check_consistency (JDict d) (Some digests) v = (Ok tt, v) ->
  same_set (dict_keys m) digests = true.
Proof.
  intros Hm Hvs.
  unfold check_consistency, bind, lift, py_in, py_getitem, py_contains, py_index, dict_has.
  cbn [hashable]. rewrite Hm, Hvs. cbn [andb when].
  unfold check_digests_present_and_used.
  destruct (same_set (dict_keys m) digests) eqn:E; [done |]. cbn [negb when]. cbv zeta.
  intros Hrun. apply bind_silent in Hrun as ([] & H1 & H2); [| steps_all ..].
  rewrite <- E. apply same_set_lists. unfold not_in_manifest, not_in_state. split.
  - destruct (List.filter _ digests); [reflexivity | noisy H1].
  - destruct (List.filter _ (dict_keys m)); [reflexivity | noisy H2].
Qed.

Ltac rising_step :=
  lazymatch goal with
  | |- rising (bind _ _) => apply rising_bind; [ | intros ? ]
  | |- rising (modify _) => intros ?; exact (Nat.le_refl _)
  | |- rising (when ?b _) => destruct b; cbn [when]
  | |- rising (match ?x with _ => _ end) => destruct x
  | |- rising _ =>
      apply rising_steps;
      solve [ first [ apply steps_check_id | apply steps_check_type
                    | apply steps_check_consistency | steps_all ] ]
  end.

Ltac rising_tac := intros; cbv zeta; repeat rising_step.

Lemma rising_check_digest_algorithm inv : rising (check_digest_algorithm inv).
Proof. unfold check_digest_algorithm. rising_tac. Qed.

Lemma rising_check_content_directory inv : rising (check_content_directory inv).
Proof. unfold check_content_directory. rising_tac. Qed.

Lemma rising_check_manifest inv : rising (check_manifest inv).
Proof. unfold check_manifest. rising_tac. Qed.

Lemma rising_check_head inv : rising (check_head inv).
Proof. unfold check_head. rising_tac. Qed.

Section Converse.
Variable str_to_datetime : string -> outcome unit.

Lemma rising_check_versions inv : rising (check_versions str_to_datetime inv).
Proof. unfold check_versions. rising_tac. Qed.

Ltac rising_all :=
  intros;
  repeat first
    [ apply rising_check_digest_algorithm | apply rising_check_content_directory
    | apply rising_check_manifest | apply rising_check_versions | apply rising_check_head
    | rising_step ].

Lemma clean_state_same v v' st : same_digests v v' -> clean_state v' st -> clean_state v st.
Proof.
  intros Hsame Hst digest Hin. destruct (Hst digest Hin) as [Ha Hrest].
  split; [| exact Hrest]. by rewrite <- (accepts_same v v' digest Hsame).
Qed.

(** The converse of [validate_accepts], for a validator that is not lax and
    a content directory free of pattern syntax: when [validate] returns on
    a dictionary and the logger has counted no call more than before, the
    inventory meets the conditions of [valid_inventory] for some k.  So the
    validator's digest algorithm has a pattern; [id] is a string with the
    shape of a URI; [type] is the inventory type; [digestAlgorithm] is
    'sha512'; every digest of the manifest is accepted and maps to a list
    of strings that are content paths; [versions] has v1 ... vk as its
    longest run and passes the test of E312; each of them is a dictionary
    with a timestamp that the parser takes and that names a zone and a
    time, a state whose digests are accepted, a message and a user with
    name and address; [head] is vk; the digests of the states are those of
    the manifest. *)
Theorem validate_silent d v v' :
  lax_digests v = false ->
  all_chars literal (directory_of v d) = true ->
  validate str_to_datetime (JDict d) v = (Ok tt, v') ->
  count v' = count v ->
  exists k, valid_inventory str_to_datetime v d k.
Proof.
  intros Hlax Hlit Hrun Hcount. unfold validate in Hrun.
  assert (Hc : (count v' <= count v)%nat) by lia. clear Hcount.
  apply bind_hush in Hrun as ([] & v0 & H0 & _ & Hrun & Hc0); [| rising_all .. | exact Hc].
  unfold modify in H0. injection H0 as <-.
  set (v0 := set_inventory (JDict d) v) in *.
  apply bind_hush in Hrun as ([] & v1 & H1 & Hc1 & Hrun & Hc1'); [| rising_all .. | exact Hc0].
  assert (v1 = v0) as -> by (eapply steps_back; [apply steps_check_id | exact H1 | exact Hc1]).
  apply bind_hush in Hrun as ([] & v2 & H2 & Hc2 & Hrun & Hc2'); [| rising_all .. | exact Hc1'].
  assert (v2 = v0) as -> by (eapply steps_back; [apply steps_check_type | exact H2 | exact Hc2]).
  apply bind_hush in Hrun as ([] & v3 & H3 & Hc3 & Hrun & Hc3'); [| rising_all .. | exact Hc2'].
  destruct (check_digest_algorithm_hush d v0 v3 Hlax H3 Hc3) as [-> Hda].
  apply bind_hush in Hrun as ([] & v4 & H4 & Hc4 & Hrun & Hc4'); [| rising_all .. | exact Hc3'].
  destruct (check_content_directory_hush d v0 v4 H4 Hc4) as [Hsafe Hv4].
  apply bind_hush in Hrun as ([] & v5 & H5 & Hc5 & Hrun & Hc5'); [| rising_all .. | exact Hc4'].
  destruct (check_manifest_hush d v4 v5 H5 Hc5) as (manifest & files & Hm & Hfiles & Hv5).
  apply bind_hush in Hrun as (digests_used & v6 & H6 & Hc6 & Hrun & Hc6');
    [| rising_all .. | exact Hc5'].
  destruct (check_versions_hush str_to_datetime d v5 digests_used v6 H6 Hc6)
    as (versions & names & digests & Hvs & Hseq & Hv6 & -> & Hversions).
  apply bind_hush in Hrun as ([] & v7 & H7 & Hc7 & Hrun & Hc7'); [| rising_all .. | exact Hc6'].
  destruct (check_head_hush d v6 v7 H7 Hc7) as (last & Hlast & Hhead & Hv7).
  assert (v' = v7) as ->
    by (eapply steps_back; [apply steps_check_consistency | exact Hrun | exact Hc7']).
  apply validate_version_sequence_silent in Hseq as (vs & k & -> & Hk & Hfits & Hnames).
  assert (Hs4 : same_digests v v4 /\ content_directory v4 = directory_of v d).
  { rewrite Hv4. unfold directory_of. by destruct (dict_get "contentDirectory" d) as [[] |]. }
  destruct Hs4 as [Hs4 Hcd4].
  assert (Hs6 : same_digests v v6) by (by rewrite Hv6, Hv5).
  unfold validate_versions in Hversions.
  pose proof (validate_versions_silent str_to_datetime vs v6 names [] digests Hversions)
    as Hclean.
  assert (Hv : good v6).
  { apply (Hclean (version_name None 1)). rewrite Hnames. unfold version_names.
    apply in_map, count_from_In. destruct Hk as [Hk _]. lia. }
  assert (Hgood : good v).
  { destruct Hs6 as [Ha Hl]. unfold good in *. by rewrite <- Ha, <- Hl. }
  assert (Hv4' : good v4) by (by apply (good_same v v4)).
  destruct (validate_manifest_silent manifest v4 files Hv4') as (m & -> & Hmanifest);
    [by rewrite Hcd4 | exact Hfiles |].
  assert (Hdigests : digests = digests_of vs names).
  { pose proof (validate_versions_clean str_to_datetime vs v6 names [] Hv
                  (fun name Hin => proj2 (Hclean name Hin))) as Hfwd.
    rewrite Hfwd in Hversions. by injection Hversions as <-. }
  assert (Hsame : same_set (dict_keys m) digests = true)
    by (by eapply check_consistency_silent).
  apply check_id_silent in H1. apply check_type_silent in H2.
  exists k. split; [exact Hgood |]. split; [exact H1 |]. split; [exact H2 |].
  split; [exact Hda |]. split; [exact Hsafe |]. split; [exact Hlit |].
  exists m, vs. split_and!; try done.
  - intros digest Hin. destruct (Hmanifest digest Hin) as [Ha Hpaths].
    rewrite Hcd4 in Hpaths. split; [| exact Hpaths].
    by rewrite <- (accepts_same v v4 digest Hs4).
  - rewrite <- Hnames. intros name Hin.
    destruct (Hclean name Hin) as (_ & fields & Hname & Hc1x & (st & Hst & Hcs) & Hc3x).
    exists fields. split; [exact Hname |]. split; [exact Hc1x |]. split; [| exact Hc3x].
    exists st. split; [exact Hst |]. by apply (clean_state_same v v6).
  - rewrite Hv6 in Hlast. cbn [all_versions set_all_versions] in Hlast.
    rewrite Hnames, version_names_last in Hlast by (by destruct Hk).
    injection Hlast as <-. exact Hhead.
  - rewrite <- Hnames, <- Hdigests. by apply same_set_In.
Qed.

End Converse.

Lemma validate_silent_two_versions :
  let d := Samples.body "first" "second" ++ [("head", JStr "v2")] in
  let v := Samples.fresh "???" false in
  exists k, valid_inventory Samples.any_datetime v d k.
Proof.
  intros d v.
  apply (validate_silent Samples.any_datetime d v
           (snd (validate Samples.any_datetime (JDict d) v)));
    vm_compute; reflexivity.
Defined.
